(** * Voice-agent media stream handler

    A shallow embedding of [server/services/mediaStreamHandler.js]: the
    per-call session object, the chunked delivery of synthesized audio to
    the telephony transport, the recognizer's transcript handler with
    barge-in, the inbound media handler, and the process-wide session
    registry.  An earlier revision of the same handler, in which the
    session exists before the transport's start signal and the start
    handler drains the queue of pending clips, is embedded in [Module
    QueuedStart].

    Conventions of the embedding.
    - A JavaScript string is a [string], read as a sequence of 8-bit code
      units; [String.length] is the source's [.length].
    - A [Buffer] is a [list byte].
    - The socket [session.ws] is represented by the frames sent through it
      so far, oldest first; [ws.send] appends one frame and does not
      throw, so the [catch] blocks that only guard [ws.send] have no
      counterpart here.
    - An [await] on the response generator or on the speech synthesizer
      takes its outcome from the caller of the embedded function; the
      requests themselves are recorded in [Services].
    - Nobody awaits a listener, so events are handled while a listener
      is suspended.  The listeners are therefore also embedded cut at
      their [await]s, and [run] handles the events of a call, settlings
      included, in the order in which they happen.  The functions that
      take the outcomes of the awaits as arguments ([on_Transcript],
      [speakWithInterruption], [on_Transcripts]) are the runs in which
      nothing happens while a listener is suspended.
    - [console.log] output is not part of the state, except in the
      registry's trace. *)

From Stdlib Require Import String Ascii List Arith Lia Bool.
From Stdlib.Strings Require Import Byte.
From stdpp Require Import base gmap strings list.
From Equations Require Import Equations.

Local Open Scope nat_scope.

(** ** JavaScript strings *)

Module JS.

(** Truthiness of a value that is a string, [null] or [undefined]. *)
Definition truthy (v : option string) : bool :=
  match v with
  | Some s => negb (String.eqb s "")
  | None => false
  end.

(** [s.slice(b, e)] for [0 <= b <= e]. *)
Definition slice (s : string) (b e : nat) : string := substring b (e - b) s.

(** White space as [String.prototype.trim] sees it, among the 8-bit code
    units: TAB, LF, VT, FF, CR, SPACE and NBSP. *)
Definition isWhiteSpace (c : ascii) : bool :=
  let n := nat_of_ascii c in
  (Nat.leb 9 n && Nat.leb n 13) || Nat.eqb n 32 || Nat.eqb n 160.

Fixpoint trimStart (s : string) : string :=
  match s with
  | EmptyString => EmptyString
  | String c s' => if isWhiteSpace c then trimStart s' else s
  end.

Fixpoint rev_append (s acc : string) : string :=
  match s with
  | EmptyString => acc
  | String c s' => rev_append s' (String c acc)
  end.

Definition reverse (s : string) : string := rev_append s EmptyString.

Definition trim (s : string) : string :=
  reverse (trimStart (reverse (trimStart s))).

(** [!s.trim()]: the text is empty or only white space. *)
Definition blank (s : string) : bool := negb (truthy (Some (trim s))).

End JS.

(** ** [Buffer.prototype.toString("base64")] *)

Abbreviation Buffer := (list byte).

Definition base64_alphabet : string :=
  "ABCDEFGHIJKLMNOPQRSTUVWXYZabcdefghijklmnopqrstuvwxyz0123456789+/".

Definition base64_digit (n : nat) : ascii :=
  match String.get n base64_alphabet with
  | Some c => c
  | None => "="%char
  end.

Fixpoint toString_base64 (buf : Buffer) : string :=
  match buf with
  | [] => EmptyString
  | [a] =>
      let a := Byte.to_nat a in
      String (base64_digit (a / 4))
        (String (base64_digit (a mod 4 * 16)) "==")
  | [a; b] =>
      let a := Byte.to_nat a in
      let b := Byte.to_nat b in
      String (base64_digit (a / 4))
        (String (base64_digit (a mod 4 * 16 + b / 16))
           (String (base64_digit (b mod 16 * 4)) "="))
  | a :: b :: c :: rest =>
      let a := Byte.to_nat a in
      let b := Byte.to_nat b in
      let c := Byte.to_nat c in
      String (base64_digit (a / 4))
        (String (base64_digit (a mod 4 * 16 + b / 16))
           (String (base64_digit (b mod 16 * 4 + c / 64))
              (String (base64_digit (c mod 64)) (toString_base64 rest))))
  end.

(** ** Data model *)

(** Frames written to the transport with [ws.send(JSON.stringify(...))].
    The [streamSid] field carries whatever [session.streamSid] holds. *)
Inductive Frame : Type :=
| media (streamSid : option string) (payload : string)
| mark (streamSid : option string) (name : string)
| clear (streamSid : option string).

Inductive Role : Type := user | model.

Record Part : Type := mkPart { text : string }.
Record Turn : Type := mkTurn { role : Role; parts : list Part }.

(** The recognizer's live stream, as far as the message listener acts on
    it: the audio buffers passed to its [send], oldest first. *)
Record SttStream : Type := mkSttStream {
  stt_sent : list Buffer
}.

Record Session : Type := mkSession {
  callId : string;
  context : list Turn;
  sttStream : option SttStream;
  agentPrompt : string;
  agentVoiceId : string;
  ws : list Frame;
  streamSid : option string;
  isReady : bool;
  audioQueue : list Buffer;
  isAISpeaking : bool;
  currentAudioChunks : list Buffer;
  userSpeechDetected : bool;
  interimTranscript : string;
  silenceTimer : option nat;
  conversationBuffer : list string;
  greetingMessage : option string
}.

(** Field assignments [session.f = v]. *)
Definition set_context (v : list Turn) (s : Session) : Session :=
  mkSession (callId s) v (sttStream s) (agentPrompt s) (agentVoiceId s)
    (ws s) (streamSid s) (isReady s) (audioQueue s) (isAISpeaking s)
    (currentAudioChunks s) (userSpeechDetected s) (interimTranscript s)
    (silenceTimer s) (conversationBuffer s) (greetingMessage s).

Definition set_sttStream (v : option SttStream) (s : Session) : Session :=
  mkSession (callId s) (context s) v (agentPrompt s) (agentVoiceId s)
    (ws s) (streamSid s) (isReady s) (audioQueue s) (isAISpeaking s)
    (currentAudioChunks s) (userSpeechDetected s) (interimTranscript s)
    (silenceTimer s) (conversationBuffer s) (greetingMessage s).

Definition set_ws (v : list Frame) (s : Session) : Session :=
  mkSession (callId s) (context s) (sttStream s) (agentPrompt s)
    (agentVoiceId s) v (streamSid s) (isReady s) (audioQueue s)
    (isAISpeaking s) (currentAudioChunks s) (userSpeechDetected s)
    (interimTranscript s) (silenceTimer s) (conversationBuffer s)
    (greetingMessage s).

Definition set_streamSid (v : option string) (s : Session) : Session :=
  mkSession (callId s) (context s) (sttStream s) (agentPrompt s)
    (agentVoiceId s) (ws s) v (isReady s) (audioQueue s)
    (isAISpeaking s) (currentAudioChunks s) (userSpeechDetected s)
    (interimTranscript s) (silenceTimer s) (conversationBuffer s)
    (greetingMessage s).

Definition set_isReady (v : bool) (s : Session) : Session :=
  mkSession (callId s) (context s) (sttStream s) (agentPrompt s)
    (agentVoiceId s) (ws s) (streamSid s) v (audioQueue s)
    (isAISpeaking s) (currentAudioChunks s) (userSpeechDetected s)
    (interimTranscript s) (silenceTimer s) (conversationBuffer s)
    (greetingMessage s).

Definition set_audioQueue (v : list Buffer) (s : Session) : Session :=
  mkSession (callId s) (context s) (sttStream s) (agentPrompt s)
    (agentVoiceId s) (ws s) (streamSid s) (isReady s) v
    (isAISpeaking s) (currentAudioChunks s) (userSpeechDetected s)
    (interimTranscript s) (silenceTimer s) (conversationBuffer s)
    (greetingMessage s).

Definition set_isAISpeaking (v : bool) (s : Session) : Session :=
  mkSession (callId s) (context s) (sttStream s) (agentPrompt s)
    (agentVoiceId s) (ws s) (streamSid s) (isReady s) (audioQueue s)
    v (currentAudioChunks s) (userSpeechDetected s)
    (interimTranscript s) (silenceTimer s) (conversationBuffer s)
    (greetingMessage s).

Definition set_currentAudioChunks (v : list Buffer) (s : Session) : Session :=
  mkSession (callId s) (context s) (sttStream s) (agentPrompt s)
    (agentVoiceId s) (ws s) (streamSid s) (isReady s) (audioQueue s)
    (isAISpeaking s) v (userSpeechDetected s)
    (interimTranscript s) (silenceTimer s) (conversationBuffer s)
    (greetingMessage s).

Definition set_userSpeechDetected (v : bool) (s : Session) : Session :=
  mkSession (callId s) (context s) (sttStream s) (agentPrompt s)
    (agentVoiceId s) (ws s) (streamSid s) (isReady s) (audioQueue s)
    (isAISpeaking s) (currentAudioChunks s) v
    (interimTranscript s) (silenceTimer s) (conversationBuffer s)
    (greetingMessage s).

Definition set_interimTranscript (v : string) (s : Session) : Session :=
  mkSession (callId s) (context s) (sttStream s) (agentPrompt s)
    (agentVoiceId s) (ws s) (streamSid s) (isReady s) (audioQueue s)
    (isAISpeaking s) (currentAudioChunks s) (userSpeechDetected s)
    v (silenceTimer s) (conversationBuffer s) (greetingMessage s).

Definition set_silenceTimer (v : option nat) (s : Session) : Session :=
  mkSession (callId s) (context s) (sttStream s) (agentPrompt s)
    (agentVoiceId s) (ws s) (streamSid s) (isReady s) (audioQueue s)
    (isAISpeaking s) (currentAudioChunks s) (userSpeechDetected s)
    (interimTranscript s) v (conversationBuffer s) (greetingMessage s).

Definition set_greetingMessage (v : option string) (s : Session) : Session :=
  mkSession (callId s) (context s) (sttStream s) (agentPrompt s)
    (agentVoiceId s) (ws s) (streamSid s) (isReady s) (audioQueue s)
    (isAISpeaking s) (currentAudioChunks s) (userSpeechDetected s)
    (interimTranscript s) (silenceTimer s) (conversationBuffer s) v.

(** [session.ws.send(JSON.stringify(frame))]. *)
Definition ws_send (f : Frame) (s : Session) : Session :=
  set_ws (ws s ++ [f]) s.

(** ** Chunked outbound delivery *)

Definition chunkSize : nat := 214.

(** How the [for] loop of [sendAudioToTwilio] was left: by running past the
    last frame, or by the [return] of the interruption check. *)
Inductive LoopExit : Type := Finished | Returned.

(** The loop [for (let i = 0; i < base64Audio.length; i += chunkSize)],
    entered at index [i]. *)
Equations? send_frames (base64Audio : string) (i : nat) (session : Session)
  : Session * LoopExit by wf (String.length base64Audio - i) lt :=
send_frames base64Audio i session with lt_dec i (String.length base64Audio) => {
  | right _ => (session, Finished);
  | left _ with userSpeechDetected session => {
    | true => (set_isAISpeaking false session, Returned);
    | false =>
        let chunk := JS.slice base64Audio i (i + chunkSize) in
        send_frames base64Audio (i + chunkSize)
          (ws_send (media (streamSid session) chunk) session) } }.
Proof. unfold chunkSize. lia. Qed.

Definition sendAudioToTwilio (session : Session) (audioBuffer : Buffer)
  : Session :=
  if negb (isReady session) || negb (JS.truthy (streamSid session)) then
    set_audioQueue (audioQueue session ++ [audioBuffer]) session
  else
    let base64Audio := toString_base64 audioBuffer in
    match send_frames base64Audio 0 session with
    | (session', Returned) => session'
    | (session', Finished) =>
        ws_send (mark (streamSid session') "audio_complete") session'
    end.

(** ** Collaborating services *)

(** How an awaited promise settles. *)
Inductive Settled (A : Type) : Type :=
| fulfilled (value : A)
| rejected.
Arguments fulfilled {A} value.
Arguments rejected {A}.

(** The requests made so far: [llmService.generateContent] with its
    [contents] and [systemInstruction], and [synthesizeTTS] with its text
    and voice id. *)
Record Services : Type := mkServices {
  generateContent_requests : list (list Turn * string);
  synthesizeTTS_calls : list (string * string)
}.

Definition fallbackReply : string :=
  "I apologize, I'm having trouble processing that right now.".

(** [callLLM]: the reply's text, or the fixed apology when the request
    throws. *)
Definition callLLM (sv : Services) (session : Session)
    (response : Settled string) : Services * string :=
  let sv' :=
    mkServices
      (generateContent_requests sv ++ [(context session, agentPrompt session)])
      (synthesizeTTS_calls sv) in
  match response with
  | fulfilled response_text => (sv', response_text)
  | rejected => (sv', fallbackReply)
  end.

(** A call of [synthesizeTTS].  What it resolves to, the audio or [null]
    (on a missing key, an error status or a thrown error), is the
    [ttsAudio : option Buffer] handed to the code that awaits it. *)
Definition synthesizeTTS (sv : Services) (text voiceId : string) : Services :=
  mkServices (generateContent_requests sv)
    (synthesizeTTS_calls sv ++ [(text, voiceId)]).

(** ** Conversation *)

Definition appendToContext (session : Session) (text : string) (role : Role)
  : Session :=
  set_context (context session ++ [mkTurn role [mkPart text]]) session.

Definition handleInterruption (session : Session) : Session :=
  let session := set_isAISpeaking false session in
  let session := set_currentAudioChunks [] session in
  let session := ws_send (clear (streamSid session)) session in
  set_userSpeechDetected true session.

(** [speakWithInterruption] up to its [await]: the flags are set and the
    synthesis is requested. *)
Definition speak_begin (sv : Services) (session : Session) (text : string)
  : Services * Session :=
  let session := set_isAISpeaking true session in
  let session := set_userSpeechDetected false session in
  (synthesizeTTS sv text (agentVoiceId session), session).

(** [speakWithInterruption] from its [await] on, on the session as it is
    when the synthesis settles with [ttsAudio]. *)
Definition speak_resume (session : Session) (ttsAudio : option Buffer)
  : Session :=
  match ttsAudio with
  | None => set_isAISpeaking false session
  | Some audio =>
      let session :=
        set_currentAudioChunks (currentAudioChunks session ++ [audio]) session in
      if userSpeechDetected session then set_isAISpeaking false session
      else sendAudioToTwilio session audio
  end.

(** [speakWithInterruption] with nothing happening during the [await]. *)
Definition speakWithInterruption (sv : Services) (session : Session)
    (text : string) (ttsAudio : option Buffer) : Services * Session :=
  let '(sv, session) := speak_begin sv session text in
  (sv, speak_resume session ttsAudio).

Definition handleUserMessage (sv : Services) (session : Session)
    (userMessage : string) (response : Settled string)
    (ttsAudio : option Buffer) : Services * Session :=
  let '(sv, llmResponse) := callLLM sv session response in
  let session := appendToContext session llmResponse model in
  speakWithInterruption sv session llmResponse ttsAudio.

(** ** Recognizer events *)

(** What the handler reads of a transcript event:
    [channel?.alternatives?.[0]?.transcript] and the truthiness of
    [is_final]. *)
Record TranscriptData : Type := mkTranscriptData {
  transcript : option string;
  is_final : bool
}.

(** The ["Transcript"] listener.  [response] and [ttsAudio] are how the
    generator and the synthesizer settle if the listener gets to them. *)
Definition on_Transcript (sv : Services) (session : Session)
    (transcriptData : TranscriptData) (response : Settled string)
    (ttsAudio : option Buffer) : Services * Session :=
  match transcript transcriptData with
  | None => (sv, session)
  | Some transcript =>
      if JS.blank transcript then (sv, session)
      else if negb (is_final transcriptData) then
        let session := set_interimTranscript transcript session in
        if isAISpeaking session && (3 <? String.length transcript)
        then (sv, handleInterruption session)
        else (sv, session)
      else
        let session :=
          match silenceTimer session with
          | Some _ => set_silenceTimer None session
          | None => session
          end in
        let session := appendToContext session transcript user in
        handleUserMessage sv session transcript response ttsAudio
  end.

(** One recognizer event together with the way the services settle for
    it. *)
Record Heard : Type := mkHeard {
  heard_data : TranscriptData;
  heard_response : Settled string;
  heard_ttsAudio : option Buffer
}.

(** Transcript events handled one after another, each listener running to
    its end before the next event is taken. *)
Definition on_Transcripts (sv : Services) (session : Session)
    (events : list Heard) : Services * Session :=
  fold_left
    (fun st ev =>
       on_Transcript (fst st) (snd st)
         (heard_data ev) (heard_response ev) (heard_ttsAudio ev))
    events (sv, session).

(** ** Transport events *)

Definition stt_send (audioBuffer : Buffer) (stream : SttStream) : SttStream :=
  mkSttStream (stt_sent stream ++ [audioBuffer]).

Section Inbound.

(** [Buffer.from(payload, "base64")], a function of the runtime. *)
Variable Buffer_from_base64 : string -> Buffer.

(** The ["media"] branch of the message listener; [session] is the
    listener's variable, [null] before the start signal, and [payload] is
    [data.media?.payload]. *)
Definition on_media (session : option Session) (payload : option string)
  : option Session :=
  match session with
  | None => None
  | Some s =>
      match sttStream s, payload with
      | Some stream, Some p =>
          if JS.truthy payload then
            let audioBuffer := Buffer_from_base64 p in
            if 0 <? List.length audioBuffer then
              let s := set_sttStream (Some (stt_send audioBuffer stream)) s in
              Some (set_userSpeechDetected true s)
            else Some s
          else Some s
      | _, _ => Some s
      end
  end.

End Inbound.

(** The ["mark"] branch; [name] is [data.mark?.name]. *)
Definition on_mark (session : option Session) (name : option string)
  : option Session :=
  match name, session with
  | Some n, Some s =>
      if String.eqb n "audio_complete" then
        Some (set_currentAudioChunks [] (set_isAISpeaking false s))
      else session
  | _, _ => session
  end.

(** ** Session registry *)

Inductive Effect : Type :=
| stt_finish (callId : string)
| stt_removeAllListeners (callId : string)
| clearTimeout (timer : nat)
| console_log (line : string).

(** The module-level [sessions] map, and what the registry's operations do
    besides updating it, in order.  A logged line is recorded without its
    leading pictograph. *)
Record Registry : Type := mkRegistry {
  sessions : gmap string Session;
  trace : list Effect
}.

Definition defaultVoiceId : string := "21m00Tcm4TlvDq8ikWAM".

Definition newSession (callId agentPrompt : string)
    (voiceId : option string) (ws : list Frame) : Session :=
  mkSession callId [] None agentPrompt
    (if JS.truthy voiceId then default defaultVoiceId voiceId
     else defaultVoiceId)
    ws None false [] false [] false "" None [] None.

Definition createSession (callId agentPrompt : string)
    (voiceId : option string) (ws : list Frame) (reg : Registry)
  : Session * Registry :=
  let session := newSession callId agentPrompt voiceId ws in
  (session,
   mkRegistry (<[callId := session]> (sessions reg))
     (trace reg ++
        [console_log ("Created session for call " +:+ callId);
         console_log ("   Agent Prompt: " +:+ substring 0 100 agentPrompt +:+ "...");
         console_log ("   Voice ID: " +:+ agentVoiceId session)])).

Definition endSession (callId : string) (reg : Registry) : Registry :=
  match sessions reg !! callId with
  | Some session =>
      let t1 :=
        match sttStream session with
        | Some _ => [stt_finish callId; stt_removeAllListeners callId]
        | None => []
        end in
      let t2 :=
        match silenceTimer session with
        | Some timer => [clearTimeout timer]
        | None => []
        end in
      mkRegistry (delete callId (sessions reg))
        (trace reg ++ t1 ++ t2 ++
           [console_log ("Ended session for call " +:+ callId)])
  | None => reg
  end.

(** ** The earlier revision: session created on connection, queue drained
    on start *)

Module QueuedStart.

(** The delivery loop of this revision has no interruption check. *)
Equations? send_frames (base64Audio : string) (i : nat) (session : Session)
  : Session by wf (String.length base64Audio - i) lt :=
send_frames base64Audio i session with lt_dec i (String.length base64Audio) => {
  | right _ => session;
  | left _ =>
      let chunk := JS.slice base64Audio i (i + chunkSize) in
      send_frames base64Audio (i + chunkSize)
        (ws_send (media (streamSid session) chunk) session) }.
Proof. unfold chunkSize. lia. Qed.

Definition sendAudioToTwilio (session : Session) (audioBuffer : Buffer)
  : Session :=
  if negb (isReady session) || negb (JS.truthy (streamSid session)) then
    set_audioQueue (audioQueue session ++ [audioBuffer]) session
  else
    let base64Audio := toString_base64 audioBuffer in
    let session := send_frames base64Audio 0 session in
    ws_send (mark (streamSid session) "audio_complete") session.

(** [for (const audioBuffer of session.audioQueue)
       this.sendAudioToTwilio(session, audioBuffer)],
    entered at position [i] of the array.  The iterator reads the array
    that [sendAudioToTwilio] may push to, so the loop need not end:
    [None] is a loop still running when [fuel] iterations are spent. *)
Fixpoint drain (fuel i : nat) (session : Session) : option Session :=
  match fuel with
  | 0 => None
  | S fuel' =>
      match audioQueue session !! i with
      | None => Some session
      | Some audioBuffer =>
          drain fuel' (S i) (sendAudioToTwilio session audioBuffer)
      end
  end.

(** The session after [n] iterations of that loop, or fewer when the
    iterator is exhausted before. *)
Fixpoint drain_progress (n i : nat) (session : Session) : Session :=
  match n with
  | 0 => session
  | S n' =>
      match audioQueue session !! i with
      | None => session
      | Some audioBuffer =>
          drain_progress n' (S i) (sendAudioToTwilio session audioBuffer)
      end
  end.

(** The ["start"] branch of the message listener, up to scheduling the
    greeting; [start_streamSid] is [data.start.streamSid]. *)
Definition on_start (fuel : nat) (session : Session)
    (start_streamSid : option string) : option Session :=
  let session := set_streamSid start_streamSid session in
  let session := set_isReady true session in
  if 0 <? List.length (audioQueue session) then
    match drain fuel 0 session with
    | Some session' => Some (set_audioQueue [] session')
    | None => None
    end
  else Some session.

End QueuedStart.

(** ** Vocabulary of the statements *)

(** The least number of pieces of size [b] that cover [a]. *)
Definition ceil_div (a b : nat) : nat := (a + (b - 1)) / b.

(** The [n] consecutive slices of width [c] cut from [s] at [i], [i + c],
    [i + 2c], ... *)
Definition payloads_from (s : string) (i c n : nat) : list string :=
  map (fun k => JS.slice s (i + k * c) (i + k * c + c)) (seq 0 n).

(** The session after [fs] went out through its socket. *)
Definition emit (fs : list Frame) (s : Session) : Session :=
  set_ws (ws s ++ fs) s.

(** What delivering one clip in full puts on the wire. *)
Definition delivery (sid : option string) (audioBuffer : Buffer) : list Frame :=
  let base64Audio := toString_base64 audioBuffer in
  map (media sid)
    (payloads_from base64Audio 0 chunkSize
       (ceil_div (String.length base64Audio) chunkSize))
  ++ [mark sid "audio_complete"].

Definition isMedia (f : Frame) : bool :=
  match f with media _ _ => true | _ => false end.

Definition isMark (f : Frame) : bool :=
  match f with mark _ _ => true | _ => false end.

(** What the generator's settling contributes as the agent's reply. *)
Definition reply_of (response : Settled string) : string :=
  match response with
  | fulfilled response_text => response_text
  | rejected => fallbackReply
  end.

(** The two turns one final transcript adds to the history. *)
Definition exchange (ev : Heard) : list Turn :=
  [mkTurn user [mkPart (default EmptyString (transcript (heard_data ev)))];
   mkTurn model [mkPart (reply_of (heard_response ev))]].

(** ** Inputs used in the examples below *)

Definition someClip : Buffer := [Byte.x4d; Byte.x61; Byte.x6e; Byte.x21].

(** A session as [createSession] builds it, after a start signal with
    stream id ["MZ1"]. *)
Definition readySession : Session :=
  set_isReady true
    (set_streamSid (Some "MZ1"%string)
       (newSession "CA1" "You are a helpful AI assistant." None [])).

(** The same session once caller speech has been flagged. *)
Definition interruptedSession : Session :=
  set_userSpeechDetected true readySession.

(** The same session while the agent is speaking. *)
Definition speakingSession : Session := set_isAISpeaking true readySession.

(** The same session with its recognizer stream open. *)
Definition listeningSession : Session :=
  set_sttStream (Some (mkSttStream [])) readySession.

Definition noRequests : Services := mkServices [] [].

(** A stand-in for the runtime's base64 decoder: one byte per character. *)
Definition bytes_of_text (p : string) : Buffer :=
  map byte_of_ascii (list_ascii_of_string p).

(** Two final transcripts; the generator fails and the synthesizer
    returns nothing for the second. *)
Definition twoQuestions : list Heard :=
  [mkHeard (mkTranscriptData (Some "What's the weather?"%string) true)
     (fulfilled "I can't check weather, sorry."%string) (Some someClip);
   mkHeard (mkTranscriptData (Some "Thanks"%string) true) rejected None].

(** A session of the earlier revision before the start signal, with one
    clip waiting. *)
Definition waitingSession : Session :=
  set_audioQueue [someClip]
    (newSession "CA1" "You are a helpful AI assistant." None []).

(** ** Speech synthesis request *)

Module Synthesis.

(** A number written with two decimals, as in the request's voice
    settings. *)
Record Decimal : Type := mkDecimal { units : nat; hundredths : nat }.

Record VoiceSettings : Type := mkVoiceSettings {
  stability : Decimal;
  similarity_boost : Decimal;
  style : Decimal;
  use_speaker_boost : bool
}.

(** The object given to [JSON.stringify] as the request body. *)
Record Body : Type := mkBody {
  body_text : string;
  model_id : string;
  voice_settings : VoiceSettings;
  output_format : string
}.

Record Request : Type := mkRequest {
  url : string;
  method : string;
  headers : list (string * string);
  body : Body
}.

(** How [await nodeFetch(...)] settles: it throws, or it gives a response
    with its [ok] flag and [status], whose [text()] and [buffer()] settle
    in turn. *)
Inductive Fetched : Type :=
| fetch_failed
| fetch_response (ok : bool) (status : nat)
    (text : Settled string) (buffer : Settled Buffer).

(** [process.env.ELEVEN_LABS_API_KEY || process.env.ELEVENLABS_API_KEY]. *)
Definition getElevenLabsApiKey (env : gmap string string) : option string :=
  if JS.truthy (env !! "ELEVEN_LABS_API_KEY"%string)
  then env !! "ELEVEN_LABS_API_KEY"%string
  else env !! "ELEVENLABS_API_KEY"%string.

(** [synthesizeTTS]: the HTTP requests it makes and what it returns. *)
Definition synthesizeTTS (env : gmap string string) (text voiceId : string)
    (net : Fetched) : list Request * option Buffer :=
  let apiKey := getElevenLabsApiKey env in
  if negb (JS.truthy apiKey) then ([], None)
  else
    let request :=
      mkRequest
        ("https://api.elevenlabs.io/v1/text-to-speech/" +:+ voiceId)
        "POST"
        [("Accept", "audio/basic");
         ("Content-Type", "application/json");
         ("xi-api-key", default EmptyString apiKey)]
        (mkBody text "eleven_turbo_v2_5"
           (mkVoiceSettings (mkDecimal 0 50) (mkDecimal 0 75)
              (mkDecimal 0 0) true)
           "ulaw_8000") in
    match net with
    | fetch_failed => ([request], None)
    | fetch_response ok _ _ buffer =>
        if negb ok then ([request], None)
        else
          match buffer with
          | fulfilled audioBuffer => ([request], Some audioBuffer)
          | rejected => ([request], None)
          end
    end.

End Synthesis.

(** ** The start and stop signals *)

(** [data.start.customParameters], as far as the listener reads it. *)
Record CustomParameters : Type := mkCustomParameters {
  cp_callId : option string;
  cp_agentId : option string;
  cp_userId : option string
}.

(** [data.start] of a start event. *)
Record StartData : Type := mkStartData {
  customParameters : option CustomParameters;
  callSid : option string;
  start_streamSid : option string
}.

(** An agent record, as far as the listener reads it: [identity],
    [voiceId] and [settings?.greetingLine]. *)
Record Agent : Type := mkAgent {
  agent_identity : option string;
  agent_voiceId : option string;
  agent_greetingLine : option string
}.

(** How [await agentService.getAgentById(userId, agentId)] settles: with
    an agent, with nothing, or by throwing. *)
Inductive AgentLookup : Type :=
| agent_found (agent : Agent)
| agent_missing
| agent_lookup_failed.

Definition defaultPrompt : string := "You are a helpful AI assistant.".
Definition defaultGreeting : string := "Hello! How can I help you today?".

(** [a || b] for a value [a] that may be absent and a string [b]. *)
Definition or_else (a : option string) (b : string) : string :=
  if JS.truthy a then default b a else b.

(** [streamParams.callId || data.start?.callSid]. *)
Definition start_callId (start : option StartData) : option string :=
  let streamParams := start ≫= customParameters in
  if JS.truthy (streamParams ≫= cp_callId) then streamParams ≫= cp_callId
  else start ≫= callSid.

(** The prompt, voice and greeting the session is created with. *)
Definition agentConfig (agentId : option string) (lookup : AgentLookup)
  : string * string * string :=
  if JS.truthy agentId then
    match lookup with
    | agent_found agent =>
        (or_else (agent_identity agent) defaultPrompt,
         or_else (agent_voiceId agent) defaultVoiceId,
         or_else (agent_greetingLine agent) defaultGreeting)
    | agent_missing | agent_lookup_failed =>
        (defaultPrompt, defaultVoiceId, defaultGreeting)
    end
  else (defaultPrompt, defaultVoiceId, defaultGreeting).

(** What the ["start"] branch leaves behind: the socket closed for want
    of a call id, or the listener's [callId] and [session] and the
    registry. *)
Inductive Started : Type :=
| start_refused
| start_done (callId : string) (session : Session) (reg : Registry).

(** The ["start"] branch of the message listener, up to the scheduling of
    the greeting; [ws] is the connection's socket and [lookup] the way the
    agent lookup settles if it is made.  The session registered and the
    session the listener keeps are one object, so the registry shows the
    fields assigned after [createSession]. *)
Definition on_start (reg : Registry) (ws : list Frame)
    (start : option StartData) (lookup : AgentLookup) : Started :=
  let callId := start_callId start in
  let agentId := (start ≫= customParameters) ≫= cp_agentId in
  if negb (JS.truthy callId) then start_refused
  else
    let callId := default EmptyString callId in
    let '(agentPrompt, agentVoiceId, greetingMessage) :=
      agentConfig agentId lookup in
    let '(session, reg) :=
      createSession callId agentPrompt (Some agentVoiceId) ws reg in
    let session := set_greetingMessage (Some greetingMessage) session in
    let session := set_streamSid (start ≫= start_streamSid) session in
    let session := set_isReady true session in
    let session := set_sttStream (Some (mkSttStream [])) session in
    start_done callId session
      (mkRegistry (<[callId := session]> (sessions reg)) (trace reg)).

(** The ["stop"] branch and the socket's ["close"] listener:
    [if (callId) this.endSession(callId)]. *)
Definition on_stop (callId : option string) (reg : Registry) : Registry :=
  if JS.truthy callId then endSession (default EmptyString callId) reg
  else reg.

(** ** Listeners that overlap *)

(** Nobody awaits a listener.  The ["Transcript"] listener of a final
    transcript is an [async] function that is suspended at
    [await this.callLLM(session)] and again at
    [await this.synthesizeTTS(text, session.agentVoiceId)]; the greeting
    timer's callback is suspended at the second of these.  Whatever arrives
    meanwhile (a socket message, another transcript, the settling of
    another listener's request) is handled to its next [await] on the same
    session object.  A call in progress is therefore its services, its
    session, and the listeners that are suspended, oldest first, each
    remembered by the text it was called with: [userMessage] for a listener
    waiting in [handleUserMessage], [text] for one waiting in
    [speakWithInterruption]. *)
Record Call : Type := mkCall {
  services : Services;
  session_of : Session;
  awaiting_callLLM : list string;
  awaiting_synthesizeTTS : list string
}.

Definition with_session (session : Session) (call : Call) : Call :=
  mkCall (services call) session
    (awaiting_callLLM call) (awaiting_synthesizeTTS call).

(** What can happen next on a call between its start signal and its stop
    signal: an event of the recognizer or of the socket, the greeting
    timer, or the settling of the request that the [k]-th suspended
    listener is waiting for. *)
Inductive Event : Type :=
| recognizer_Transcript (transcriptData : TranscriptData)
| callLLM_settled (k : nat) (response : Settled string)
| synthesizeTTS_settled (k : nat) (ttsAudio : option Buffer)
| socket_media (payload : option string)
| socket_mark (name : option string)
| greeting_timeout.

(** [callLLM] up to its [await]: the request is made with the history as
    it is at that moment. *)
Definition callLLM_begin (sv : Services) (session : Session) : Services :=
  mkServices
    (generateContent_requests sv ++ [(context session, agentPrompt session)])
    (synthesizeTTS_calls sv).

(** The ["Transcript"] listener from the event to its first [await]. *)
Definition Transcript_arrives (call : Call) (transcriptData : TranscriptData)
  : Call :=
  match transcript transcriptData with
  | None => call
  | Some transcript =>
      if JS.blank transcript then call
      else if negb (is_final transcriptData) then
        let session := set_interimTranscript transcript (session_of call) in
        if isAISpeaking session && (3 <? String.length transcript)
        then with_session (handleInterruption session) call
        else with_session session call
      else
        let session :=
          match silenceTimer (session_of call) with
          | Some _ => set_silenceTimer None (session_of call)
          | None => session_of call
          end in
        let session := appendToContext session transcript user in
        mkCall (callLLM_begin (services call) session) session
          (awaiting_callLLM call ++ [transcript])
          (awaiting_synthesizeTTS call)
  end.

(** [handleUserMessage] resumed by the settling of its [callLLM], up to
    the [await] in [speakWithInterruption]; [callLLM] turns a failure into
    the fixed apology. *)
Definition callLLM_settles (call : Call) (k : nat) (response : Settled string)
  : option Call :=
  match awaiting_callLLM call !! k with
  | None => None
  | Some _ =>
      let llmResponse := reply_of response in
      let session := appendToContext (session_of call) llmResponse model in
      let '(sv, session) := speak_begin (services call) session llmResponse in
      Some (mkCall sv session
              (delete k (awaiting_callLLM call))
              (awaiting_synthesizeTTS call ++ [llmResponse]))
  end.

(** [speakWithInterruption] resumed by the settling of its
    [synthesizeTTS]. *)
Definition synthesizeTTS_settles (call : Call) (k : nat)
    (ttsAudio : option Buffer) : option Call :=
  match awaiting_synthesizeTTS call !! k with
  | None => None
  | Some _ =>
      Some (mkCall (services call) (speak_resume (session_of call) ttsAudio)
              (awaiting_callLLM call)
              (delete k (awaiting_synthesizeTTS call)))
  end.

(** The greeting timer's callback up to its [await].  The start branch
    assigns [session.greetingMessage] before it sets the timer. *)
Definition greeting_timer_fires (call : Call) : Call :=
  match greetingMessage (session_of call) with
  | Some greeting =>
      let '(sv, session) :=
        speak_begin (services call) (session_of call) greeting in
      mkCall sv session (awaiting_callLLM call)
        (awaiting_synthesizeTTS call ++ [greeting])
  | None => call
  end.

Section Scheduling.

Variable Buffer_from_base64 : string -> Buffer.

(** One event handled to the next [await].  The settling of a request
    nobody is waiting for cannot happen. *)
Definition step (call : Call) (e : Event) : option Call :=
  match e with
  | recognizer_Transcript transcriptData =>
      Some (Transcript_arrives call transcriptData)
  | callLLM_settled k response => callLLM_settles call k response
  | synthesizeTTS_settled k ttsAudio => synthesizeTTS_settles call k ttsAudio
  | socket_media payload =>
      flip with_session call
        <$> on_media Buffer_from_base64 (Some (session_of call)) payload
  | socket_mark name =>
      flip with_session call <$> on_mark (Some (session_of call)) name
  | greeting_timeout => Some (greeting_timer_fires call)
  end.

(** Events handled in the order given. *)
Fixpoint run (call : Call) (events : list Event) : option Call :=
  match events with
  | [] => Some call
  | e :: events => step call e ≫= fun call => run call events
  end.

End Scheduling.

(** ** The revisions without barge-in *)

Module PlainReply.

(** The listener of the revisions without barge-in, from the event to its
    first [await]: every transcript event with text is answered; there is
    no notion of an interim result and no interruption.  This and the
    other events are as the second revision in the file handles them
    (lines 448-777), for a call in progress. *)
Definition Transcript_arrives (call : Call) (transcriptData : TranscriptData)
  : Call :=
  match transcript transcriptData with
  | None => call
  | Some transcript =>
      if JS.blank transcript then call
      else
        let session := appendToContext (session_of call) transcript user in
        mkCall (callLLM_begin (services call) session) session
          (awaiting_callLLM call ++ [transcript])
          (awaiting_synthesizeTTS call)
  end.

Definition callLLM_settles (call : Call) (k : nat) (response : Settled string)
  : option Call :=
  match awaiting_callLLM call !! k with
  | None => None
  | Some _ =>
      let llmResponse := reply_of response in
      let session := appendToContext (session_of call) llmResponse model in
      Some (mkCall
              (synthesizeTTS (services call) llmResponse (agentVoiceId session))
              session
              (delete k (awaiting_callLLM call))
              (awaiting_synthesizeTTS call ++ [llmResponse]))
  end.

(** Both the listener and the greeting callback go on with
    [if (audio) this.sendAudioToTwilio(session, audio)]. *)
Definition synthesizeTTS_settles (call : Call) (k : nat)
    (ttsAudio : option Buffer) : option Call :=
  match awaiting_synthesizeTTS call !! k with
  | None => None
  | Some _ =>
      let session :=
        match ttsAudio with
        | Some audio => QueuedStart.sendAudioToTwilio (session_of call) audio
        | None => session_of call
        end in
      Some (mkCall (services call) session
              (awaiting_callLLM call)
              (delete k (awaiting_synthesizeTTS call)))
  end.

Definition greeting_timer_fires (call : Call) : Call :=
  match greetingMessage (session_of call) with
  | Some greeting =>
      mkCall
        (synthesizeTTS (services call) greeting
           (agentVoiceId (session_of call)))
        (session_of call)
        (awaiting_callLLM call)
        (awaiting_synthesizeTTS call ++ [greeting])
  | None => call
  end.

Section Scheduling.

Variable Buffer_from_base64 : string -> Buffer.

(** The ["media"] branch: the audio is forwarded and no flag is kept. *)
Definition on_media (session : Session) (payload : option string) : Session :=
  match sttStream session, payload with
  | Some stream, Some p =>
      if JS.truthy payload then
        let audioBuffer := Buffer_from_base64 p in
        if 0 <? List.length audioBuffer then
          set_sttStream (Some (stt_send audioBuffer stream)) session
        else session
      else session
  | _, _ => session
  end.

(** One event handled to the next [await]; a mark is only logged. *)
Definition step (call : Call) (e : Event) : option Call :=
  match e with
  | recognizer_Transcript transcriptData =>
      Some (Transcript_arrives call transcriptData)
  | callLLM_settled k response => callLLM_settles call k response
  | synthesizeTTS_settled k ttsAudio => synthesizeTTS_settles call k ttsAudio
  | socket_media payload =>
      Some (with_session (on_media (session_of call) payload) call)
  | socket_mark _ => Some call
  | greeting_timeout => Some (greeting_timer_fires call)
  end.

Fixpoint run (call : Call) (events : list Event) : option Call :=
  match events with
  | [] => Some call
  | e :: events => step call e ≫= fun call => run call events
  end.

End Scheduling.

End PlainReply.

(** ** Further vocabulary *)

(** The stream id a frame carries. *)
Definition frame_streamSid (f : Frame) : option string :=
  match f with
  | media sid _ => sid
  | mark sid _ => sid
  | clear sid => sid
  end.

Definition isClear (f : Frame) : bool :=
  match f with clear _ => true | _ => false end.

(** Whether the listener answers an event: it is final and has text. *)
Definition answered (ev : Heard) : bool :=
  match transcript (heard_data ev) with
  | Some t => negb (JS.blank t) && is_final (heard_data ev)
  | None => false
  end.

(** The ["media"] branch over a run of events, the listener's session
    carried from one to the next. *)
Definition on_medias (Buffer_from_base64 : string -> Buffer)
    (session : option Session) (payloads : list (option string))
  : option Session :=
  fold_left (on_media Buffer_from_base64) payloads session.

(** The buffers a run of media events hands to the recognizer. *)
Definition forwarded (Buffer_from_base64 : string -> Buffer)
    (payloads : list (option string)) : list Buffer :=
  List.filter (fun b => 0 <? List.length b)
    (map Buffer_from_base64
       (omap (fun p => if JS.truthy p then p else None) payloads)).

(** [s'] is [s] some events later as far as the fixed part of a session
    goes: identity, configuration, readiness and recognizer stream are
    the same, and the history, the socket and the pending queue have only
    been added to. *)
Definition extends (s s' : Session) : Prop :=
  callId s' = callId s
  /\ agentPrompt s' = agentPrompt s
  /\ agentVoiceId s' = agentVoiceId s
  /\ streamSid s' = streamSid s
  /\ isReady s' = isReady s
  /\ sttStream s' = sttStream s
  /\ greetingMessage s' = greetingMessage s
  /\ context s `prefix_of` context s'
  /\ ws s `prefix_of` ws s'
  /\ audioQueue s `prefix_of` audioQueue s'.

(** Whether an event is an interim result with text. *)
Definition interim_with_text (ev : Heard) : bool :=
  match transcript (heard_data ev) with
  | Some t => negb (JS.blank t) && negb (is_final (heard_data ev))
  | None => false
  end.

(** The text of the last interim result with text among [events], or
    [init] when there is none. *)
Definition last_interim (events : list Heard) (init : string) : string :=
  fold_left
    (fun acc ev =>
       if interim_with_text ev
       then default acc (transcript (heard_data ev))
       else acc)
    events init.

(** Whether the listener answers a transcript event: it is final and has
    text. *)
Definition answers (transcriptData : TranscriptData) : bool :=
  match transcript transcriptData with
  | Some t => negb (JS.blank t) && is_final transcriptData
  | None => false
  end.

(** The turn an event of a call adds to the history, if it adds one. *)
Definition turn_of (e : Event) : option Turn :=
  match e with
  | recognizer_Transcript transcriptData =>
      if answers transcriptData
      then Some (mkTurn user
                   [mkPart (default EmptyString (transcript transcriptData))])
      else None
  | callLLM_settled _ response =>
      Some (mkTurn model [mkPart (reply_of response)])
  | _ => None
  end.

(** An event that is neither a transcript the listener answers nor the
    settling of a generator call. *)
Definition aside (e : Event) : bool :=
  match e with
  | recognizer_Transcript transcriptData => negb (answers transcriptData)
  | callLLM_settled _ _ => false
  | _ => true
  end.

(** One final transcript handled in turn: the transcript arrives, its
    generator call settles while no other listener waits for one, and
    other events may come before and after the settling. *)
Record Round : Type := mkRound {
  said : string;
  meanwhile : list Event;
  replied : Settled string;
  afterwards : list Event
}.

(** The round's transcript has text, and no other transcript that is
    answered and no other settling of a generator call falls into it. *)
Definition by_itself (r : Round) : bool :=
  negb (JS.blank (said r))
  && forallb aside (meanwhile r) && forallb aside (afterwards r).

Definition in_turn (rounds : list Round) : list Event :=
  flat_map
    (fun r =>
       recognizer_Transcript (mkTranscriptData (Some (said r)) true)
       :: meanwhile r ++ callLLM_settled 0 (replied r) :: afterwards r)
    rounds.

(** The two turns of a round. *)
Definition exchange_of (r : Round) : list Turn :=
  [mkTurn user [mkPart (said r)]; mkTurn model [mkPart (reply_of (replied r))]].

(** What an event of a call has the synthesizer asked for, if anything:
    the reply a generator call settles with, or the greeting. *)
Definition utterance_of (session : Session) (e : Event)
  : option (string * string) :=
  match e with
  | callLLM_settled _ response =>
      Some (reply_of response, agentVoiceId session)
  | greeting_timeout =>
      (fun greeting => (greeting, agentVoiceId session))
        <$> greetingMessage session
  | _ => None
  end.

(** Whether an event has the generator asked: it is a transcript the
    listener answers. *)
Definition asks_generator (e : Event) : bool :=
  match e with
  | recognizer_Transcript transcriptData => answers transcriptData
  | _ => false
  end.

Section Quiet.

Variable Buffer_from_base64 : string -> Buffer.

(** Whether a media event hands audio to the recognizer. *)
Definition carries_audio (payload : option string) : bool :=
  0 <? List.length (forwarded Buffer_from_base64 [payload]).

(** An event during which a pending utterance is left alone: it is not an
    interim transcript longer than 3 characters, it carries no caller
    audio, it is not the acknowledgement of a clip, and no suspended
    listener or timer is resumed by it. *)
Definition quiet (e : Event) : bool :=
  match e with
  | recognizer_Transcript transcriptData =>
      match transcript transcriptData with
      | Some t =>
          JS.blank t || is_final transcriptData || (String.length t <=? 3)
      | None => true
      end
  | socket_media payload => negb (carries_audio payload)
  | socket_mark (Some name) => negb (String.eqb name "audio_complete")
  | socket_mark None => true
  | _ => false
  end.

(** A quiet event, or inbound audio. *)
Definition quiet_or_media (e : Event) : bool :=
  quiet e || match e with socket_media _ => true | _ => false end.

(** An event with which the caller is not heard: no caller audio, and no
    interim result from the recognizer. *)
Definition calm (e : Event) : bool :=
  match e with
  | recognizer_Transcript transcriptData =>
      match transcript transcriptData with
      | Some t => JS.blank t || is_final transcriptData
      | None => true
      end
  | socket_media payload => negb (carries_audio payload)
  | _ => true
  end.

End Quiet.

(** What events that resume no listener and send nothing leave of a call:
    the socket, the speaking flag, the buffered chunks, the queue and the
    readiness are the same, the same utterances wait for their audio, and
    the listeners that waited for the generator still do. *)
Definition unmoved (call call' : Call) : Prop :=
  ws (session_of call') = ws (session_of call)
  /\ isAISpeaking (session_of call') = isAISpeaking (session_of call)
  /\ currentAudioChunks (session_of call')
     = currentAudioChunks (session_of call)
  /\ audioQueue (session_of call') = audioQueue (session_of call)
  /\ isReady (session_of call') = isReady (session_of call)
  /\ streamSid (session_of call') = streamSid (session_of call)
  /\ awaiting_synthesizeTTS call' = awaiting_synthesizeTTS call
  /\ awaiting_callLLM call `prefix_of` awaiting_callLLM call'.

(** Two calls that show the same to the outside: the same requests
    made, the same listeners suspended, and sessions with the same
    history, socket, pending queue, readiness and configuration. *)
Definition alike (call call' : Call) : Prop :=
  services call = services call'
  /\ awaiting_callLLM call = awaiting_callLLM call'
  /\ awaiting_synthesizeTTS call = awaiting_synthesizeTTS call'
  /\ context (session_of call) = context (session_of call')
  /\ ws (session_of call) = ws (session_of call')
  /\ audioQueue (session_of call) = audioQueue (session_of call')
  /\ isReady (session_of call) = isReady (session_of call')
  /\ streamSid (session_of call) = streamSid (session_of call')
  /\ agentPrompt (session_of call) = agentPrompt (session_of call')
  /\ agentVoiceId (session_of call) = agentVoiceId (session_of call')
  /\ greetingMessage (session_of call) = greetingMessage (session_of call').

(** A recognizer event with each of its requests settling before
    anything else happens. *)
Definition one_after_another (ev : Heard) : list Event :=
  if answered ev
  then [recognizer_Transcript (heard_data ev);
        callLLM_settled 0 (heard_response ev);
        synthesizeTTS_settled 0 (heard_ttsAudio ev)]
  else [recognizer_Transcript (heard_data ev)].

(** ** Further inputs *)

Definition keyedEnv : gmap string string :=
  {[ "ELEVENLABS_API_KEY"%string := "sk_live_1234"%string ]}.

Definition someStart : option StartData :=
  Some (mkStartData
          (Some (mkCustomParameters (Some "CA7"%string) (Some "agent-1"%string) None))
          (Some "CA-twilio"%string) (Some "MZ7"%string)).

Definition someAgent : AgentLookup :=
  agent_found (mkAgent (Some "You sell shoes."%string) None
                 (Some "Hi, shoe shop here."%string)).

Definition emptyRegistry : Registry := mkRegistry ∅ [].

(** Two final transcripts taken in turn on a call with a recognizer
    stream.  Caller audio comes in while the first waits for its reply,
    whose synthesis then settles and is acknowledged; the generator fails
    for the second, after which an interim result arrives. *)
Definition twoRounds : list Round :=
  [mkRound "What's the weather?" [socket_media (Some "fw=="%string)]
     (fulfilled "I can't check weather, sorry."%string)
     [synthesizeTTS_settled 0 (Some someClip);
      socket_mark (Some "audio_complete"%string)];
   mkRound "Thanks" [] rejected
     [recognizer_Transcript (mkTranscriptData (Some "uh"%string) false)]].

(** A call on which nothing has happened yet. *)
Definition listeningCall : Call := mkCall noRequests listeningSession [] [].

(* ================================================================= *)
(** * Properties *)

(** ** Strings *)

Lemma substring_zero_len (i : nat) (s : string) : substring i 0 s = EmptyString.
Proof.
  revert i. induction s as [|c s IH]; intros [|i]; simpl; auto.
Qed.

Lemma substring_split (s : string) (i a b : nat) :
  substring i (a + b) s = (substring i a s +:+ substring (i + a) b s)%string.
Proof.
  revert i a. induction s as [|c s IH]; intros i a.
  - destruct i, a, b; reflexivity.
  - destruct i as [|i].
    + destruct a as [|a]; simpl.
      * destruct b; reflexivity.
      * change (String c (substring 0 a s) +:+ substring a b s)%string
          with (String c (substring 0 a s +:+ substring a b s)%string).
        f_equal. apply (IH 0 a).
    + simpl. apply IH.
Qed.

Lemma substring_whole (s : string) (m : nat) :
  String.length s <= m -> substring 0 m s = s.
Proof.
  revert m. induction s as [|c s IH]; intros [|m] H; simpl in *; try lia; auto.
  f_equal. apply IH. lia.
Qed.

Lemma substring_length_le (s : string) (i n : nat) :
  String.length (substring i n s) <= n.
Proof.
  revert i n. induction s as [|c s IH]; intros [|i] [|n]; simpl; try lia.
  - specialize (IH 0 n). lia.
  - apply (IH i 0).
  - apply (IH i (S n)).
Qed.

Lemma concat_cons_empty (x : string) (xs : list string) :
  String.concat "" (x :: xs) = (x +:+ String.concat "" xs)%string.
Proof.
  destruct xs as [|y ys]; simpl; [|reflexivity].
  induction x as [|c x IH]; [reflexivity|].
  change (String c x +:+ "")%string with (String c (x +:+ "")%string).
  congruence.
Qed.

Lemma payloads_from_S (s : string) (i c n : nat) :
  payloads_from s i c (S n) = JS.slice s i (i + c) :: payloads_from s (i + c) c n.
Proof.
  unfold payloads_from. simpl. f_equal.
  - f_equal; lia.
  - rewrite <- seq_shift, map_map. apply map_ext. intros k.
    f_equal; lia.
Qed.

Lemma concat_payloads_from (s : string) (c n i : nat) :
  String.concat "" (payloads_from s i c n) = substring i (n * c) s.
Proof.
  revert i. induction n as [|n IH]; intros i.
  - simpl. symmetry. apply substring_zero_len.
  - rewrite payloads_from_S, concat_cons_empty, IH.
    unfold JS.slice. replace (i + c - i) with c by lia.
    replace (S n * c) with (c + n * c) by lia.
    symmetry. apply substring_split.
Qed.

Lemma payloads_from_short (s : string) (i c n : nat) :
  Forall (fun p => String.length p <= c) (payloads_from s i c n).
Proof.
  unfold payloads_from. apply List.Forall_forall. intros p Hp.
  apply in_map_iff in Hp as [k [<- _]]. unfold JS.slice.
  replace (i + k * c + c - (i + k * c)) with c by lia.
  apply substring_length_le.
Qed.

Lemma ceil_step (L i : nat) :
  i < L -> (L - i + 213) / 214 = S ((L - (i + 214) + 213) / 214).
Proof.
  intros H.
  destruct (le_lt_dec (i + 214) L) as [Hle|Hlt].
  - replace (L - i + 213) with (1 * 214 + (L - (i + 214) + 213)) by lia.
    rewrite Nat.div_add_l by lia. lia.
  - replace (L - (i + 214) + 213) with 213 by lia.
    rewrite (Nat.div_small 213 214) by lia.
    replace (L - i + 213) with (1 * 214 + (L - i - 1)) by lia.
    rewrite Nat.div_add_l by lia. rewrite Nat.div_small by lia. lia.
Qed.

Lemma ceil_div_step (L i : nat) :
  i < L ->
  ceil_div (L - i) chunkSize = S (ceil_div (L - (i + chunkSize)) chunkSize).
Proof.
  intros H. unfold ceil_div, chunkSize. change (214 - 1) with 213.
  apply ceil_step, H.
Qed.

(** ** Sessions and their socket *)

Lemma emit_nil (s : Session) : emit [] s = s.
Proof.
  destruct s; unfold emit, set_ws; simpl. rewrite app_nil_r. reflexivity.
Qed.

Lemma emit_ws_send (f : Frame) (fs : list Frame) (s : Session) :
  emit fs (ws_send f s) = emit (f :: fs) s.
Proof.
  destruct s; unfold emit, ws_send, set_ws; simpl.
  rewrite <- app_assoc. reflexivity.
Qed.

Lemma emit_emit (fs gs : list Frame) (s : Session) :
  emit gs (emit fs s) = emit (fs ++ gs) s.
Proof.
  destruct s; unfold emit, set_ws; simpl. rewrite <- app_assoc. reflexivity.
Qed.

(** ** The delivery loop *)

(** Enter the [else] branch of the readiness guard, given that the ready
    flag is set ([Hr]) and the stream id is truthy ([Hs]). *)
Ltac pass_guard Hr Hs :=
  rewrite Hr, Hs; cbv beta iota zeta delta [negb orb].

(** With the caller-speech flag down the loop runs to the last frame. *)
Lemma send_frames_run (base64Audio : string) (i : nat) (session : Session) :
  userSpeechDetected session = false ->
  send_frames base64Audio i session =
    (emit (map (media (streamSid session))
             (payloads_from base64Audio i chunkSize
                (ceil_div (String.length base64Audio - i) chunkSize)))
       session,
     Finished).
Proof.
  funelim (send_frames base64Audio i session); intros Hflag.
  - replace (ceil_div (String.length base64Audio - i) chunkSize) with 0.
    + simpl. rewrite emit_nil. reflexivity.
    + symmetry. apply Nat.div_small. unfold chunkSize. lia.
  - congruence.
  - rewrite H by exact Hflag.
    rewrite emit_ws_send. f_equal. f_equal.
    rewrite (ceil_div_step _ i) by exact l.
    rewrite payloads_from_S. reflexivity.
Qed.

(** With the flag up and a frame left to send, the loop returns at once:
    nothing goes out and the speaking flag is cleared. *)
Lemma send_frames_abort (base64Audio : string) (i : nat) (session : Session) :
  userSpeechDetected session = true ->
  i < String.length base64Audio ->
  send_frames base64Audio i session = (set_isAISpeaking false session, Returned).
Proof.
  intros Hflag Hi. simp send_frames.
  destruct (lt_dec i (String.length base64Audio)) as [?|?]; [|lia].
  simpl. rewrite Hflag. reflexivity.
Qed.

Lemma ws_send_emit (f : Frame) (s : Session) : ws_send f s = emit [f] s.
Proof. reflexivity. Qed.

Lemma sendAudioToTwilio_ready (session : Session) (audioBuffer : Buffer) :
  isReady session = true ->
  JS.truthy (streamSid session) = true ->
  userSpeechDetected session = false ->
  sendAudioToTwilio session audioBuffer =
    emit (delivery (streamSid session) audioBuffer) session.
Proof.
  intros Hr Hs Hf. unfold sendAudioToTwilio. pass_guard Hr Hs.
  rewrite send_frames_run by exact Hf.
  rewrite ws_send_emit, emit_emit, Nat.sub_0_r. reflexivity.
Qed.

Lemma ceil_div_least (a b : nat) :
  0 < b ->
  a <= ceil_div a b * b /\ (forall n, a <= n * b -> ceil_div a b <= n).
Proof.
  intros Hb. unfold ceil_div. split.
  - pose proof (Nat.div_mod_eq (a + (b - 1)) b) as E.
    pose proof (Nat.mod_upper_bound (a + (b - 1)) b). nia.
  - intros n Hn. apply Nat.lt_succ_r.
    apply Nat.Div0.div_lt_upper_bound. nia.
Qed.

Lemma delivery_marks (sid : option string) (audioBuffer : Buffer) :
  List.filter isMark (delivery sid audioBuffer) = [mark sid "audio_complete"].
Proof.
  unfold delivery. cbv zeta. rewrite List.filter_app.
  set (ps := payloads_from _ _ _ _). clearbody ps.
  replace (List.filter isMark (map (media sid) ps)) with (@nil Frame).
  - reflexivity.
  - induction ps as [|p ps IH]; [reflexivity | exact IH].
Qed.

Example base64_of_someClip : toString_base64 someClip = "TWFuIQ=="%string.
Proof. reflexivity. Qed.

Example base64_padding :
  toString_base64 [Byte.x4d] = "TQ=="%string
  /\ toString_base64 [Byte.x4d; Byte.x61] = "TWE="%string
  /\ toString_base64 [Byte.x4d; Byte.x61; Byte.x6e] = "TWFu"%string
  /\ toString_base64 [Byte.xff; Byte.xfe; Byte.xfd] = "//79"%string.
Proof. repeat split. Qed.

Example base64_of_500_bytes :
  String.length (toString_base64 (repeat Byte.x7f 500)) = 668.
Proof. vm_compute. reflexivity. Qed.

Example frames_of_500_bytes :
  map isMedia (ws (sendAudioToTwilio readySession (repeat Byte.x7f 500)))
  = [true; true; true; true; false].
Proof. vm_compute. reflexivity. Qed.

(** C1.  When the session is ready (ready flag set, stream id known) and
    the caller-speech flag is down, delivering a clip appends to the
    socket exactly [ceil (L / 214)] media frames, [L] being the length of
    the clip's base64 text, each with a payload of at most 214 characters,
    whose payloads concatenated in order are that base64 text, and then
    one mark frame named ["audio_complete"]. *)
Theorem sendAudioToTwilio_chunked_delivery
    (session : Session) (audioBuffer : Buffer) :
  isReady session = true ->
  JS.truthy (streamSid session) = true ->
  userSpeechDetected session = false ->
  exists payloads : list string,
    ws (sendAudioToTwilio session audioBuffer)
      = ws session ++ map (media (streamSid session)) payloads
          ++ [mark (streamSid session) "audio_complete"]
    /\ List.length payloads
       = ceil_div (String.length (toString_base64 audioBuffer)) 214
    /\ Forall (fun p => String.length p <= 214) payloads
    /\ String.concat "" payloads = toString_base64 audioBuffer.
Proof.
  intros Hr Hs Hf.
  exists (payloads_from (toString_base64 audioBuffer) 0 chunkSize
            (ceil_div (String.length (toString_base64 audioBuffer)) chunkSize)).
  repeat split.
  - rewrite sendAudioToTwilio_ready by assumption. reflexivity.
  - unfold payloads_from. rewrite length_map, length_seq. reflexivity.
  - apply payloads_from_short.
  - rewrite concat_payloads_from. apply substring_whole.
    apply (ceil_div_least _ chunkSize). unfold chunkSize. lia.
Qed.

Lemma sendAudioToTwilio_chunked_delivery_witness :
  exists payloads : list string,
    ws (sendAudioToTwilio readySession someClip)
      = ws readySession ++ map (media (streamSid readySession)) payloads
          ++ [mark (streamSid readySession) "audio_complete"]
    /\ List.length payloads
       = ceil_div (String.length (toString_base64 someClip)) 214
    /\ Forall (fun p => String.length p <= 214) payloads
    /\ String.concat "" payloads = toString_base64 someClip.
Proof.
  exact (sendAudioToTwilio_chunked_delivery readySession someClip
           eq_refl eq_refl eq_refl).
Defined.

(** C2, as stated, fails: with the caller-speech flag up and a frame to
    send, the loop is left by its [return] and no mark frame goes out. *)
Lemma sendAudioToTwilio_abort_sends_no_mark :
  snd (send_frames (toString_base64 someClip) 0 interruptedSession) = Returned
  /\ List.length
       (List.filter isMark (ws (sendAudioToTwilio interruptedSession someClip))) = 0.
Proof. split; reflexivity. Qed.

(** C2, amended.  On a ready session, a delivery that runs to the last
    frame is followed by exactly one mark frame, the last frame sent; a
    delivery that finds the caller-speech flag up before a frame (at
    whatever index [i] the loop stands) returns at once, sending neither
    that frame nor a mark, and clears the speaking flag itself. *)
Theorem sendAudioToTwilio_mark_only_when_completed
    (session : Session) (audioBuffer : Buffer) :
  isReady session = true ->
  JS.truthy (streamSid session) = true ->
  (userSpeechDetected session = false ->
     sendAudioToTwilio session audioBuffer
       = emit (delivery (streamSid session) audioBuffer) session
     /\ List.filter isMark (delivery (streamSid session) audioBuffer)
        = [mark (streamSid session) "audio_complete"]
     /\ last (delivery (streamSid session) audioBuffer)
        = Some (mark (streamSid session) "audio_complete"))
  /\ (userSpeechDetected session = true ->
      (forall i, i < String.length (toString_base64 audioBuffer) ->
         send_frames (toString_base64 audioBuffer) i session
           = (set_isAISpeaking false session, Returned))
      /\ (0 < String.length (toString_base64 audioBuffer) ->
          sendAudioToTwilio session audioBuffer
            = set_isAISpeaking false session)).
Proof.
  intros Hr Hs. split.
  - intros Hf. split; [|split].
    + apply sendAudioToTwilio_ready; assumption.
    + apply delivery_marks.
    + unfold delivery. cbv zeta. apply last_snoc.
  - intros Hf. split.
    + intros i Hi. apply send_frames_abort; assumption.
    + intros Hne. unfold sendAudioToTwilio. pass_guard Hr Hs.
      rewrite send_frames_abort by assumption. reflexivity.
Qed.

Lemma sendAudioToTwilio_mark_only_when_completed_witness :
  List.filter isMark (ws (sendAudioToTwilio readySession someClip))
    = [mark (Some "MZ1"%string) "audio_complete"]
  /\ sendAudioToTwilio interruptedSession someClip
     = set_isAISpeaking false interruptedSession.
Proof.
  split.
  - destruct (sendAudioToTwilio_mark_only_when_completed
                readySession someClip eq_refl eq_refl) as [Hrun _].
    destruct (Hrun eq_refl) as [-> _]. reflexivity.
  - destruct (sendAudioToTwilio_mark_only_when_completed
                interruptedSession someClip eq_refl eq_refl) as [_ Habort].
    destruct (Habort eq_refl) as [_ H]. apply H. simpl. lia.
Defined.

(** ** What a delivery can do to a session *)

Lemma send_frames_idle (base64Audio : string) (i : nat) (session : Session) :
  String.length base64Audio <= i ->
  send_frames base64Audio i session = (session, Finished).
Proof.
  intros Hi. simp send_frames.
  destruct (lt_dec i (String.length base64Audio)) as [?|?]; [lia|reflexivity].
Qed.

Lemma sendAudioToTwilio_queues (session : Session) (audioBuffer : Buffer) :
  isReady session = false \/ JS.truthy (streamSid session) = false ->
  sendAudioToTwilio session audioBuffer
    = set_audioQueue (audioQueue session ++ [audioBuffer]) session.
Proof.
  intros [H|H]; unfold sendAudioToTwilio; rewrite H; simpl;
    [reflexivity | rewrite orb_true_r; reflexivity].
Qed.

Lemma sendAudioToTwilio_flagged (session : Session) (audioBuffer : Buffer) :
  isReady session = true ->
  JS.truthy (streamSid session) = true ->
  userSpeechDetected session = true ->
  sendAudioToTwilio session audioBuffer = set_isAISpeaking false session
  \/ sendAudioToTwilio session audioBuffer
     = emit [mark (streamSid session) "audio_complete"] session.
Proof.
  intros Hr Hs Hf. unfold sendAudioToTwilio. pass_guard Hr Hs.
  destruct (lt_dec 0 (String.length (toString_base64 audioBuffer))) as [Hl|Hl].
  - left. rewrite send_frames_abort by assumption. reflexivity.
  - right. rewrite send_frames_idle by lia. reflexivity.
Qed.

Lemma sendAudioToTwilio_cases (session : Session) (audioBuffer : Buffer) :
  sendAudioToTwilio session audioBuffer
    = set_audioQueue (audioQueue session ++ [audioBuffer]) session
  \/ sendAudioToTwilio session audioBuffer
     = emit (delivery (streamSid session) audioBuffer) session
  \/ sendAudioToTwilio session audioBuffer = set_isAISpeaking false session
  \/ sendAudioToTwilio session audioBuffer
     = emit [mark (streamSid session) "audio_complete"] session.
Proof.
  destruct (isReady session) eqn:Hr;
    [|left; apply sendAudioToTwilio_queues; auto].
  destruct (JS.truthy (streamSid session)) eqn:Hs;
    [|left; apply sendAudioToTwilio_queues; auto].
  destruct (userSpeechDetected session) eqn:Hf.
  - right; right. apply sendAudioToTwilio_flagged; assumption.
  - right; left. apply sendAudioToTwilio_ready; assumption.
Qed.

Lemma sendAudioToTwilio_context (session : Session) (audioBuffer : Buffer) :
  context (sendAudioToTwilio session audioBuffer) = context session.
Proof.
  destruct (sendAudioToTwilio_cases session audioBuffer)
    as [-> | [-> | [-> | ->]]]; reflexivity.
Qed.

Lemma speak_resume_context (session : Session) (ttsAudio : option Buffer) :
  context (speak_resume session ttsAudio) = context session.
Proof.
  unfold speak_resume. destruct ttsAudio as [audio|]; [|reflexivity].
  cbv zeta. destruct (userSpeechDetected _); [reflexivity|].
  rewrite sendAudioToTwilio_context. reflexivity.
Qed.

(** Once the caller-speech flag is up, resuming an utterance sends
    nothing, whatever the synthesizer returned. *)
Lemma speak_resume_flagged (session : Session) (ttsAudio : option Buffer) :
  userSpeechDetected session = true ->
  ws (speak_resume session ttsAudio) = ws session
  /\ isAISpeaking (speak_resume session ttsAudio) = false.
Proof.
  intros Hf. unfold speak_resume. destruct ttsAudio as [audio|].
  - cbv zeta.
    change (userSpeechDetected (set_currentAudioChunks _ session))
      with (userSpeechDetected session).
    rewrite Hf. split; reflexivity.
  - split; reflexivity.
Qed.

(** ** Barge-in *)

(** C3, as stated, fails: an interim transcript of four spaces is longer
    than the threshold and arrives while the agent speaks, yet the
    listener returns at its white-space guard and the session is left as
    it was. *)
Lemma blank_interim_does_not_interrupt :
  3 < String.length "    "
  /\ JS.trim "    " = EmptyString
  /\ isAISpeaking speakingSession = true
  /\ on_Transcript noRequests speakingSession
       (mkTranscriptData (Some "    "%string) false) rejected None
     = (noRequests, speakingSession).
Proof. repeat split. simpl. lia. Qed.

(** C3, amended.  An interim transcript whose text is not only white
    space and is longer than 3 characters, arriving while the speaking
    flag is set, interrupts: the speaking flag is cleared, the buffered
    chunks are dropped, one clear frame carrying the session's stream id
    goes out, and the caller-speech flag is set, so that the delivery loop
    sends no frame from whatever index it stands at, and an utterance
    awaiting its audio sends nothing when it resumes. *)
Theorem interim_transcript_interrupts
    (sv : Services) (session : Session) (t : string)
    (response : Settled string) (ttsAudio : option Buffer) :
  JS.blank t = false ->
  3 < String.length t ->
  isAISpeaking session = true ->
  let after :=
    snd (on_Transcript sv session (mkTranscriptData (Some t) false)
           response ttsAudio) in
  isAISpeaking after = false
  /\ currentAudioChunks after = []
  /\ ws after = ws session ++ [clear (streamSid session)]
  /\ userSpeechDetected after = true
  /\ (forall base64Audio i, i < String.length base64Audio ->
        ws (fst (send_frames base64Audio i after)) = ws after)
  /\ (forall audio, ws (speak_resume after audio) = ws after).
Proof.
  intros Ht Hlen Hsp after.
  assert (E : after = handleInterruption (set_interimTranscript t session)).
  { unfold after, on_Transcript. cbn [transcript is_final].
    rewrite Ht.
    change (isAISpeaking (set_interimTranscript t session))
      with (isAISpeaking session).
    rewrite Hsp. apply Nat.ltb_lt in Hlen. rewrite Hlen. reflexivity. }
  rewrite E. repeat split.
  - intros base64Audio i Hi. rewrite send_frames_abort by auto. reflexivity.
  - intros audio. apply speak_resume_flagged. reflexivity.
Qed.

Lemma interim_transcript_interrupts_witness :
  let after :=
    snd (on_Transcript noRequests speakingSession
           (mkTranscriptData (Some "hello"%string) false) rejected None) in
  isAISpeaking after = false
  /\ currentAudioChunks after = []
  /\ ws after = ws speakingSession ++ [clear (streamSid speakingSession)]
  /\ userSpeechDetected after = true
  /\ (forall base64Audio i, i < String.length base64Audio ->
        ws (fst (send_frames base64Audio i after)) = ws after)
  /\ (forall audio, ws (speak_resume after audio) = ws after).
Proof.
  apply (interim_transcript_interrupts noRequests speakingSession "hello"
           rejected None).
  - reflexivity.
  - simpl. lia.
  - reflexivity.
Defined.

(** C10.  An inbound media event that carries a payload decoding to at
    least one byte, handled while the session has a recognizer stream,
    forwards the audio and sets the caller-speech flag, whether or not the
    agent is speaking and whatever was transcribed; from then on the
    delivery loop returns at its check from any index, and an utterance
    awaiting its audio sends nothing when it resumes. *)
Theorem media_sets_userSpeechDetected
    (Buffer_from_base64 : string -> Buffer)
    (session : Session) (stream : SttStream) (payload : string) :
  sttStream session = Some stream ->
  JS.truthy (Some payload) = true ->
  0 < List.length (Buffer_from_base64 payload) ->
  exists after,
    on_media Buffer_from_base64 (Some session) (Some payload) = Some after
    /\ userSpeechDetected after = true
    /\ sttStream after = Some (stt_send (Buffer_from_base64 payload) stream)
    /\ isAISpeaking after = isAISpeaking session
    /\ (forall base64Audio i, i < String.length base64Audio ->
          send_frames base64Audio i after
            = (set_isAISpeaking false after, Returned))
    /\ (forall audio, ws (speak_resume after audio) = ws after).
Proof.
  intros Hstream Hp Hbuf.
  exists (set_userSpeechDetected true
            (set_sttStream
               (Some (stt_send (Buffer_from_base64 payload) stream)) session)).
  split.
  - unfold on_media. rewrite Hstream, Hp.
    apply Nat.ltb_lt in Hbuf. rewrite Hbuf. reflexivity.
  - repeat split.
    + intros base64Audio i Hi. apply send_frames_abort; auto.
    + intros audio. apply speak_resume_flagged. reflexivity.
Qed.

Lemma media_sets_userSpeechDetected_witness :
  exists after,
    on_media bytes_of_text (Some listeningSession) (Some "fw=="%string)
      = Some after
    /\ userSpeechDetected after = true
    /\ sttStream after
       = Some (stt_send (bytes_of_text "fw==") (mkSttStream []))
    /\ isAISpeaking after = isAISpeaking listeningSession
    /\ (forall base64Audio i, i < String.length base64Audio ->
          send_frames base64Audio i after
            = (set_isAISpeaking false after, Returned))
    /\ (forall audio, ws (speak_resume after audio) = ws after).
Proof.
  apply (media_sets_userSpeechDetected bytes_of_text listeningSession
           (mkSttStream []) "fw==");
    [reflexivity | reflexivity | simpl; lia].
Defined.

(** The flag set by inbound audio silences an utterance whose synthesis
    was pending: the greeting begun on a listening session sends nothing
    if one media event is handled before its audio arrives. *)
Example media_during_synthesis_silences_the_reply :
  let awaiting := snd (speak_begin noRequests listeningSession "Hello!") in
  userSpeechDetected awaiting = false
  /\ (ws <$> (flip speak_resume (Some someClip)
                <$> on_media bytes_of_text (Some awaiting) (Some "fw=="%string)))
     = Some [].
Proof. split; reflexivity. Qed.

(** ** Conversation history *)

Lemma speakWithInterruption_context
    (sv : Services) (session : Session) (text : string)
    (ttsAudio : option Buffer) :
  context (snd (speakWithInterruption sv session text ttsAudio))
    = context session.
Proof.
  unfold speakWithInterruption, speak_begin. cbn [snd].
  rewrite speak_resume_context. reflexivity.
Qed.

Lemma on_Transcript_final
    (sv : Services) (session : Session) (t : string)
    (response : Settled string) (ttsAudio : option Buffer) :
  JS.blank t = false ->
  on_Transcript sv session (mkTranscriptData (Some t) true) response ttsAudio
    = handleUserMessage sv
        (appendToContext
           (match silenceTimer session with
            | Some _ => set_silenceTimer None session
            | None => session
            end) t user)
        t response ttsAudio.
Proof.
  intros Ht. unfold on_Transcript. cbn [transcript is_final].
  rewrite Ht. reflexivity.
Qed.

Lemma on_Transcript_final_context
    (sv : Services) (session : Session) (t : string)
    (response : Settled string) (ttsAudio : option Buffer) :
  JS.blank t = false ->
  context (snd (on_Transcript sv session (mkTranscriptData (Some t) true)
                  response ttsAudio))
    = context session
        ++ [mkTurn user [mkPart t]; mkTurn model [mkPart (reply_of response)]].
Proof.
  intros Ht. rewrite on_Transcript_final by exact Ht.
  unfold handleUserMessage, callLLM.
  destruct response as [response_text|]; cbv beta iota zeta;
    rewrite speakWithInterruption_context;
    destruct (silenceTimer session); simpl;
    rewrite <- app_assoc; reflexivity.
Qed.

(** One question answered with a 500-byte clip: two turns in the history,
    four media frames and one mark on the socket. *)
Example weather_scenario :
  let after :=
    snd (on_Transcript noRequests readySession
           (mkTranscriptData (Some "What's the weather?"%string) true)
           (fulfilled "I can't check weather, sorry."%string)
           (Some (repeat Byte.x7f 500))) in
  context after
    = [mkTurn user [mkPart "What's the weather?"];
       mkTurn model [mkPart "I can't check weather, sorry."]]
  /\ map isMedia (ws after) = [true; true; true; true; false]
  /\ List.filter isMark (ws after)
     = [mark (Some "MZ1"%string) "audio_complete"].
Proof. vm_compute. repeat split. Qed.

Example history_of_twoQuestions :
  context (snd (on_Transcripts noRequests readySession twoQuestions))
  = [mkTurn user [mkPart "What's the weather?"];
     mkTurn model [mkPart "I can't check weather, sorry."];
     mkTurn user [mkPart "Thanks"];
     mkTurn model [mkPart fallbackReply]].
Proof. reflexivity. Qed.

(** C6.  An interim transcript event, whatever its text, leaves the
    history as it was and makes no request to the generator (nor to the
    synthesizer); a final transcript event with non-blank text does both:
    it asks the generator, with the caller's turn already in the history
    it is given, and the history grows. *)
Theorem interim_transcript_leaves_history
    (sv : Services) (session : Session) (t : option string)
    (response : Settled string) (ttsAudio : option Buffer) :
  (let after :=
     on_Transcript sv session (mkTranscriptData t false) response ttsAudio in
   context (snd after) = context session /\ fst after = sv)
  /\ (forall text, t = Some text -> JS.blank text = false ->
      let after :=
        on_Transcript sv session (mkTranscriptData t true) response ttsAudio in
      context (snd after)
        = context session
            ++ [mkTurn user [mkPart text];
                mkTurn model [mkPart (reply_of response)]]
      /\ generateContent_requests (fst after)
         = generateContent_requests sv
             ++ [(context session ++ [mkTurn user [mkPart text]],
                  agentPrompt session)]).
Proof.
  split.
  - unfold on_Transcript. cbn [transcript is_final negb].
    destruct t as [text|]; [|split; reflexivity].
    destruct (JS.blank text); [split; reflexivity|].
    cbv zeta.
    destruct (isAISpeaking (set_interimTranscript text session)
              && (3 <? String.length text)); split; reflexivity.
  - intros text -> Hne after. split.
    + apply on_Transcript_final_context, Hne.
    + unfold after. rewrite on_Transcript_final by exact Hne.
      unfold handleUserMessage, callLLM, speakWithInterruption, speak_begin.
      destruct response; destruct (silenceTimer session); reflexivity.
Qed.

Lemma interim_transcript_leaves_history_witness :
  on_Transcript noRequests speakingSession
    (mkTranscriptData (Some "hello there"%string) false) rejected None
  = (noRequests, handleInterruption
                   (set_interimTranscript "hello there" speakingSession))
  /\ generateContent_requests
       (fst (on_Transcript noRequests speakingSession
               (mkTranscriptData (Some "hello there"%string) true)
               rejected None))
     = [([mkTurn user [mkPart "hello there"]],
         "You are a helpful AI assistant."%string)].
Proof.
  destruct (interim_transcript_leaves_history noRequests speakingSession
              (Some "hello there"%string) rejected None) as [_ Hfinal].
  split; [reflexivity|].
  apply (Hfinal "hello there"%string eq_refl). reflexivity.
Defined.

(** C7.  When the generator fails for a final transcript, the agent turn
    appended after the caller's turn is the fixed apology, and
    [synthesizeTTS] is called on that apology with the session's voice. *)
Theorem generator_failure_speaks_fallback
    (sv : Services) (session : Session) (t : string)
    (ttsAudio : option Buffer) :
  JS.blank t = false ->
  let after :=
    on_Transcript sv session (mkTranscriptData (Some t) true)
      rejected ttsAudio in
  context (snd after)
    = context session
        ++ [mkTurn user [mkPart t];
            mkTurn model
              [mkPart "I apologize, I'm having trouble processing that right now."]]
  /\ synthesizeTTS_calls (fst after)
     = synthesizeTTS_calls sv
         ++ [("I apologize, I'm having trouble processing that right now."%string,
              agentVoiceId session)].
Proof.
  intros Hne after. split.
  - apply (on_Transcript_final_context sv session t rejected ttsAudio Hne).
  - unfold after. rewrite on_Transcript_final by exact Hne.
    destruct (silenceTimer session); reflexivity.
Qed.

Lemma generator_failure_speaks_fallback_witness :
  let after :=
    on_Transcript noRequests readySession
      (mkTranscriptData (Some "What's the weather?"%string) true)
      rejected (Some someClip) in
  context (snd after)
    = context readySession
        ++ [mkTurn user [mkPart "What's the weather?"];
            mkTurn model
              [mkPart "I apologize, I'm having trouble processing that right now."]]
  /\ synthesizeTTS_calls (fst after)
     = synthesizeTTS_calls noRequests
         ++ [("I apologize, I'm having trouble processing that right now."%string,
              agentVoiceId readySession)].
Proof.
  apply (generator_failure_speaks_fallback noRequests readySession
           "What's the weather?" (Some someClip)).
  reflexivity.
Defined.

(** C8.  When the synthesizer returns no audio, the utterance puts
    nothing on the socket (no media frame, no mark frame), the speaking
    flag is cleared, and no delivery is attempted (the pending queue is
    untouched); this holds for the session as it is when the synthesis
    settles, and so for an utterance spoken with nothing in between. *)
Theorem no_audio_sends_nothing
    (sv : Services) (session : Session) (text : string) :
  (ws (speak_resume session None) = ws session
   /\ isAISpeaking (speak_resume session None) = false
   /\ audioQueue (speak_resume session None) = audioQueue session)
  /\ (let after := snd (speakWithInterruption sv session text None) in
      ws after = ws session
      /\ isAISpeaking after = false
      /\ audioQueue after = audioQueue session).
Proof. repeat split. Qed.

(** The same for the reply to a final transcript. *)
Lemma final_transcript_without_audio
    (sv : Services) (session : Session) (t : string)
    (response : Settled string) :
  JS.blank t = false ->
  let after :=
    snd (on_Transcript sv session (mkTranscriptData (Some t) true)
           response None) in
  ws after = ws session /\ isAISpeaking after = false.
Proof.
  intros Hne after. unfold after.
  rewrite on_Transcript_final by exact Hne.
  unfold handleUserMessage, callLLM.
  destruct response; destruct (silenceTimer session); split; reflexivity.
Qed.

(** ** Session registry *)

Lemma endSession_absent (callId : string) (reg : Registry) :
  sessions reg !! callId = None -> endSession callId reg = reg.
Proof. intros E. unfold endSession. rewrite E. reflexivity. Qed.

Lemma endSession_removes (callId : string) (reg : Registry) :
  sessions (endSession callId reg) !! callId = None.
Proof.
  unfold endSession. destruct (sessions reg !! callId) eqn:E; [|exact E].
  cbn [sessions]. apply lookup_delete_eq.
Qed.

Lemma endSession_others (callId other : string) (reg : Registry) :
  callId <> other ->
  sessions (endSession callId reg) !! other = sessions reg !! other.
Proof.
  intros Hne. unfold endSession.
  destruct (sessions reg !! callId); [|reflexivity].
  cbn [sessions]. apply lookup_delete_ne, Hne.
Qed.

(** C9.  Ending a session a second time changes nothing and cannot fail:
    the map, every session left in it, and the trace of effects are as
    the first call left them. *)
Theorem endSession_twice (callId : string) (reg : Registry) :
  endSession callId (endSession callId reg) = endSession callId reg.
Proof. apply endSession_absent, endSession_removes. Qed.

Example endSession_after_createSession :
  let reg := snd (createSession "CA1" "prompt" None [] (mkRegistry ∅ [])) in
  sessions (endSession "CA1" reg) = ∅
  /\ trace (endSession "CA1" (endSession "CA1" reg))
     = trace reg ++ [console_log "Ended session for call CA1"].
Proof.
  split.
  - cbn [createSession snd]. unfold endSession.
    cbn [sessions]. rewrite lookup_insert_eq. cbn [sessions].
    rewrite delete_insert_eq, delete_empty. reflexivity.
  - rewrite (endSession_absent _ (endSession _ _)) by apply endSession_removes.
    cbn [createSession snd]. unfold endSession.
    cbn [sessions]. rewrite lookup_insert_eq. reflexivity.
Qed.

(** ** Queueing before the start signal, and the drain on start *)

Lemma QueuedStart_send_frames_run
    (base64Audio : string) (i : nat) (session : Session) :
  QueuedStart.send_frames base64Audio i session
    = emit (map (media (streamSid session))
              (payloads_from base64Audio i chunkSize
                 (ceil_div (String.length base64Audio - i) chunkSize)))
        session.
Proof.
  funelim (QueuedStart.send_frames base64Audio i session).
  - rewrite H. rewrite emit_ws_send, (ceil_div_step _ i) by exact l.
    rewrite payloads_from_S. reflexivity.
  - replace (ceil_div (String.length base64Audio - i) chunkSize) with 0.
    + simpl. rewrite emit_nil. reflexivity.
    + symmetry. apply Nat.div_small. unfold chunkSize. lia.
Qed.

Lemma QueuedStart_sendAudioToTwilio_ready
    (session : Session) (audioBuffer : Buffer) :
  isReady session = true ->
  JS.truthy (streamSid session) = true ->
  QueuedStart.sendAudioToTwilio session audioBuffer
    = emit (delivery (streamSid session) audioBuffer) session.
Proof.
  intros Hr Hs. unfold QueuedStart.sendAudioToTwilio.
  pass_guard Hr Hs.
  rewrite QueuedStart_send_frames_run.
  rewrite ws_send_emit, emit_emit, Nat.sub_0_r. reflexivity.
Qed.

Lemma QueuedStart_sendAudioToTwilio_queues
    (session : Session) (audioBuffer : Buffer) :
  isReady session = false \/ JS.truthy (streamSid session) = false ->
  QueuedStart.sendAudioToTwilio session audioBuffer
    = set_audioQueue (audioQueue session ++ [audioBuffer]) session.
Proof.
  intros [H|H]; unfold QueuedStart.sendAudioToTwilio; rewrite H; simpl;
    [reflexivity | rewrite orb_true_r; reflexivity].
Qed.

Lemma queueing_accumulates (clips : list Buffer) (session : Session) :
  isReady session = false \/ JS.truthy (streamSid session) = false ->
  fold_left QueuedStart.sendAudioToTwilio clips session
    = set_audioQueue (audioQueue session ++ clips) session.
Proof.
  revert session. induction clips as [|c clips IH]; intros session H.
  - simpl. rewrite app_nil_r. destruct session; reflexivity.
  - cbn [fold_left]. rewrite QueuedStart_sendAudioToTwilio_queues by exact H.
    rewrite IH by exact H. destruct session; unfold set_audioQueue; simpl.
    rewrite <- app_assoc. reflexivity.
Qed.

(** With the caller-speech flag down, the later revision delivers as the
    earlier one does. *)
Lemma sendAudioToTwilio_as_before (session : Session) (audioBuffer : Buffer) :
  userSpeechDetected session = false ->
  sendAudioToTwilio session audioBuffer
    = QueuedStart.sendAudioToTwilio session audioBuffer.
Proof.
  intros Hf.
  destruct (isReady session) eqn:Hr;
    [|rewrite sendAudioToTwilio_queues, QueuedStart_sendAudioToTwilio_queues;
      auto].
  destruct (JS.truthy (streamSid session)) eqn:Hs;
    [|rewrite sendAudioToTwilio_queues, QueuedStart_sendAudioToTwilio_queues;
      auto].
  rewrite sendAudioToTwilio_ready, QueuedStart_sendAudioToTwilio_ready; auto.
Qed.

(** On a ready session the drain ends, having delivered in array order
    every clip from position [i] on. *)
Lemma drain_ready (fuel i : nat) (session : Session) :
  isReady session = true ->
  JS.truthy (streamSid session) = true ->
  List.length (audioQueue session) - i < fuel ->
  QueuedStart.drain fuel i session
    = Some (emit (flat_map (delivery (streamSid session))
                    (drop i (audioQueue session))) session).
Proof.
  revert i session. induction fuel as [|fuel IH]; intros i session Hr Hs Hf;
    [lia|].
  cbn [QueuedStart.drain].
  destruct (audioQueue session !! i) as [audioBuffer|] eqn:E.
  - rewrite (drop_S _ _ _ E). cbn [flat_map].
    rewrite QueuedStart_sendAudioToTwilio_ready by assumption.
    apply lookup_lt_Some in E.
    rewrite IH; [| exact Hr | exact Hs | cbn; lia].
    rewrite emit_emit. reflexivity.
  - apply lookup_ge_None in E. rewrite drop_ge by exact E.
    cbn [flat_map]. rewrite emit_nil. reflexivity.
Qed.

(** Without a stream id every iteration queues the clip again behind the
    others, so the iterator never reaches the end of the array. *)
Lemma drain_unready (fuel i : nat) (session : Session) :
  JS.truthy (streamSid session) = false ->
  i < List.length (audioQueue session) ->
  QueuedStart.drain fuel i session = None
  /\ ws (QueuedStart.drain_progress fuel i session) = ws session
  /\ isReady (QueuedStart.drain_progress fuel i session) = isReady session.
Proof.
  revert i session. induction fuel as [|fuel IH]; intros i session Hs Hi;
    [repeat split|].
  cbn [QueuedStart.drain QueuedStart.drain_progress].
  destruct (lookup_lt_is_Some_2 _ _ Hi) as [audioBuffer E]. rewrite E.
  rewrite QueuedStart_sendAudioToTwilio_queues by auto.
  destruct (IH (S i)
              (set_audioQueue (audioQueue session ++ [audioBuffer]) session))
    as [Hd [Hws Hr]]; [exact Hs | cbn; rewrite length_app; cbn; lia |].
  rewrite Hd, Hws, Hr. repeat split.
Qed.

(** C4, as stated, fails: a start signal without a stream id sets the
    ready flag, yet the clip that was waiting is never delivered; however
    far the drain loop is followed it has put nothing on the socket, and
    it does not end. *)
Lemma start_without_streamSid_never_delivers :
  isReady waitingSession = false
  /\ audioQueue waitingSession = [someClip]
  /\ (forall n,
        let running :=
          QueuedStart.drain_progress n 0
            (set_isReady true (set_streamSid None waitingSession)) in
        isReady running = true /\ ws running = [])
  /\ (forall fuel, QueuedStart.on_start fuel waitingSession None = None).
Proof.
  split; [reflexivity|]. split; [reflexivity|]. split.
  - intros n running. subst running.
    destruct (drain_unready n 0
                (set_isReady true (set_streamSid None waitingSession)))
      as [_ [Hws Hr]]; [reflexivity | cbn; lia |].
    split; [rewrite Hr | rewrite Hws]; reflexivity.
  - intros fuel. unfold QueuedStart.on_start. cbv zeta.
    destruct (drain_unready fuel 0
                (set_isReady true (set_streamSid None waitingSession)))
      as [Hd _]; [reflexivity | cbn; lia |].
    rewrite Hd. reflexivity.
Qed.

(** While the session is not ready, an utterance that resumes and a
    recognizer event put no media frame on the socket: the most that goes
    out is the clear frame of an interruption. *)
Lemma speak_resume_unready (session : Session) (ttsAudio : option Buffer) :
  isReady session = false \/ JS.truthy (streamSid session) = false ->
  ws (speak_resume session ttsAudio) = ws session.
Proof.
  intros H. unfold speak_resume. destruct ttsAudio as [audio|]; [|reflexivity].
  cbv zeta. destruct (userSpeechDetected _); [reflexivity|].
  rewrite sendAudioToTwilio_queues by exact H. reflexivity.
Qed.

Lemma on_Transcript_unready
    (sv : Services) (session : Session) (data : TranscriptData)
    (response : Settled string) (ttsAudio : option Buffer) :
  isReady session = false \/ JS.truthy (streamSid session) = false ->
  List.filter isMedia (ws (snd (on_Transcript sv session data response ttsAudio)))
    = List.filter isMedia (ws session).
Proof.
  intros H. unfold on_Transcript.
  destruct (transcript data) as [t|]; [|reflexivity].
  destruct (JS.blank t); [reflexivity|].
  destruct (negb (is_final data)).
  - cbv zeta.
    destruct (isAISpeaking (set_interimTranscript t session)
              && (3 <? String.length t)); [|reflexivity].
    cbn [snd handleInterruption ws ws_send set_ws set_userSpeechDetected
           set_currentAudioChunks set_isAISpeaking set_interimTranscript].
    rewrite List.filter_app, app_nil_r. reflexivity.
  - cbv zeta. unfold handleUserMessage, callLLM.
    destruct response; cbv beta iota zeta;
      unfold speakWithInterruption, speak_begin; cbn [snd];
      rewrite speak_resume_unready;
      destruct (silenceTimer session); try reflexivity; exact H.
Qed.

(** C4, amended.  While the ready flag is down or the stream id is unset,
    a clip handed to the delivery (in either revision) is appended to the
    pending queue and nothing is sent, and no recognizer event puts a
    media frame on the socket; clips queued this way are all delivered, in
    the order they were queued, by the start signal that sets the ready
    flag together with a stream id, after which the queue is empty. *)
Theorem queued_clips_are_delivered_in_order
    (session : Session) (clips : list Buffer)
    (start_streamSid : option string) :
  isReady session = false \/ JS.truthy (streamSid session) = false ->
  JS.truthy start_streamSid = true ->
  let waiting := fold_left QueuedStart.sendAudioToTwilio clips session in
  (forall audioBuffer,
     sendAudioToTwilio session audioBuffer
       = set_audioQueue (audioQueue session ++ [audioBuffer]) session
     /\ QueuedStart.sendAudioToTwilio session audioBuffer
        = set_audioQueue (audioQueue session ++ [audioBuffer]) session)
  /\ (forall sv data response ttsAudio,
        List.filter isMedia
          (ws (snd (on_Transcript sv session data response ttsAudio)))
        = List.filter isMedia (ws session))
  /\ ws waiting = ws session
  /\ audioQueue waiting = audioQueue session ++ clips
  /\ (forall fuel, List.length (audioQueue waiting) < fuel ->
      exists after,
        QueuedStart.on_start fuel waiting start_streamSid = Some after
        /\ ws after
           = ws session
               ++ flat_map (delivery start_streamSid)
                    (audioQueue session ++ clips)
        /\ audioQueue after = []
        /\ isReady after = true
        /\ streamSid after = start_streamSid).
Proof.
  intros Hwait Hsid waiting.
  assert (E : waiting = set_audioQueue (audioQueue session ++ clips) session)
    by (apply queueing_accumulates, Hwait).
  split; [|split; [|rewrite E; split; [reflexivity | split; [reflexivity|]]]].
  - intros audioBuffer. split.
    + apply sendAudioToTwilio_queues, Hwait.
    + apply QueuedStart_sendAudioToTwilio_queues, Hwait.
  - intros sv data response ttsAudio. apply on_Transcript_unready, Hwait.
  - cbn [audioQueue set_audioQueue]. intros fuel Hfuel.
    unfold QueuedStart.on_start. cbv zeta.
    cbn [audioQueue set_audioQueue set_isReady set_streamSid].
    destruct (audioQueue session ++ clips) as [|c q] eqn:Eq.
    + cbn. eexists. split; [reflexivity|].
      cbn. rewrite app_nil_r. repeat split.
    + cbn [List.length Nat.ltb Nat.leb].
      rewrite drain_ready; [| reflexivity | exact Hsid | cbn in *; lia].
      eexists. split; [reflexivity|]. repeat split.
Qed.

Lemma queued_clips_are_delivered_in_order_witness :
  let session := newSession "CA1" "You are a helpful AI assistant." None [] in
  let waiting :=
    fold_left QueuedStart.sendAudioToTwilio [someClip; []] session in
  (forall audioBuffer,
     sendAudioToTwilio session audioBuffer
       = set_audioQueue (audioQueue session ++ [audioBuffer]) session
     /\ QueuedStart.sendAudioToTwilio session audioBuffer
        = set_audioQueue (audioQueue session ++ [audioBuffer]) session)
  /\ (forall sv data response ttsAudio,
        List.filter isMedia
          (ws (snd (on_Transcript sv session data response ttsAudio)))
        = List.filter isMedia (ws session))
  /\ ws waiting = ws session
  /\ audioQueue waiting = audioQueue session ++ [someClip; []]
  /\ (forall fuel, List.length (audioQueue waiting) < fuel ->
      exists after,
        QueuedStart.on_start fuel waiting (Some "MZ1"%string) = Some after
        /\ ws after
           = ws session
               ++ flat_map (delivery (Some "MZ1"%string))
                    (audioQueue session ++ [someClip; []])
        /\ audioQueue after = []
        /\ isReady after = true
        /\ streamSid after = Some "MZ1"%string).
Proof.
  exact (queued_clips_are_delivered_in_order
           (newSession "CA1" "You are a helpful AI assistant." None [])
           [someClip; []] (Some "MZ1"%string)
           (or_introl eq_refl) eq_refl).
Defined.

Example drain_of_two_clips :
  ws <$> QueuedStart.on_start 3
           (fold_left QueuedStart.sendAudioToTwilio [someClip; []]
              (newSession "CA1" "prompt" None []))
           (Some "MZ1"%string)
  = Some [media (Some "MZ1"%string) "TWFuIQ==";
          mark (Some "MZ1"%string) "audio_complete";
          mark (Some "MZ1"%string) "audio_complete"].
Proof. vm_compute. reflexivity. Qed.

(* ================================================================= *)
(** * Further properties *)

(** ** Frame sizes *)

Lemma substring_length (s : string) (i n : nat) :
  String.length (substring i n s) = Nat.min n (String.length s - i).
Proof.
  revert i n. induction s as [|c s IH]; intros [|i] [|n]; simpl; try lia.
  - rewrite (IH 0 n). lia.
  - apply (IH i 0).
  - apply (IH i (S n)).
Qed.

Lemma payloads_from_lookup (s : string) (i c n k : nat) (p : string) :
  payloads_from s i c n !! k = Some p ->
  k < n /\ p = substring (i + k * c) c s.
Proof.
  unfold payloads_from. intros H.
  apply list_lookup_fmap_Some_1 in H as [j [-> Hj]].
  apply lookup_seq in Hj as [-> Hk]. split; [exact Hk|].
  unfold JS.slice. f_equal. lia.
Qed.

Lemma ceil_div_gt (a b k : nat) : 0 < b -> k < ceil_div a b -> k * b < a.
Proof.
  intros Hb Hk. destruct (le_lt_dec a (k * b)) as [Hle|Hlt]; [|exact Hlt].
  apply (proj2 (ceil_div_least a b Hb)) in Hle. lia.
Qed.

Lemma toString_base64_length_upto (n : nat) (buf : Buffer) :
  List.length buf <= n ->
  String.length (toString_base64 buf) = 4 * ceil_div (List.length buf) 3.
Proof.
  revert buf. induction n as [n IH] using lt_wf_ind. intros buf Hn.
  destruct buf as [|a [|b [|c rest]]]; try reflexivity.
  cbn [toString_base64 String.length List.length].
  rewrite (IH (List.length rest)) by (cbn in Hn; lia).
  unfold ceil_div. change (3 - 1) with 2.
  replace (S (S (S (List.length rest))) + 2)
    with (1 * 3 + (List.length rest + 2)) by lia.
  rewrite Nat.div_add_l by lia. lia.
Qed.

Lemma toString_base64_length (buf : Buffer) :
  String.length (toString_base64 buf) = 4 * ceil_div (List.length buf) 3.
Proof. apply (toString_base64_length_upto (List.length buf)). lia. Qed.

Example base64_of_one_telephony_frame :
  String.length (toString_base64 (repeat Byte.xff 160)) = 216
  /\ map (fun f => match f with media _ p => String.length p | _ => 0 end)
       (ws (sendAudioToTwilio readySession (repeat Byte.xff 160)))
     = [214; 2; 0].
Proof. vm_compute. split; reflexivity. Qed.

(** X1.  In a delivery that runs to its end, every media payload is
    non-empty and every payload but the last has exactly 214
    characters. *)
Theorem delivered_payload_sizes (session : Session) (audioBuffer : Buffer) :
  isReady session = true ->
  JS.truthy (streamSid session) = true ->
  userSpeechDetected session = false ->
  exists payloads : list string,
    ws (sendAudioToTwilio session audioBuffer)
      = ws session ++ map (media (streamSid session)) payloads
          ++ [mark (streamSid session) "audio_complete"]
    /\ forall k p, payloads !! k = Some p ->
         0 < String.length p
         /\ (S k < List.length payloads -> String.length p = 214).
Proof.
  intros Hr Hs Hf.
  set (b64 := toString_base64 audioBuffer).
  exists (payloads_from b64 0 chunkSize (ceil_div (String.length b64) chunkSize)).
  split.
  - rewrite sendAudioToTwilio_ready by assumption. reflexivity.
  - intros k p Hp.
    assert (Hlen : List.length
                     (payloads_from b64 0 chunkSize
                        (ceil_div (String.length b64) chunkSize))
                   = ceil_div (String.length b64) chunkSize)
      by (unfold payloads_from; rewrite length_map, length_seq; reflexivity).
    rewrite Hlen. apply payloads_from_lookup in Hp as [Hk ->].
    rewrite substring_length. cbn [Nat.add].
    pose proof (ceil_div_gt _ chunkSize k ltac:(unfold chunkSize; lia) Hk).
    split.
    + unfold chunkSize in *. lia.
    + intros Hk'.
      pose proof (ceil_div_gt _ chunkSize (S k)
                    ltac:(unfold chunkSize; lia) Hk').
      unfold chunkSize in *. lia.
Qed.

Lemma delivered_payload_sizes_witness :
  exists payloads : list string,
    ws (sendAudioToTwilio readySession (repeat Byte.xff 160))
      = ws readySession ++ map (media (streamSid readySession)) payloads
          ++ [mark (streamSid readySession) "audio_complete"]
    /\ forall k p, payloads !! k = Some p ->
         0 < String.length p
         /\ (S k < List.length payloads -> String.length p = 214).
Proof.
  exact (delivered_payload_sizes readySession (repeat Byte.xff 160)
           eq_refl eq_refl eq_refl).
Defined.

(** X2.  A clip of [n] bytes is delivered in
    [ceil (4 * ceil (n / 3) / 214)] media frames. *)
Theorem delivered_frame_count (session : Session) (audioBuffer : Buffer) :
  isReady session = true ->
  JS.truthy (streamSid session) = true ->
  userSpeechDetected session = false ->
  List.length
    (List.filter isMedia (ws (sendAudioToTwilio session audioBuffer)))
  = List.length (List.filter isMedia (ws session))
    + ceil_div (4 * ceil_div (List.length audioBuffer) 3) 214.
Proof.
  intros Hr Hs Hf. rewrite sendAudioToTwilio_ready by assumption.
  unfold emit, delivery. cbn [ws set_ws]. cbv zeta.
  rewrite !List.filter_app, !length_app. cbn [List.filter isMedia List.length].
  rewrite toString_base64_length. f_equal.
  set (ps := payloads_from _ _ _ _).
  assert (E : List.filter isMedia (map (media (streamSid session)) ps)
              = map (media (streamSid session)) ps)
    by (clearbody ps; induction ps as [|p ps IH]; [reflexivity|];
        cbn; f_equal; exact IH).
  rewrite E, length_map. unfold ps, payloads_from.
  rewrite length_map, length_seq. unfold chunkSize. lia.
Qed.

Lemma delivered_frame_count_witness :
  List.length
    (List.filter isMedia (ws (sendAudioToTwilio readySession someClip)))
  = List.length (List.filter isMedia (ws readySession))
    + ceil_div (4 * ceil_div (List.length someClip) 3) 214.
Proof.
  exact (delivered_frame_count readySession someClip eq_refl eq_refl eq_refl).
Defined.

(** ** What a delivery leaves alone *)

Lemma delivery_streamSid (sid : option string) (audioBuffer : Buffer) :
  Forall (fun f => frame_streamSid f = sid /\ isClear f = false)
    (delivery sid audioBuffer).
Proof.
  unfold delivery. cbv zeta. apply Forall_app. split.
  - set (ps := payloads_from _ _ _ _). clearbody ps.
    induction ps as [|p ps IH]; constructor; [split; reflexivity | exact IH].
  - repeat constructor.
Qed.

(** X3.  An empty clip on a ready session is never cut short: whatever
    the caller-speech flag says, no media frame goes out, the mark does,
    and the speaking flag is left as it was. *)
Theorem empty_clip_sends_only_the_mark (session : Session) :
  isReady session = true ->
  JS.truthy (streamSid session) = true ->
  sendAudioToTwilio session []
    = emit [mark (streamSid session) "audio_complete"] session.
Proof.
  intros Hr Hs. unfold sendAudioToTwilio. pass_guard Hr Hs.
  rewrite send_frames_idle by (cbn; lia). reflexivity.
Qed.

Lemma empty_clip_sends_only_the_mark_witness :
  sendAudioToTwilio interruptedSession []
    = emit [mark (streamSid interruptedSession) "audio_complete"]
        interruptedSession.
Proof.
  exact (empty_clip_sends_only_the_mark interruptedSession eq_refl eq_refl).
Defined.

Lemma sendAudioToTwilio_kept
    (session : Session) (audioBuffer : Buffer) :
  let after := sendAudioToTwilio session audioBuffer in
  (callId after = callId session
   /\ context after = context session
   /\ sttStream after = sttStream session
   /\ agentPrompt after = agentPrompt session
   /\ agentVoiceId after = agentVoiceId session
   /\ streamSid after = streamSid session
   /\ isReady after = isReady session
   /\ currentAudioChunks after = currentAudioChunks session
   /\ userSpeechDetected after = userSpeechDetected session
   /\ interimTranscript after = interimTranscript session
   /\ silenceTimer after = silenceTimer session
   /\ greetingMessage after = greetingMessage session)
  /\ ((ws after = ws session
       /\ audioQueue after = audioQueue session ++ [audioBuffer])
      \/ (audioQueue after = audioQueue session
          /\ ws session `prefix_of` ws after))
  /\ (isAISpeaking after = true -> isAISpeaking session = true).
Proof.
  intros after. subst after.
  destruct (sendAudioToTwilio_cases session audioBuffer)
    as [-> | [-> | [-> | ->]]].
  - split; [repeat split | split; [left; split; reflexivity | auto]].
  - split; [repeat split | split; [right | auto]].
    split; [reflexivity | eexists; reflexivity].
  - split; [repeat split | split; [right | discriminate]].
    split; [reflexivity | exists []; cbn; rewrite app_nil_r; reflexivity].
  - split; [repeat split | split; [right | auto]].
    split; [reflexivity | eexists; reflexivity].
Qed.

(** X4.  Handing a clip to the delivery never touches the history, the
    configuration, the readiness, the recognizer stream, the buffered
    chunks, the caller-speech flag or the interim transcript; it either
    queues the clip and sends nothing, or sends and leaves the queue; and
    it can clear the speaking flag but never sets it. *)
Theorem sendAudioToTwilio_leaves_alone
    (session : Session) (audioBuffer : Buffer) :
  let after := sendAudioToTwilio session audioBuffer in
  (callId after = callId session
   /\ context after = context session
   /\ sttStream after = sttStream session
   /\ agentPrompt after = agentPrompt session
   /\ agentVoiceId after = agentVoiceId session
   /\ streamSid after = streamSid session
   /\ isReady after = isReady session
   /\ currentAudioChunks after = currentAudioChunks session
   /\ userSpeechDetected after = userSpeechDetected session
   /\ interimTranscript after = interimTranscript session
   /\ silenceTimer after = silenceTimer session
   /\ greetingMessage after = greetingMessage session)
  /\ ((ws after = ws session
       /\ audioQueue after = audioQueue session ++ [audioBuffer])
      \/ (audioQueue after = audioQueue session
          /\ ws session `prefix_of` ws after))
  /\ (isAISpeaking after = true -> isAISpeaking session = true).
Proof. exact (sendAudioToTwilio_kept session audioBuffer). Qed.

(** X5.  Whatever a delivery writes is appended to what the socket
    already carried, bears the session's stream id, and is never a clear
    frame. *)
Theorem sendAudioToTwilio_frames (session : Session) (audioBuffer : Buffer) :
  exists new : list Frame,
    ws (sendAudioToTwilio session audioBuffer) = ws session ++ new
    /\ Forall (fun f => frame_streamSid f = streamSid session
                        /\ isClear f = false) new.
Proof.
  destruct (sendAudioToTwilio_cases session audioBuffer)
    as [-> | [-> | [-> | ->]]].
  - exists []. cbn. rewrite app_nil_r. split; [reflexivity | constructor].
  - eexists. split; [reflexivity | apply delivery_streamSid].
  - exists []. cbn. rewrite app_nil_r. split; [reflexivity | constructor].
  - eexists. split; [reflexivity | repeat constructor].
Qed.

(** ** Invariants of the conversation *)

(** Close a goal [extends s s'] where [s'] is [s] with other fields
    assigned, or with something appended to a log. *)
Ltac same_fixed_part :=
  unfold extends; repeat split; try reflexivity;
  try (exists []; cbn; rewrite app_nil_r; reflexivity);
  try (eexists; cbn; rewrite <- ?app_assoc; reflexivity).

Lemma extends_refl (s : Session) : extends s s.
Proof. same_fixed_part. Qed.

Lemma extends_trans (s1 s2 s3 : Session) :
  extends s1 s2 -> extends s2 s3 -> extends s1 s3.
Proof.
  unfold extends.
  intros (A1 & A2 & A3 & A4 & A5 & A6 & A7 & A8 & A9 & A10)
         (B1 & B2 & B3 & B4 & B5 & B6 & B7 & B8 & B9 & B10).
  repeat split; try congruence; etrans; eassumption.
Qed.

Lemma sendAudioToTwilio_extends (session : Session) (audioBuffer : Buffer) :
  extends session (sendAudioToTwilio session audioBuffer).
Proof.
  destruct (sendAudioToTwilio_kept session audioBuffer)
    as [(K1 & K2 & K3 & K4 & K5 & K6 & K7 & _ & _ & _ & _ & K12) [Hq _]].
  unfold extends. repeat split; try assumption.
  - rewrite K2. reflexivity.
  - destruct Hq as [[-> _] | [_ H]]; [reflexivity | exact H].
  - destruct Hq as [[_ ->] | [-> _]];
      [eexists; reflexivity | reflexivity].
Qed.

Lemma speak_resume_extends (session : Session) (ttsAudio : option Buffer) :
  extends session (speak_resume session ttsAudio).
Proof.
  unfold speak_resume. destruct ttsAudio as [audio|]; [|same_fixed_part].
  cbv zeta. destruct (userSpeechDetected _); [same_fixed_part|].
  eapply extends_trans; [|apply sendAudioToTwilio_extends].
  same_fixed_part.
Qed.

Lemma handleInterruption_extends (session : Session) :
  extends session (handleInterruption session).
Proof. same_fixed_part. Qed.

(** What one recognizer event does to the history and to the services,
    and what it leaves in place. *)
Lemma on_Transcript_effects (sv : Services) (session : Session) (ev : Heard) :
  let after :=
    on_Transcript sv session
      (heard_data ev) (heard_response ev) (heard_ttsAudio ev) in
  context (snd after)
    = context session ++ (if answered ev then exchange ev else [])
  /\ synthesizeTTS_calls (fst after)
     = synthesizeTTS_calls sv
         ++ (if answered ev
             then [(reply_of (heard_response ev), agentVoiceId session)]
             else [])
  /\ List.length (generateContent_requests (fst after))
     = List.length (generateContent_requests sv)
       + (if answered ev then 1 else 0)
  /\ interimTranscript (snd after)
     = (if interim_with_text ev
        then default (interimTranscript session) (transcript (heard_data ev))
        else interimTranscript session)
  /\ extends session (snd after).
Proof.
  destruct ev as [[tr fin] response ttsAudio].
  unfold answered, interim_with_text, exchange, on_Transcript.
  cbn [heard_data heard_response heard_ttsAudio transcript is_final].
  destruct tr as [t|].
  2:{ cbn. rewrite !app_nil_r, Nat.add_0_r.
      split; [|split; [|split; [|split]]]; try reflexivity.
      apply extends_refl. }
  destruct (JS.blank t).
  { cbn. rewrite !app_nil_r, Nat.add_0_r.
    split; [|split; [|split; [|split]]]; try reflexivity.
    apply extends_refl. }
  destruct fin; cbn [negb andb].
  - unfold handleUserMessage, callLLM, speakWithInterruption, speak_begin.
    set (s0 := match silenceTimer session with
               | Some _ => set_silenceTimer None session
               | None => session
               end).
    assert (E0 : extends session s0 /\ context s0 = context session
                 /\ agentVoiceId s0 = agentVoiceId session
                 /\ interimTranscript s0 = interimTranscript session).
    { unfold s0. destruct (silenceTimer session);
        (split; [same_fixed_part | repeat split]). }
    destruct E0 as (E0 & C0 & V0 & I0).
    assert (W : forall reply,
      let s2 := set_userSpeechDetected false
                  (set_isAISpeaking true
                     (appendToContext (appendToContext s0 t user) reply model)) in
      context (speak_resume s2 ttsAudio)
        = context session
            ++ [mkTurn user [mkPart t]; mkTurn model [mkPart reply]]
      /\ interimTranscript (speak_resume s2 ttsAudio)
         = interimTranscript session
      /\ extends session (speak_resume s2 ttsAudio)).
    { intros reply s2. split; [|split].
      - rewrite speak_resume_context. subst s2. cbn. rewrite C0.
        rewrite <- app_assoc. reflexivity.
      - unfold speak_resume. destruct ttsAudio as [audio|]; [|exact I0].
        cbv zeta. destruct (userSpeechDetected _); [exact I0|].
        match goal with
        | |- interimTranscript (sendAudioToTwilio ?x ?a) = _ =>
            destruct (sendAudioToTwilio_kept x a)
              as [(_ & _ & _ & _ & _ & _ & _ & _ & _ & K & _) _];
            rewrite K
        end.
        exact I0.
      - eapply extends_trans; [|apply speak_resume_extends].
        eapply extends_trans; [exact E0|].
        subst s2. same_fixed_part. }
    destruct response as [response_text|]; cbv beta iota zeta;
      cbn [fst snd reply_of].
    + destruct (W response_text) as (W1 & W2 & W3).
      cbn [synthesizeTTS synthesizeTTS_calls generateContent_requests].
      rewrite length_app. cbn [List.length].
      split; [exact W1 | split; [|split; [reflexivity | split; assumption]]].
      cbn. rewrite V0. reflexivity.
    + destruct (W fallbackReply) as (W1 & W2 & W3).
      cbn [synthesizeTTS synthesizeTTS_calls generateContent_requests].
      rewrite length_app. cbn [List.length].
      split; [exact W1 | split; [|split; [reflexivity | split; assumption]]].
      cbn. rewrite V0. reflexivity.
  - cbv zeta. rewrite !app_nil_r, Nat.add_0_r.
    destruct (isAISpeaking (set_interimTranscript t session)
              && (3 <? String.length t)); cbn [fst snd].
    + split; [|split; [|split; [|split]]]; try reflexivity.
      eapply extends_trans; [|apply handleInterruption_extends].
      same_fixed_part.
    + split; [|split; [|split; [|split]]]; try reflexivity.
      same_fixed_part.
Qed.

Lemma on_Transcripts_cons (sv : Services) (session : Session)
    (ev : Heard) (events : list Heard) :
  on_Transcripts sv session (ev :: events)
    = on_Transcripts
        (fst (on_Transcript sv session
                (heard_data ev) (heard_response ev) (heard_ttsAudio ev)))
        (snd (on_Transcript sv session
                (heard_data ev) (heard_response ev) (heard_ttsAudio ev)))
        events.
Proof.
  unfold on_Transcripts. cbn [fold_left fst snd].
  destruct (on_Transcript _ _ _ _ _); reflexivity.
Qed.

Lemma on_Transcripts_effects (events : list Heard)
    (sv : Services) (session : Session) :
  let after := on_Transcripts sv session events in
  context (snd after)
    = context session ++ flat_map exchange (List.filter answered events)
  /\ synthesizeTTS_calls (fst after)
     = synthesizeTTS_calls sv
         ++ map (fun ev => (reply_of (heard_response ev), agentVoiceId session))
              (List.filter answered events)
  /\ List.length (generateContent_requests (fst after))
     = List.length (generateContent_requests sv)
       + List.length (List.filter answered events)
  /\ interimTranscript (snd after)
     = last_interim events (interimTranscript session)
  /\ extends session (snd after).
Proof.
  revert sv session. induction events as [|ev events IH]; intros sv session.
  - cbn. rewrite !app_nil_r, Nat.add_0_r.
    split; [|split; [|split; [|split]]]; try reflexivity.
    apply extends_refl.
  - cbv zeta. rewrite on_Transcripts_cons.
    destruct (on_Transcript_effects sv session ev) as (S1 & S2 & S3 & S4 & S5).
    cbv zeta in S1, S2, S3, S4.
    set (sv1 := fst (on_Transcript sv session _ _ _)) in *.
    set (s1 := snd (on_Transcript sv session _ _ _)) in *.
    destruct (IH sv1 s1) as (I1 & I2 & I3 & I4 & I5).
    cbv zeta in I1, I2, I3, I4.
    assert (V : agentVoiceId s1 = agentVoiceId session)
      by (destruct S5 as (_ & _ & V & _); exact V).
    rewrite I1, I2, I3, I4, S1, S2, S3, S4, V.
    unfold last_interim. cbn [List.filter fold_left].
    destruct (answered ev); destruct (interim_with_text ev);
      cbn [flat_map map List.length app];
      rewrite <- ?app_assoc, ?app_nil_r, ?Nat.add_0_r;
      (split; [|split; [|split; [|split]]]);
      try reflexivity; try lia;
      try (eapply extends_trans; eassumption).
Qed.

(** X6.  Over any run of recognizer events, interim or final, with or
    without text, the history grows by exactly the exchanges of the
    events that are final and have text, in the order of the events;
    nothing already in the history is changed or removed. *)
Theorem history_over_any_events
    (events : list Heard) (sv : Services) (session : Session) :
  context (snd (on_Transcripts sv session events))
    = context session ++ flat_map exchange (List.filter answered events).
Proof. apply (on_Transcripts_effects events sv session). Qed.

(** X8.  No run of recognizer events changes the session's call id,
    prompt, voice, stream id, ready flag, recognizer stream or greeting;
    and what the socket carried and what the pending queue held is still
    there, in place, afterwards: nothing ever leaves the queue. *)
Theorem recognizer_events_keep_the_fixed_part
    (events : list Heard) (sv : Services) (session : Session) :
  extends session (snd (on_Transcripts sv session events)).
Proof. apply (on_Transcripts_effects events sv session). Qed.

(** X9.  The session's interim transcript is the text of the last interim
    result with text; a final transcript never resets it. *)
Theorem interimTranscript_is_the_last_interim
    (events : list Heard) (sv : Services) (session : Session) :
  interimTranscript (snd (on_Transcripts sv session events))
    = last_interim events (interimTranscript session)
  /\ (forall t response ttsAudio,
        interimTranscript
          (snd (on_Transcript sv session (mkTranscriptData t true)
                  response ttsAudio))
        = interimTranscript session).
Proof.
  split.
  - apply (on_Transcripts_effects events sv session).
  - intros t response ttsAudio.
    destruct (on_Transcript_effects sv session
                (mkHeard (mkTranscriptData t true) response ttsAudio))
      as (_ & _ & _ & H & _).
    cbv zeta in H. cbn [heard_data heard_response heard_ttsAudio] in H.
    rewrite H. unfold interim_with_text. cbn.
    destruct t as [t|]; [|reflexivity].
    rewrite andb_false_r. reflexivity.
Qed.

(** ** Speaking, acknowledgement and barge-in *)

Lemma set_interimTranscript_twice (x y : string) (s : Session) :
  set_interimTranscript x (set_interimTranscript y s)
    = set_interimTranscript x s.
Proof. reflexivity. Qed.

Lemma set_interimTranscript_same (s : Session) :
  set_interimTranscript (interimTranscript s) s = s.
Proof. destruct s; reflexivity. Qed.

(** X12.  While the agent is not speaking, interim results produce
    nothing: over any run of interim events the only change to the
    session is that it remembers the last interim text, and no request
    is made. *)
Theorem interims_are_silent_when_not_speaking
    (events : list Heard) (sv : Services) (session : Session) :
  Forall (fun ev => is_final (heard_data ev) = false) events ->
  isAISpeaking session = false ->
  on_Transcripts sv session events
    = (sv, set_interimTranscript
             (last_interim events (interimTranscript session)) session).
Proof.
  intros Hall Hsp. revert session Hsp.
  induction Hall as [|ev events Hev Hall IH]; intros session Hsp.
  - cbn. rewrite set_interimTranscript_same. reflexivity.
  - rewrite on_Transcripts_cons.
    assert (E : on_Transcript sv session (heard_data ev) (heard_response ev)
                  (heard_ttsAudio ev)
                = (sv, if interim_with_text ev
                       then set_interimTranscript
                              (default (interimTranscript session)
                                 (transcript (heard_data ev))) session
                       else session)).
    { unfold on_Transcript, interim_with_text. rewrite Hev.
      destruct (transcript (heard_data ev)) as [t|]; [|reflexivity].
      destruct (JS.blank t); [reflexivity|]. cbn [negb andb default].
      cbv zeta.
      change (isAISpeaking (set_interimTranscript t session))
        with (isAISpeaking session).
      rewrite Hsp. reflexivity. }
    rewrite E. cbn [fst snd]. unfold last_interim. cbn [fold_left].
    destruct (interim_with_text ev).
    + rewrite IH by exact Hsp. cbn [interimTranscript set_interimTranscript].
      reflexivity.
    + apply IH, Hsp.
Qed.

Lemma interims_are_silent_when_not_speaking_witness :
  on_Transcripts noRequests readySession
    [mkHeard (mkTranscriptData (Some "what is"%string) false) rejected None;
     mkHeard (mkTranscriptData (Some "what is the"%string) false) rejected None]
  = (noRequests, set_interimTranscript "what is the" readySession).
Proof.
  apply (interims_are_silent_when_not_speaking
           [mkHeard (mkTranscriptData (Some "what is"%string) false) rejected None;
            mkHeard (mkTranscriptData (Some "what is the"%string) false) rejected None]
           noRequests readySession).
  - repeat constructor.
  - reflexivity.
Defined.

(** ** Inbound audio *)

(** X13.  A media event changes nothing when the listener has no session
    yet, when the session has no recognizer stream, when the payload is
    missing or empty, or when it decodes to no bytes: nothing is
    forwarded and the caller-speech flag is not touched. *)
Theorem media_without_audio_changes_nothing
    (Buffer_from_base64 : string -> Buffer)
    (session : Session) (payload : option string) :
  on_media Buffer_from_base64 None payload = None
  /\ (sttStream session = None
      \/ JS.truthy payload = false
      \/ (exists p, payload = Some p /\ Buffer_from_base64 p = []) ->
      on_media Buffer_from_base64 (Some session) payload = Some session).
Proof.
  split; [reflexivity|].
  intros [H | [H | (p & -> & H)]]; unfold on_media.
  - rewrite H. reflexivity.
  - destruct (sttStream session); [|reflexivity].
    destruct payload; [|reflexivity]. rewrite H. reflexivity.
  - destruct (sttStream session); [|reflexivity].
    rewrite H. destruct (JS.truthy (Some p)); reflexivity.
Qed.

Lemma media_without_audio_changes_nothing_witness :
  on_media bytes_of_text (Some listeningSession) (Some ""%string)
    = Some listeningSession
  /\ on_media bytes_of_text (Some readySession) (Some "fw=="%string)
     = Some readySession.
Proof.
  split.
  - apply (proj2 (media_without_audio_changes_nothing bytes_of_text
                    listeningSession (Some ""%string))).
    right. left. reflexivity.
  - apply (proj2 (media_without_audio_changes_nothing bytes_of_text
                    readySession (Some "fw=="%string))).
    left. reflexivity.
Defined.

Lemma on_media_step (Buffer_from_base64 : string -> Buffer)
    (session : Session) (stream : SttStream) (payload : option string) :
  sttStream session = Some stream ->
  on_media Buffer_from_base64 (Some session) payload
    = Some (match forwarded Buffer_from_base64 [payload] with
            | [] => session
            | audio :: _ =>
                set_userSpeechDetected true
                  (set_sttStream (Some (stt_send audio stream)) session)
            end).
Proof.
  intros Hst. unfold on_media, forwarded. rewrite Hst.
  destruct payload as [p|]; [|reflexivity].
  cbn [omap option_bind list_omap]. destruct (JS.truthy (Some p)) eqn:Ht.
  - cbn [map List.filter].
    destruct (0 <? List.length (Buffer_from_base64 p)); reflexivity.
  - reflexivity.
Qed.

Lemma forwarded_cons (Buffer_from_base64 : string -> Buffer)
    (payload : option string) (payloads : list (option string)) :
  forwarded Buffer_from_base64 (payload :: payloads)
    = forwarded Buffer_from_base64 [payload]
        ++ forwarded Buffer_from_base64 payloads.
Proof.
  unfold forwarded. cbn [omap list_omap].
  destruct payload as [p|]; [|reflexivity].
  destruct (JS.truthy (Some p)); [|reflexivity].
  cbn [map List.filter].
  destruct (0 <? List.length (Buffer_from_base64 p)); reflexivity.
Qed.

(** X14.  Over any run of media events on a session with a recognizer
    stream, the recognizer is sent exactly the payloads that decode to at
    least one byte, decoded, in arrival order and after what it was sent
    before; the caller-speech flag is up afterwards if any was sent; and
    the socket, the history and the pending queue are as they were. *)
Theorem media_events_forward_in_order
    (Buffer_from_base64 : string -> Buffer)
    (payloads : list (option string))
    (session : Session) (stream : SttStream) :
  sttStream session = Some stream ->
  exists after,
    on_medias Buffer_from_base64 (Some session) payloads = Some after
    /\ sttStream after
       = Some (mkSttStream
                 (stt_sent stream ++ forwarded Buffer_from_base64 payloads))
    /\ userSpeechDetected after
       = (userSpeechDetected session
          || (0 <? List.length (forwarded Buffer_from_base64 payloads)))
    /\ ws after = ws session
    /\ context after = context session
    /\ audioQueue after = audioQueue session
    /\ isAISpeaking after = isAISpeaking session.
Proof.
  unfold on_medias. revert session stream.
  induction payloads as [|payload payloads IH]; intros session stream Hst.
  - exists session. cbn. rewrite app_nil_r, orb_false_r.
    destruct stream. repeat split. exact Hst.
  - cbn [fold_left].
    rewrite (on_media_step _ _ _ _ Hst).
    rewrite (forwarded_cons _ payload payloads).
    destruct (forwarded Buffer_from_base64 [payload]) as [|audio rest] eqn:E.
    + cbn [app]. apply IH, Hst.
    + assert (rest = []) as ->.
      { unfold forwarded in E. destruct payload as [p|]; [|discriminate].
        cbn [omap list_omap] in E. destruct (JS.truthy (Some p));
          [|discriminate].
        cbn [map List.filter] in E.
        destruct (0 <? List.length (Buffer_from_base64 p));
          [injection E as _ E'; symmetry; exact E' | discriminate]. }
      destruct (IH (set_userSpeechDetected true
                      (set_sttStream (Some (stt_send audio stream)) session))
                  (stt_send audio stream) eq_refl)
        as (after & R & St & Fl & W & C & Q & Sp).
      exists after. split; [exact R|]. split.
      * rewrite St. cbn. rewrite <- app_assoc. reflexivity.
      * rewrite Fl. cbn. rewrite orb_true_r.
        repeat split; assumption.
Qed.

Lemma media_events_forward_in_order_witness :
  exists after,
    on_medias bytes_of_text (Some listeningSession)
      [Some "ab"%string; None; Some ""%string; Some "c"%string]
    = Some after
    /\ sttStream after
       = Some (mkSttStream
                 (stt_sent (mkSttStream [])
                  ++ forwarded bytes_of_text
                       [Some "ab"%string; None; Some ""%string; Some "c"%string]))
    /\ userSpeechDetected after
       = (userSpeechDetected listeningSession
          || (0 <? List.length
                     (forwarded bytes_of_text
                        [Some "ab"%string; None; Some ""%string;
                         Some "c"%string])))
    /\ ws after = ws listeningSession
    /\ context after = context listeningSession
    /\ audioQueue after = audioQueue listeningSession
    /\ isAISpeaking after = isAISpeaking listeningSession.
Proof.
  exact (media_events_forward_in_order bytes_of_text
           [Some "ab"%string; None; Some ""%string; Some "c"%string]
           listeningSession (mkSttStream []) eq_refl).
Defined.

Example forwarded_example :
  forwarded bytes_of_text
    [Some "ab"%string; None; Some ""%string; Some "c"%string]
  = [bytes_of_text "ab"; bytes_of_text "c"].
Proof. reflexivity. Qed.

(** ** Creating and ending sessions *)

Lemma or_default_truthy (v : option string) (d : string) :
  JS.truthy (Some d) = true ->
  JS.truthy (Some (if JS.truthy v then default d v else d)) = true.
Proof.
  intros Hd. destruct v as [s|]; [|exact Hd].
  cbn [JS.truthy]. destruct (String.eqb s "") eqn:E; cbn [negb default].
  - exact Hd.
  - cbn. rewrite E. reflexivity.
Qed.

(** X15.  [createSession] registers the session it returns under its call
    id and leaves every other call's entry alone; the new session is not
    ready, has no stream id, no recognizer stream, an empty history and
    an empty queue, and always a non-empty voice id: the one given, or
    the default when none or an empty one is given. *)
Theorem createSession_registers_a_fresh_session
    (callId agentPrompt : string) (voiceId : option string)
    (ws : list Frame) (reg : Registry) :
  let created := createSession callId agentPrompt voiceId ws reg in
  sessions (snd created) !! callId = Some (fst created)
  /\ (forall other, other <> callId ->
        sessions (snd created) !! other = sessions reg !! other)
  /\ (isReady (fst created) = false
      /\ streamSid (fst created) = None
      /\ sttStream (fst created) = None
      /\ context (fst created) = []
      /\ audioQueue (fst created) = []
      /\ isAISpeaking (fst created) = false
      /\ userSpeechDetected (fst created) = false)
  /\ JS.truthy (Some (agentVoiceId (fst created))) = true
  /\ (JS.truthy voiceId = true -> Some (agentVoiceId (fst created)) = voiceId)
  /\ (JS.truthy voiceId = false -> agentVoiceId (fst created) = defaultVoiceId).
Proof.
  intros created. subst created. cbn [createSession fst snd sessions].
  split; [apply lookup_insert_eq|].
  split; [intros other Hne; apply lookup_insert_ne; congruence|].
  split; [repeat split|].
  cbn [newSession agentVoiceId].
  split; [apply or_default_truthy; reflexivity|].
  split; intros H; rewrite H; [|reflexivity].
  destruct voiceId; [reflexivity | discriminate].
Qed.

Lemma createSession_registers_a_fresh_session_witness :
  let created :=
    createSession "CA1" "prompt" (Some ""%string) [] emptyRegistry in
  sessions (snd created) !! "CA1"%string = Some (fst created)
  /\ agentVoiceId (fst created) = defaultVoiceId.
Proof.
  destruct (createSession_registers_a_fresh_session
              "CA1" "prompt" (Some ""%string) [] emptyRegistry)
    as (L & _ & _ & _ & _ & D).
  split; [exact L | apply D; reflexivity].
Defined.

(** X16.  Ending a call right after creating its session undoes the
    registration: the map is the one before, without that call id, so it
    is the map before when the call id was new; and since a fresh session
    has no recognizer stream and no timer, nothing is finished or
    cancelled on the way. *)
Theorem createSession_then_endSession
    (callId agentPrompt : string) (voiceId : option string)
    (ws : list Frame) (reg : Registry) :
  let ended :=
    endSession callId (snd (createSession callId agentPrompt voiceId ws reg)) in
  sessions ended = delete callId (sessions reg)
  /\ (sessions reg !! callId = None -> sessions ended = sessions reg)
  /\ exists lines, trace ended = trace reg ++ map console_log lines.
Proof.
  intros ended. subst ended. unfold endSession.
  cbn [createSession snd sessions]. rewrite lookup_insert_eq.
  cbn [sessions trace newSession sttStream silenceTimer].
  split; [apply delete_insert_eq|].
  split.
  - intros H. rewrite delete_insert_eq. apply delete_id, H.
  - eexists [_; _; _; _]. rewrite <- app_assoc. reflexivity.
Qed.

Lemma createSession_then_endSession_witness :
  sessions
    (endSession "CA1"
       (snd (createSession "CA1" "prompt" None [] emptyRegistry)))
  = sessions emptyRegistry.
Proof.
  apply (createSession_then_endSession "CA1" "prompt" None [] emptyRegistry).
  reflexivity.
Defined.

(** X17.  The registry holds at most one session for a call id: creating
    a session under an id already registered replaces the entry, so the
    number of sessions stays the same, and the session replaced is not
    ended (only log lines are added to the trace); under a new id the
    number grows by one. *)
Theorem createSession_one_per_callId
    (callId agentPrompt : string) (voiceId : option string)
    (ws : list Frame) (reg : Registry) :
  let after := snd (createSession callId agentPrompt voiceId ws reg) in
  size (sessions after)
    = match sessions reg !! callId with
      | Some _ => size (sessions reg)
      | None => S (size (sessions reg))
      end
  /\ exists lines, trace after = trace reg ++ map console_log lines.
Proof.
  intros after. subst after. cbn [createSession snd sessions trace]. split.
  - destruct (sessions reg !! callId) as [old|] eqn:E.
    + eapply map_size_insert_Some; eauto.
    + apply map_size_insert_None, E.
  - eexists [_; _; _]. reflexivity.
Qed.

Lemma endSession_sessions (callId : string) (reg : Registry) :
  sessions (endSession callId reg) = delete callId (sessions reg).
Proof.
  unfold endSession. destruct (sessions reg !! callId) eqn:E; [reflexivity|].
  symmetry. apply delete_id, E.
Qed.

(** X18.  Ending one call removes that call's session and no other: every
    other call id maps to what it mapped to before, and two different
    calls can be ended in either order with the same registry map. *)
Theorem endSession_touches_one_call (c1 c2 : string) (reg : Registry) :
  sessions (endSession c1 reg) !! c1 = None
  /\ (forall other, other <> c1 ->
        sessions (endSession c1 reg) !! other = sessions reg !! other)
  /\ sessions (endSession c1 (endSession c2 reg))
     = sessions (endSession c2 (endSession c1 reg)).
Proof.
  split; [apply endSession_removes|].
  split; [intros other Hne; apply endSession_others; congruence|].
  rewrite !endSession_sessions. apply delete_delete.
Qed.

(** ** The earlier revisions *)

Lemma QueuedStart_sendAudioToTwilio_view
    (session : Session) (audioBuffer : Buffer) :
  let after := QueuedStart.sendAudioToTwilio session audioBuffer in
  let waits :=
    negb (isReady session) || negb (JS.truthy (streamSid session)) in
  ws after
    = (if waits then ws session
       else ws session ++ delivery (streamSid session) audioBuffer)
  /\ audioQueue after
     = (if waits then audioQueue session ++ [audioBuffer]
        else audioQueue session)
  /\ context after = context session
  /\ isReady after = isReady session
  /\ streamSid after = streamSid session
  /\ isAISpeaking after = isAISpeaking session.
Proof.
  cbv zeta.
  destruct (isReady session) eqn:Hr;
    [|rewrite QueuedStart_sendAudioToTwilio_queues by auto;
      repeat split; cbn; auto].
  destruct (JS.truthy (streamSid session)) eqn:Hs;
    [|rewrite QueuedStart_sendAudioToTwilio_queues by auto;
      repeat split; cbn; auto].
  rewrite QueuedStart_sendAudioToTwilio_ready by assumption.
  repeat split; cbn; auto.
Qed.

(** X19.  The earlier revision has no barge-in: on a ready session a clip
    is delivered in full, mark included, also when caller speech is
    flagged, and the speaking flag is not touched. *)
Theorem earlier_delivery_ignores_caller_speech
    (session : Session) (audioBuffer : Buffer) :
  isReady session = true ->
  JS.truthy (streamSid session) = true ->
  ws (QueuedStart.sendAudioToTwilio session audioBuffer)
    = ws session ++ delivery (streamSid session) audioBuffer
  /\ isAISpeaking (QueuedStart.sendAudioToTwilio session audioBuffer)
     = isAISpeaking session
  /\ userSpeechDetected (QueuedStart.sendAudioToTwilio session audioBuffer)
     = userSpeechDetected session.
Proof.
  intros Hr Hs. rewrite QueuedStart_sendAudioToTwilio_ready by assumption.
  repeat split.
Qed.

Lemma earlier_delivery_ignores_caller_speech_witness :
  ws (QueuedStart.sendAudioToTwilio interruptedSession someClip)
    = ws interruptedSession
        ++ delivery (streamSid interruptedSession) someClip
  /\ isAISpeaking (QueuedStart.sendAudioToTwilio interruptedSession someClip)
     = isAISpeaking interruptedSession
  /\ userSpeechDetected
       (QueuedStart.sendAudioToTwilio interruptedSession someClip)
     = userSpeechDetected interruptedSession.
Proof.
  exact (earlier_delivery_ignores_caller_speech interruptedSession someClip
           eq_refl eq_refl).
Defined.

Lemma drain_keeps_readiness (fuel i : nat) (session after : Session) :
  QueuedStart.drain fuel i session = Some after ->
  isReady after = isReady session /\ streamSid after = streamSid session.
Proof.
  revert i session. induction fuel as [|fuel IH]; intros i session H;
    [discriminate|].
  cbn [QueuedStart.drain] in H.
  destruct (audioQueue session !! i) as [audioBuffer|].
  - apply IH in H as [H1 H2].
    destruct (QueuedStart_sendAudioToTwilio_view session audioBuffer)
      as (_ & _ & _ & K1 & K2 & _).
    cbv zeta in K1, K2. rewrite H1, H2, K1, K2. split; reflexivity.
  - injection H as <-. split; reflexivity.
Qed.

(** X20.  Whenever the start handler of the earlier revision completes,
    the pending queue is empty, the ready flag is set and the stream id
    is the one the start signal carried, whatever was queued before and
    whatever that stream id is. *)
Theorem start_leaves_no_pending_clip
    (fuel : nat) (session after : Session) (sid : option string) :
  QueuedStart.on_start fuel session sid = Some after ->
  audioQueue after = [] /\ isReady after = true /\ streamSid after = sid.
Proof.
  unfold QueuedStart.on_start. cbv zeta.
  destruct (0 <? List.length
              (audioQueue (set_isReady true (set_streamSid sid session))))
    eqn:E.
  - destruct (QueuedStart.drain fuel 0 _) as [drained|] eqn:D; [|discriminate].
    intros H. injection H as <-.
    apply drain_keeps_readiness in D as [D1 D2].
    cbn [audioQueue isReady streamSid set_audioQueue].
    rewrite D1, D2. repeat split.
  - intros H. injection H as <-.
    apply Nat.ltb_ge in E.
    cbn [audioQueue isReady streamSid set_isReady set_streamSid] in *.
    destruct (audioQueue session); [repeat split | cbn in E; lia].
Qed.

Lemma start_leaves_no_pending_clip_witness :
  exists after,
    QueuedStart.on_start 2 waitingSession (Some "MZ1"%string) = Some after
    /\ audioQueue after = []
    /\ isReady after = true
    /\ streamSid after = Some "MZ1"%string.
Proof.
  eexists. split; [vm_compute; reflexivity|].
  apply (start_leaves_no_pending_clip 2 waitingSession _ (Some "MZ1"%string)).
  vm_compute. reflexivity.
Defined.

(** ** The synthesis request *)

Lemma getElevenLabsApiKey_truthy (env : gmap string string) :
  JS.truthy (Synthesis.getElevenLabsApiKey env)
    = JS.truthy (env !! "ELEVEN_LABS_API_KEY"%string)
      || JS.truthy (env !! "ELEVENLABS_API_KEY"%string).
Proof.
  unfold Synthesis.getElevenLabsApiKey.
  destruct (JS.truthy (env !! "ELEVEN_LABS_API_KEY"%string)) eqn:E;
    [exact E | reflexivity].
Qed.

Lemma keyless_synthesis
    (env : gmap string string) (text voiceId : string)
    (net : Synthesis.Fetched) :
  JS.truthy (env !! "ELEVEN_LABS_API_KEY"%string) = false ->
  JS.truthy (env !! "ELEVENLABS_API_KEY"%string) = false ->
  Synthesis.synthesizeTTS env text voiceId net = ([], None).
Proof.
  intros H1 H2. unfold Synthesis.synthesizeTTS.
  rewrite getElevenLabsApiKey_truthy, H1, H2. reflexivity.
Qed.

(** X22.  Without a key, that is with both environment variables unset
    or empty, [synthesizeTTS] makes no request at all and returns no
    audio, whatever the network would have answered. *)
Theorem synthesis_without_key_makes_no_request
    (env : gmap string string) (text voiceId : string)
    (net : Synthesis.Fetched) :
  JS.truthy (env !! "ELEVEN_LABS_API_KEY"%string) = false ->
  JS.truthy (env !! "ELEVENLABS_API_KEY"%string) = false ->
  Synthesis.synthesizeTTS env text voiceId net = ([], None).
Proof. apply keyless_synthesis. Qed.

Lemma synthesis_without_key_makes_no_request_witness :
  Synthesis.synthesizeTTS {[ "ELEVEN_LABS_API_KEY"%string := ""%string ]}
    "Hello" "voice-1"
    (Synthesis.fetch_response true 200 rejected (fulfilled someClip))
  = ([], None).
Proof.
  apply (synthesis_without_key_makes_no_request
           {[ "ELEVEN_LABS_API_KEY"%string := ""%string ]});
    vm_compute; reflexivity.
Defined.

(** X23.  With a key, [synthesizeTTS] makes exactly one request whatever
    comes of it: a POST to the voice's URL, with the text in the body and
    the key in the [xi-api-key] header; the key is
    [ELEVEN_LABS_API_KEY] when that is set and not empty, and
    [ELEVENLABS_API_KEY] otherwise. *)
Theorem synthesis_with_key_makes_one_request
    (env : gmap string string) (text voiceId : string)
    (net : Synthesis.Fetched) :
  JS.truthy (Synthesis.getElevenLabsApiKey env) = true ->
  exists key request,
    fst (Synthesis.synthesizeTTS env text voiceId net) = [request]
    /\ Some key
       = (if JS.truthy (env !! "ELEVEN_LABS_API_KEY"%string)
          then env !! "ELEVEN_LABS_API_KEY"%string
          else env !! "ELEVENLABS_API_KEY"%string)
    /\ key <> EmptyString
    /\ Synthesis.url request
       = ("https://api.elevenlabs.io/v1/text-to-speech/" +:+ voiceId)%string
    /\ Synthesis.method request = "POST"%string
    /\ In ("xi-api-key"%string, key) (Synthesis.headers request)
    /\ Synthesis.body_text (Synthesis.body request) = text
    /\ Synthesis.output_format (Synthesis.body request) = "ulaw_8000"%string.
Proof.
  intros Hk. unfold Synthesis.synthesizeTTS. rewrite Hk. cbn [negb].
  destruct (Synthesis.getElevenLabsApiKey env) as [key|] eqn:E;
    [|discriminate].
  exists key. eexists. split.
  - destruct net as [|ok st tx [audio|]]; [reflexivity | | ];
      destruct ok; reflexivity.
  - split; [symmetry; exact E|]. split.
    + intros ->. discriminate.
    + cbn. repeat split. right. right. left. reflexivity.
Qed.

Lemma synthesis_with_key_makes_one_request_witness :
  exists key request,
    fst (Synthesis.synthesizeTTS keyedEnv "Hello" "voice-1"
           Synthesis.fetch_failed) = [request]
    /\ Some key
       = (if JS.truthy (keyedEnv !! "ELEVEN_LABS_API_KEY"%string)
          then keyedEnv !! "ELEVEN_LABS_API_KEY"%string
          else keyedEnv !! "ELEVENLABS_API_KEY"%string)
    /\ key <> EmptyString
    /\ Synthesis.url request
       = ("https://api.elevenlabs.io/v1/text-to-speech/" +:+ "voice-1")%string
    /\ Synthesis.method request = "POST"%string
    /\ In ("xi-api-key"%string, key) (Synthesis.headers request)
    /\ Synthesis.body_text (Synthesis.body request) = "Hello"%string
    /\ Synthesis.output_format (Synthesis.body request) = "ulaw_8000"%string.
Proof.
  apply (synthesis_with_key_makes_one_request keyedEnv "Hello" "voice-1"
           Synthesis.fetch_failed).
  vm_compute. reflexivity.
Defined.

(** X24.  [synthesizeTTS] returns audio in exactly one case: a key is
    configured, the response is [ok], and its body is read; then it
    returns that body.  A failed fetch, an error status, a body that
    cannot be read, or a missing key all give [null], never an error. *)
Theorem synthesis_returns_audio_iff
    (env : gmap string string) (text voiceId : string)
    (net : Synthesis.Fetched) (audio : Buffer) :
  snd (Synthesis.synthesizeTTS env text voiceId net) = Some audio
  <-> JS.truthy (Synthesis.getElevenLabsApiKey env) = true
      /\ exists status errorText,
           net = Synthesis.fetch_response true status errorText
                   (fulfilled audio).
Proof.
  unfold Synthesis.synthesizeTTS.
  destruct (JS.truthy (Synthesis.getElevenLabsApiKey env)); cbn [negb].
  - destruct net as [|ok st tx [a|]]; cbn [snd].
    + split; [discriminate | intros (_ & ? & ? & ?); discriminate].
    + destruct ok; cbn [negb snd].
      * split.
        -- intros H. injection H as ->. split; [reflexivity|]. eauto.
        -- intros (_ & ? & ? & H). injection H as _ _ ->. reflexivity.
      * split; [discriminate | intros (_ & ? & ? & ?); discriminate].
    + destruct ok; cbn [negb snd];
        (split; [discriminate | intros (_ & ? & ? & ?); discriminate]).
  - cbn [snd]. split; [discriminate | intros (? & _); discriminate].
Qed.

Lemma synthesis_returns_audio_iff_witness :
  snd (Synthesis.synthesizeTTS keyedEnv "Hello" "voice-1"
         (Synthesis.fetch_response true 200 rejected (fulfilled someClip)))
  = Some someClip.
Proof.
  apply (synthesis_returns_audio_iff keyedEnv "Hello" "voice-1").
  split; [vm_compute; reflexivity | eauto].
Defined.

(** X25.  With no key configured a final transcript still gets its
    answer into the history, and the synthesis is still called, but the
    caller hears nothing: no frame is put on the socket and the agent is
    not left speaking. *)
Theorem no_key_no_voice
    (env : gmap string string) (net : Synthesis.Fetched)
    (sv : Services) (session : Session) (t : string)
    (response : Settled string) :
  JS.truthy (env !! "ELEVEN_LABS_API_KEY"%string) = false ->
  JS.truthy (env !! "ELEVENLABS_API_KEY"%string) = false ->
  JS.blank t = false ->
  let ttsAudio :=
    snd (Synthesis.synthesizeTTS env (reply_of response)
           (agentVoiceId session) net) in
  let after :=
    on_Transcript sv session (mkTranscriptData (Some t) true)
      response ttsAudio in
  ws (snd after) = ws session
  /\ isAISpeaking (snd after) = false
  /\ context (snd after)
     = context session
         ++ [mkTurn user [mkPart t]; mkTurn model [mkPart (reply_of response)]]
  /\ synthesizeTTS_calls (fst after)
     = synthesizeTTS_calls sv ++ [(reply_of response, agentVoiceId session)].
Proof.
  intros H1 H2 Ht ttsAudio after. subst after ttsAudio.
  rewrite (keyless_synthesis env _ _ net H1 H2).
  cbn [snd].
  destruct (final_transcript_without_audio sv session t response Ht) as [W S].
  split; [exact W | split; [exact S | split]].
  - apply on_Transcript_final_context, Ht.
  - rewrite on_Transcript_final by exact Ht.
    destruct response; destruct (silenceTimer session); reflexivity.
Qed.

Lemma no_key_no_voice_witness :
  let ttsAudio :=
    snd (Synthesis.synthesizeTTS ∅ (reply_of rejected)
           (agentVoiceId readySession) Synthesis.fetch_failed) in
  let after :=
    on_Transcript noRequests readySession
      (mkTranscriptData (Some "Hi"%string) true) rejected ttsAudio in
  ws (snd after) = ws readySession
  /\ isAISpeaking (snd after) = false
  /\ context (snd after)
     = context readySession
         ++ [mkTurn user [mkPart "Hi"]; mkTurn model [mkPart (reply_of rejected)]]
  /\ synthesizeTTS_calls (fst after)
     = synthesizeTTS_calls noRequests
         ++ [(reply_of rejected, agentVoiceId readySession)].
Proof.
  exact (no_key_no_voice ∅ Synthesis.fetch_failed noRequests readySession
           "Hi" rejected eq_refl eq_refl eq_refl).
Defined.

(** ** From the start signal to the stop signal *)

Lemma or_else_truthy (a : option string) (b : string) :
  JS.truthy (Some b) = true -> JS.truthy (Some (or_else a b)) = true.
Proof. apply or_default_truthy. Qed.

Lemma agentConfig_truthy (agentId : option string) (lookup : AgentLookup) :
  JS.truthy (Some (fst (fst (agentConfig agentId lookup)))) = true
  /\ JS.truthy (Some (snd (fst (agentConfig agentId lookup)))) = true
  /\ JS.truthy (Some (snd (agentConfig agentId lookup))) = true.
Proof.
  unfold agentConfig.
  destruct (JS.truthy agentId); [|repeat split].
  destruct lookup as [agent| |]; [|repeat split..].
  cbn [fst snd]. repeat split; apply or_else_truthy; reflexivity.
Qed.

(** What the start branch builds when the start signal carries a call
    id. *)
Lemma on_start_done (reg : Registry) (ws0 : list Frame)
    (start : option StartData) (lookup : AgentLookup) (c : string) :
  start_callId start = Some c ->
  JS.truthy (Some c) = true ->
  let cfg :=
    agentConfig ((start ≫= customParameters) ≫= cp_agentId) lookup in
  let session :=
    set_sttStream (Some (mkSttStream []))
      (set_isReady true
         (set_streamSid (start ≫= start_streamSid)
            (set_greetingMessage (Some (snd cfg))
               (newSession c (fst (fst cfg)) (Some (snd (fst cfg))) ws0)))) in
  on_start reg ws0 start lookup
    = start_done c session
        (mkRegistry (<[c := session]> (sessions reg))
           (trace (snd (createSession c (fst (fst cfg)) (Some (snd (fst cfg)))
                          ws0 reg)))).
Proof.
  intros Hc Ht cfg session. unfold on_start. cbv zeta.
  rewrite Hc, Ht. cbn [negb default].
  fold cfg. destruct cfg as [[p v] g] eqn:E. cbn [fst snd] in *.
  subst session. cbn [createSession sessions trace].
  rewrite insert_insert_eq. reflexivity.
Qed.

(** X26.  The start signal is refused, and the socket closed, exactly
    when it carries no call id: neither a non-empty [callId] among its
    custom parameters nor a non-empty [callSid]; otherwise the call id is
    the custom parameter when that is non-empty and the [callSid] when it
    is not. *)
Theorem start_needs_a_callId (reg : Registry) (ws0 : list Frame)
    (start : option StartData) (lookup : AgentLookup) :
  (on_start reg ws0 start lookup = start_refused
   <-> JS.truthy ((start ≫= customParameters) ≫= cp_callId) = false
       /\ JS.truthy (start ≫= callSid) = false)
  /\ (forall c session reg',
        on_start reg ws0 start lookup = start_done c session reg' ->
        Some c
        = (if JS.truthy ((start ≫= customParameters) ≫= cp_callId)
           then (start ≫= customParameters) ≫= cp_callId
           else start ≫= callSid)).
Proof.
  assert (T : JS.truthy (start_callId start)
              = JS.truthy ((start ≫= customParameters) ≫= cp_callId)
                || JS.truthy (start ≫= callSid)).
  { unfold start_callId. cbv zeta.
    destruct (JS.truthy ((start ≫= customParameters) ≫= cp_callId)) eqn:E;
      [exact E | reflexivity]. }
  destruct (JS.truthy (start_callId start)) eqn:Hc.
  - destruct (start_callId start) as [c|] eqn:Ec; [|discriminate].
    pose proof (on_start_done reg ws0 start lookup c Ec Hc) as D.
    cbv zeta in D. rewrite D. split.
    + split; [discriminate|]. intros [H1 H2]. rewrite H1, H2 in T.
      discriminate.
    + intros c' session reg' H. injection H as <- _ _.
      rewrite <- Ec. reflexivity.
  - assert (R : on_start reg ws0 start lookup = start_refused)
      by (unfold on_start; cbv zeta; rewrite Hc; reflexivity).
    rewrite R. split.
    + split; [|reflexivity]. intros _.
      symmetry in T. apply orb_false_iff in T. exact T.
    + intros c session reg' H. discriminate.
Qed.

Lemma start_needs_a_callId_witness :
  on_start emptyRegistry []
    (Some (mkStartData (Some (mkCustomParameters (Some ""%string) None None))
             None (Some "MZ7"%string)))
    agent_missing
  = start_refused.
Proof.
  apply (start_needs_a_callId emptyRegistry []
           (Some (mkStartData
                    (Some (mkCustomParameters (Some ""%string) None None))
                    None (Some "MZ7"%string)))
           agent_missing).
  split; reflexivity.
Defined.

(** X27.  A start signal with a call id registers, under that id and
    without touching any other call, the session the listener keeps: it
    is ready, carries the signal's stream id, has an open recognizer
    stream with nothing sent, an empty history and an empty queue, and
    is not speaking; and whatever the agent lookup gave, its prompt, its
    voice id and its greeting are non-empty. *)
Theorem start_registers_a_ready_session (reg : Registry) (ws0 : list Frame)
    (start : option StartData) (lookup : AgentLookup)
    (c : string) (session : Session) (reg' : Registry) :
  on_start reg ws0 start lookup = start_done c session reg' ->
  sessions reg' !! c = Some session
  /\ (forall other, other <> c ->
        sessions reg' !! other = sessions reg !! other)
  /\ (callId session = c
      /\ isReady session = true
      /\ streamSid session = start ≫= start_streamSid
      /\ sttStream session = Some (mkSttStream [])
      /\ context session = []
      /\ audioQueue session = []
      /\ ws session = ws0
      /\ isAISpeaking session = false
      /\ silenceTimer session = None)
  /\ JS.truthy (Some (agentPrompt session)) = true
  /\ JS.truthy (Some (agentVoiceId session)) = true
  /\ JS.truthy (greetingMessage session) = true.
Proof.
  intros H.
  destruct (JS.truthy (start_callId start)) eqn:Hc.
  2:{ unfold on_start in H. cbv zeta in H. rewrite Hc in H. discriminate. }
  destruct (start_callId start) as [c0|] eqn:Ec; [|discriminate].
  pose proof (on_start_done reg ws0 start lookup c0 Ec Hc) as D.
  cbv zeta in D. rewrite D in H. injection H as <- <- <-.
  destruct (agentConfig_truthy ((start ≫= customParameters) ≫= cp_agentId)
              lookup) as (P & V & G).
  cbn [sessions].
  split; [apply lookup_insert_eq|].
  split; [intros other Hne; apply lookup_insert_ne; congruence|].
  split; [repeat split|].
  split; [exact P|]. split; [|exact G].
  cbn [agentVoiceId set_sttStream set_isReady set_streamSid
         set_greetingMessage newSession].
  apply or_default_truthy. reflexivity.
Qed.

Lemma start_registers_a_ready_session_witness :
  match on_start emptyRegistry [] someStart someAgent with
  | start_done c session reg' =>
      sessions reg' !! c = Some session
      /\ c = "CA7"%string
      /\ isReady session = true
      /\ streamSid session = Some "MZ7"%string
      /\ agentPrompt session = "You sell shoes."%string
      /\ agentVoiceId session = defaultVoiceId
      /\ greetingMessage session = Some "Hi, shoe shop here."%string
  | start_refused => False
  end.
Proof.
  destruct (on_start emptyRegistry [] someStart someAgent)
    as [|c session reg'] eqn:E; [discriminate|].
  destruct (start_registers_a_ready_session _ _ _ _ _ _ _ E)
    as (L & _ & _).
  injection E as <- <- <-.
  split; [exact L | repeat split].
Defined.

Lemma on_Transcript_keeps_no_timer
    (sv : Services) (session : Session) (data : TranscriptData)
    (response : Settled string) (ttsAudio : option Buffer) :
  silenceTimer session = None ->
  silenceTimer (snd (on_Transcript sv session data response ttsAudio)) = None.
Proof.
  intros Hn. unfold on_Transcript.
  destruct (transcript data) as [t|]; [|exact Hn].
  destruct (JS.blank t); [exact Hn|].
  destruct (negb (is_final data)).
  - cbv zeta. destruct (_ && _); exact Hn.
  - rewrite Hn. cbv zeta.
    unfold handleUserMessage, callLLM, speakWithInterruption, speak_begin,
      speak_resume.
    destruct response; cbv beta iota zeta; cbn [snd];
      (destruct ttsAudio as [audio|]; [|exact Hn]);
      cbn [userSpeechDetected set_currentAudioChunks set_userSpeechDetected];
      match goal with
      | |- silenceTimer (sendAudioToTwilio ?x ?a) = _ =>
          destruct (sendAudioToTwilio_kept x a)
            as [(_ & _ & _ & _ & _ & _ & _ & _ & _ & _ & K & _) _];
          rewrite K
      end; exact Hn.
Qed.

Lemma on_Transcripts_keep_no_timer
    (events : list Heard) (sv : Services) (session : Session) :
  silenceTimer session = None ->
  silenceTimer (snd (on_Transcripts sv session events)) = None.
Proof.
  revert sv session. induction events as [|ev events IH]; intros sv session H;
    [exact H|].
  rewrite on_Transcripts_cons. apply IH, on_Transcript_keeps_no_timer, H.
Qed.

(** X28.  Once a session was started, whatever recognizer events it has
    handled since, the stop signal (or the socket closing) finishes its
    recognizer stream, removes the stream's listeners, and takes the
    session out of the registry, in that order; a second stop or close
    then does nothing, and so does a stop on a connection that never got
    a call id.  (The registered session and the listener's are one
    object, so the registry holds it as the events left it.) *)
Theorem stop_ends_a_started_session (reg : Registry) (ws0 : list Frame)
    (start : option StartData) (lookup : AgentLookup)
    (c : string) (session : Session) (reg' : Registry)
    (sv : Services) (events : list Heard) :
  on_start reg ws0 start lookup = start_done c session reg' ->
  let later := snd (on_Transcripts sv session events) in
  let registered :=
    mkRegistry (<[c := later]> (sessions reg')) (trace reg') in
  let stopped := on_stop (Some c) registered in
  sessions stopped = delete c (sessions reg)
  /\ trace stopped
     = trace reg'
         ++ [stt_finish c; stt_removeAllListeners c;
             console_log ("Ended session for call " +:+ c)]
  /\ on_stop (Some c) stopped = stopped
  /\ on_stop None registered = registered.
Proof.
  intros H later registered stopped.
  destruct (JS.truthy (start_callId start)) eqn:Hc.
  2:{ unfold on_start in H. cbv zeta in H. rewrite Hc in H. discriminate. }
  destruct (start_callId start) as [c0|] eqn:Ec; [|discriminate].
  pose proof (on_start_done reg ws0 start lookup c0 Ec Hc) as D.
  cbv zeta in D. rewrite D in H. injection H as <- <- <-.
  assert (St : sttStream later = Some (mkSttStream [])).
  { subst later.
    match goal with
    | |- sttStream (snd (on_Transcripts ?v ?s ?evs)) = _ =>
        destruct (on_Transcripts_effects evs v s)
          as (_ & _ & _ & _ & (_ & _ & _ & _ & _ & S & _))
    end.
    exact S. }
  assert (Tm : silenceTimer later = None)
    by (apply on_Transcripts_keep_no_timer; reflexivity).
  assert (E : stopped
              = mkRegistry (delete c0 (sessions registered))
                  (trace registered
                     ++ [stt_finish c0; stt_removeAllListeners c0;
                         console_log ("Ended session for call " +:+ c0)])).
  { subst stopped. unfold on_stop. rewrite Hc. cbn [default].
    unfold endSession. subst registered. cbn [sessions trace].
    rewrite lookup_insert_eq, St, Tm. reflexivity. }
  split; [|split; [|split]].
  - rewrite E. subst registered. cbn [sessions].
    rewrite !delete_insert_eq. reflexivity.
  - rewrite E. reflexivity.
  - unfold on_stop. rewrite Hc. cbn [default].
    apply endSession_absent. rewrite E. cbn [sessions].
    apply lookup_delete_eq.
  - reflexivity.
Qed.

Lemma stop_ends_a_started_session_witness :
  match on_start emptyRegistry [] someStart someAgent with
  | start_done c session reg' =>
      let later := snd (on_Transcripts noRequests session twoQuestions) in
      let registered :=
        mkRegistry (<[c := later]> (sessions reg')) (trace reg') in
      let stopped := on_stop (Some c) registered in
      sessions stopped = delete c (sessions emptyRegistry)
      /\ trace stopped
         = trace reg'
             ++ [stt_finish c; stt_removeAllListeners c;
                 console_log ("Ended session for call " +:+ c)]
      /\ on_stop (Some c) stopped = stopped
      /\ on_stop None registered = registered
  | start_refused => False
  end.
Proof.
  destruct (on_start emptyRegistry [] someStart someAgent)
    as [|c session reg'] eqn:E; [discriminate|].
  exact (stop_ends_a_started_session _ _ _ _ _ _ _ noRequests twoQuestions E).
Defined.

(* ================================================================= *)
(** * Listeners that overlap *)

(** ** One event at a time *)

Lemma run_app (Buffer_from_base64 : string -> Buffer)
    (call : Call) (events later : list Event) :
  run Buffer_from_base64 call (events ++ later)
    = run Buffer_from_base64 call events
        ≫= fun call => run Buffer_from_base64 call later.
Proof.
  revert call. induction events as [|e events IH]; intros call; [reflexivity|].
  cbn [app run]. destruct (step Buffer_from_base64 call e); [apply IH|].
  reflexivity.
Qed.

Lemma run_cons_Some (Buffer_from_base64 : string -> Buffer)
    (call after : Call) (e : Event) (events : list Event) :
  run Buffer_from_base64 call (e :: events) = Some after ->
  exists next,
    step Buffer_from_base64 call e = Some next
    /\ run Buffer_from_base64 next events = Some after.
Proof.
  cbn [run]. destruct (step Buffer_from_base64 call e) as [next|];
    [|discriminate].
  intros H. exists next. split; [reflexivity | exact H].
Qed.

Lemma run_app_Some (Buffer_from_base64 : string -> Buffer)
    (call after : Call) (events later : list Event) :
  run Buffer_from_base64 call (events ++ later) = Some after ->
  exists next,
    run Buffer_from_base64 call events = Some next
    /\ run Buffer_from_base64 next later = Some after.
Proof.
  rewrite run_app.
  destruct (run Buffer_from_base64 call events) as [next|]; [|discriminate].
  intros H. exists next. split; [reflexivity | exact H].
Qed.

(** The media branch either leaves the session alone or forwards the
    audio and raises the caller-speech flag. *)
Lemma on_media_cases (Buffer_from_base64 : string -> Buffer)
    (session : Session) (payload : option string) :
  (on_media Buffer_from_base64 (Some session) payload = Some session
   /\ (sttStream session = None
       \/ carries_audio Buffer_from_base64 payload = false))
  \/ (exists stream audio,
        sttStream session = Some stream
        /\ carries_audio Buffer_from_base64 payload = true
        /\ on_media Buffer_from_base64 (Some session) payload
           = Some (set_userSpeechDetected true
                     (set_sttStream (Some (stt_send audio stream)) session))).
Proof.
  unfold carries_audio.
  destruct (sttStream session) as [stream|] eqn:Hst.
  - rewrite (on_media_step _ _ _ _ Hst).
    destruct (forwarded Buffer_from_base64 [payload]) as [|audio rest].
    + left. split; [reflexivity | right; reflexivity].
    + right. exists stream, audio. repeat split.
  - left. split; [|left; reflexivity].
    unfold on_media. rewrite Hst. reflexivity.
Qed.

Lemma on_mark_cases (session : Session) (name : option string) :
  (on_mark (Some session) name = Some session
   /\ name <> Some "audio_complete"%string)
  \/ (name = Some "audio_complete"%string
      /\ on_mark (Some session) name
         = Some (set_currentAudioChunks [] (set_isAISpeaking false session))).
Proof.
  destruct name as [n|]; [|left; split; [reflexivity | discriminate]].
  unfold on_mark. destruct (String.eqb n "audio_complete") eqn:E.
  - apply String.eqb_eq in E. subst n. right. split; reflexivity.
  - left. split; [reflexivity|]. intros [= ->]. discriminate.
Qed.

(** What the arrival of a transcript does, by the kind of transcript. *)
Lemma Transcript_arrives_answered (call : Call) (transcriptData : TranscriptData) :
  answers transcriptData = true ->
  exists t,
    transcript transcriptData = Some t
    /\ Transcript_arrives call transcriptData
       = let session :=
           appendToContext
             (match silenceTimer (session_of call) with
              | Some _ => set_silenceTimer None (session_of call)
              | None => session_of call
              end) t user in
         mkCall (callLLM_begin (services call) session) session
           (awaiting_callLLM call ++ [t]) (awaiting_synthesizeTTS call).
Proof.
  unfold answers, Transcript_arrives.
  destruct (transcript transcriptData) as [t|]; [|discriminate].
  intros H. apply andb_true_iff in H as [Hb Hf].
  apply negb_true_iff in Hb. exists t. rewrite Hb, Hf. split; reflexivity.
Qed.

Lemma Transcript_arrives_unanswered (call : Call) (transcriptData : TranscriptData) :
  answers transcriptData = false ->
  Transcript_arrives call transcriptData = call
  \/ exists t,
       transcript transcriptData = Some t
       /\ JS.blank t = false
       /\ is_final transcriptData = false
       /\ Transcript_arrives call transcriptData
          = with_session
              (if isAISpeaking (session_of call) && (3 <? String.length t)
               then handleInterruption
                      (set_interimTranscript t (session_of call))
               else set_interimTranscript t (session_of call))
              call.
Proof.
  unfold answers, Transcript_arrives.
  destruct (transcript transcriptData) as [t|]; [|left; reflexivity].
  destruct (JS.blank t) eqn:Hb; [left; reflexivity|].
  cbn [negb andb]. intros Hf. rewrite Hf. cbn [negb]. right.
  exists t. split; [reflexivity|]. split; [exact Hb|]. split; [reflexivity|].
  cbv zeta.
  change (isAISpeaking (set_interimTranscript t (session_of call)))
    with (isAISpeaking (session_of call)).
  destruct (isAISpeaking (session_of call) && (3 <? String.length t));
    reflexivity.
Qed.

(** Every event adds to the history the turn [turn_of] names, and
    nothing else. *)
Lemma step_context (Buffer_from_base64 : string -> Buffer)
    (call next : Call) (e : Event) :
  step Buffer_from_base64 call e = Some next ->
  context (session_of next)
    = context (session_of call) ++ option_list (turn_of e).
Proof.
  destruct e as [d | k response | k ttsAudio | payload | name |];
    cbn [step turn_of option_list].
  - intros [= <-]. destruct (answers d) eqn:Ha.
    + destruct (Transcript_arrives_answered call d Ha) as (t & Ht & ->).
      rewrite Ht. cbn. destruct (silenceTimer (session_of call)); reflexivity.
    + cbn [option_list]. rewrite app_nil_r.
      destruct (Transcript_arrives_unanswered call d Ha)
        as [-> | (t & _ & _ & _ & ->)]; [reflexivity|].
      destruct (isAISpeaking (session_of call) && (3 <? String.length t));
        reflexivity.
  - unfold callLLM_settles. destruct (awaiting_callLLM call !! k); [|discriminate].
    intros [= <-]. reflexivity.
  - unfold synthesizeTTS_settles.
    destruct (awaiting_synthesizeTTS call !! k); [|discriminate].
    intros [= <-]. cbn [session_of]. rewrite speak_resume_context, app_nil_r.
    reflexivity.
  - rewrite app_nil_r.
    destruct (on_media_cases Buffer_from_base64 (session_of call) payload)
      as [[-> _] | (stream & audio & _ & _ & ->)];
      intros [= <-]; reflexivity.
  - rewrite app_nil_r.
    destruct (on_mark_cases (session_of call) name) as [[-> _] | [_ ->]];
      intros [= <-]; reflexivity.
  - rewrite app_nil_r. intros [= <-]. unfold greeting_timer_fires.
    destruct (greetingMessage (session_of call)); reflexivity.
Qed.

Lemma omap_cons_option_list {A B : Type} (f : A -> option B)
    (x : A) (l : list A) :
  omap f (x :: l) = option_list (f x) ++ omap f l.
Proof. cbn. destruct (f x); reflexivity. Qed.

(** The history of a call is what it was, followed by the caller turns
    and agent turns in the order in which the transcripts arrived and the
    generator calls settled. *)
Lemma run_context (Buffer_from_base64 : string -> Buffer)
    (events : list Event) (call after : Call) :
  run Buffer_from_base64 call events = Some after ->
  context (session_of after)
    = context (session_of call) ++ omap turn_of events.
Proof.
  revert call. induction events as [|e events IH]; intros call H.
  - injection H as <-. cbn. rewrite app_nil_r. reflexivity.
  - apply run_cons_Some in H as (next & Hs & Hr).
    rewrite (IH next Hr), (step_context _ _ _ _ Hs), omap_cons_option_list.
    rewrite app_assoc. reflexivity.
Qed.

(** What no event changes. *)
Lemma step_fixed (Buffer_from_base64 : string -> Buffer)
    (call next : Call) (e : Event) :
  step Buffer_from_base64 call e = Some next ->
  callId (session_of next) = callId (session_of call)
  /\ agentPrompt (session_of next) = agentPrompt (session_of call)
  /\ agentVoiceId (session_of next) = agentVoiceId (session_of call)
  /\ streamSid (session_of next) = streamSid (session_of call)
  /\ isReady (session_of next) = isReady (session_of call)
  /\ greetingMessage (session_of next) = greetingMessage (session_of call).
Proof.
  destruct e as [d | k response | k ttsAudio | payload | name |]; cbn [step].
  - intros [= <-]. destruct (answers d) eqn:Ha.
    + destruct (Transcript_arrives_answered call d Ha) as (t & _ & ->).
      cbn. destruct (silenceTimer (session_of call)); repeat split.
    + destruct (Transcript_arrives_unanswered call d Ha)
        as [-> | (t & _ & _ & _ & ->)]; [repeat split|].
      destruct (isAISpeaking (session_of call) && (3 <? String.length t));
        repeat split.
  - unfold callLLM_settles.
    destruct (awaiting_callLLM call !! k); [|discriminate].
    intros [= <-]. repeat split.
  - unfold synthesizeTTS_settles.
    destruct (awaiting_synthesizeTTS call !! k); [|discriminate].
    intros [= <-]. cbn [session_of].
    destruct (speak_resume_extends (session_of call) ttsAudio)
      as (E1 & E2 & E3 & E4 & E5 & _ & E7 & _).
    repeat split; assumption.
  - destruct (on_media_cases Buffer_from_base64 (session_of call) payload)
      as [[-> _] | (stream & audio & _ & _ & ->)];
      intros [= <-]; repeat split.
  - destruct (on_mark_cases (session_of call) name) as [[-> _] | [_ ->]];
      intros [= <-]; repeat split.
  - intros [= <-]. unfold greeting_timer_fires.
    destruct (greetingMessage (session_of call)) eqn:G;
      cbn; rewrite ?G; repeat split.
Qed.

(** ** Listeners that do not overlap *)

(** The listener as a whole, [on_Transcript], is the run in which the
    requests of the listener settle before anything else happens. *)
Lemma on_Transcript_undisturbed (Buffer_from_base64 : string -> Buffer)
    (sv : Services) (session : Session) (ev : Heard) :
  run Buffer_from_base64 (mkCall sv session [] []) (one_after_another ev)
  = Some (mkCall
            (fst (on_Transcript sv session
                    (heard_data ev) (heard_response ev) (heard_ttsAudio ev)))
            (snd (on_Transcript sv session
                    (heard_data ev) (heard_response ev) (heard_ttsAudio ev)))
            [] []).
Proof.
  destruct ev as [[tr fin] response ttsAudio].
  unfold one_after_another, answered, on_Transcript.
  cbn [heard_data heard_response heard_ttsAudio transcript is_final].
  destruct tr as [t|]; [|reflexivity].
  destruct (JS.blank t) eqn:Hb.
  { cbn. unfold Transcript_arrives. cbn. rewrite Hb. reflexivity. }
  destruct fin; cbn [negb andb].
  - cbn [run step mbind option_bind].
    unfold Transcript_arrives. cbn [transcript is_final]. rewrite Hb.
    cbn [negb]. cbv zeta.
    unfold handleUserMessage, callLLM, speakWithInterruption, speak_begin,
      callLLM_settles, synthesizeTTS_settles, callLLM_begin.
    destruct response; reflexivity.
  - cbn [run step mbind option_bind].
    unfold Transcript_arrives. cbn [transcript is_final]. rewrite Hb.
    cbn [negb session_of]. cbv zeta.
    destruct (isAISpeaking (set_interimTranscript t session)
              && (3 <? String.length t)); reflexivity.
Qed.

(** So the events handled one after another, [on_Transcripts], are the
    run in which every listener has finished before the next event
    arrives. *)
Lemma on_Transcripts_one_after_another
    (Buffer_from_base64 : string -> Buffer)
    (events : list Heard) (sv : Services) (session : Session) :
  run Buffer_from_base64 (mkCall sv session [] [])
    (flat_map one_after_another events)
  = Some (mkCall (fst (on_Transcripts sv session events))
            (snd (on_Transcripts sv session events)) [] []).
Proof.
  revert sv session. induction events as [|ev events IH]; intros sv session.
  - reflexivity.
  - cbn [flat_map]. rewrite run_app, on_Transcript_undisturbed.
    cbn [mbind option_bind]. rewrite IH, on_Transcripts_cons. reflexivity.
Qed.

(** ** The history when listeners overlap, and when they do not *)

(** C5, as stated, fails.  Two final transcripts arrive one after the
    other, so that two listeners wait for the generator, the one called
    with ["one"] and the one called with ["two"]; the second generator
    call settles first.  The agent turns are then in the history in the
    order opposite to that of the transcripts, and the first caller turn
    is followed by the second caller turn, not by its agent turn. *)
Lemma overlapping_final_transcripts_reorder_history :
  (awaiting_callLLM
     <$> run bytes_of_text (mkCall noRequests readySession [] [])
           [recognizer_Transcript (mkTranscriptData (Some "one"%string) true);
            recognizer_Transcript (mkTranscriptData (Some "two"%string) true)])
  = Some ["one"%string; "two"%string]
  /\ (context ∘ session_of
        <$> run bytes_of_text (mkCall noRequests readySession [] [])
              [recognizer_Transcript (mkTranscriptData (Some "one"%string) true);
               recognizer_Transcript (mkTranscriptData (Some "two"%string) true);
               callLLM_settled 1 (fulfilled "reply to two"%string);
               callLLM_settled 0 (fulfilled "reply to one"%string)])
     = Some [mkTurn user [mkPart "one"]; mkTurn user [mkPart "two"];
             mkTurn model [mkPart "reply to two"];
             mkTurn model [mkPart "reply to one"]].
Proof. split; reflexivity. Qed.

Lemma aside_turn_of (e : Event) : aside e = true -> turn_of e = None.
Proof.
  destruct e as [d| | | | |]; cbn; try reflexivity; try discriminate.
  intros H. apply negb_true_iff in H. rewrite H. reflexivity.
Qed.

Lemma asides_add_no_turn (events : list Event) :
  forallb aside events = true -> omap turn_of events = [].
Proof.
  induction events as [|e events IH]; [reflexivity|].
  cbn [forallb]. intros H. apply andb_true_iff in H as [He Hrest].
  rewrite omap_cons_option_list, (aside_turn_of e He), (IH Hrest).
  reflexivity.
Qed.

Lemma aside_keeps_awaiting_callLLM (Buffer_from_base64 : string -> Buffer)
    (call next : Call) (e : Event) :
  aside e = true ->
  step Buffer_from_base64 call e = Some next ->
  awaiting_callLLM next = awaiting_callLLM call.
Proof.
  destruct e as [d | k response | k ttsAudio | payload | name |];
    cbn [aside step]; intros Ha; try discriminate.
  - apply negb_true_iff in Ha. intros [= <-].
    destruct (Transcript_arrives_unanswered call d Ha)
      as [-> | (t & _ & _ & _ & ->)]; reflexivity.
  - unfold synthesizeTTS_settles.
    destruct (awaiting_synthesizeTTS call !! k); [|discriminate].
    intros [= <-]. reflexivity.
  - destruct (on_media Buffer_from_base64 (Some (session_of call)) payload);
      intros [= <-]; reflexivity.
  - destruct (on_mark (Some (session_of call)) name);
      intros [= <-]; reflexivity.
  - intros [= <-]. unfold greeting_timer_fires.
    destruct (greetingMessage (session_of call)); reflexivity.
Qed.

Lemma asides_keep_awaiting_callLLM (Buffer_from_base64 : string -> Buffer)
    (events : list Event) (call after : Call) :
  forallb aside events = true ->
  run Buffer_from_base64 call events = Some after ->
  awaiting_callLLM after = awaiting_callLLM call.
Proof.
  revert call. induction events as [|e events IH]; intros call Ha H.
  - injection H as <-. reflexivity.
  - cbn [forallb] in Ha. apply andb_true_iff in Ha as [He Hrest].
    apply run_cons_Some in H as (next & Hs & Hr).
    rewrite (IH next Hrest Hr).
    apply (aside_keeps_awaiting_callLLM _ _ _ _ He Hs).
Qed.

Lemma turns_of_rounds (rounds : list Round) :
  forallb by_itself rounds = true ->
  omap turn_of (in_turn rounds) = flat_map exchange_of rounds.
Proof.
  induction rounds as [|r rounds IH]; [reflexivity|].
  cbn [forallb]. intros H. apply andb_true_iff in H as [Hr Hrest].
  unfold by_itself in Hr.
  apply andb_true_iff in Hr as [Hr Ha]. apply andb_true_iff in Hr as [Hb Hm].
  unfold in_turn in *. cbn [flat_map].
  rewrite omap_app, (IH Hrest).
  f_equal.
  rewrite omap_cons_option_list, omap_app, omap_cons_option_list.
  rewrite (asides_add_no_turn _ Hm), (asides_add_no_turn _ Ha).
  cbn [turn_of answers transcript is_final]. rewrite Hb. reflexivity.
Qed.

(** C5, amended.  Final transcripts with non-blank text, taken in turn:
    the generator call made for each settles before the next of them
    arrives, whatever else happens in between (interim results, inbound
    audio, marks, the settling of syntheses).  Then each appends one
    caller turn followed at once by its agent turn, so the history grows
    by the exchanges in the order of the transcripts, and no listener is
    left waiting for the generator. *)
Theorem final_transcripts_in_turn_append_exchanges
    (Buffer_from_base64 : string -> Buffer)
    (rounds : list Round) (call after : Call) :
  awaiting_callLLM call = [] ->
  forallb by_itself rounds = true ->
  run Buffer_from_base64 call (in_turn rounds) = Some after ->
  context (session_of after)
    = context (session_of call) ++ flat_map exchange_of rounds
  /\ awaiting_callLLM after = [].
Proof.
  intros Hw Hall Hrun. split.
  - rewrite (run_context _ _ _ _ Hrun), (turns_of_rounds _ Hall).
    reflexivity.
  - revert call Hw Hrun.
    induction rounds as [|r rounds IH]; intros call Hw Hrun.
    + injection Hrun as <-. exact Hw.
    + cbn [forallb] in Hall. apply andb_true_iff in Hall as [Hr Hrest].
      unfold by_itself in Hr.
      apply andb_true_iff in Hr as [Hr Ha].
      apply andb_true_iff in Hr as [Hb Hm].
      unfold in_turn in Hrun. cbn [flat_map] in Hrun.
      apply run_app_Some in Hrun as (c4 & Hround & Hrun).
      apply run_cons_Some in Hround as (c1 & H1 & Hround).
      apply run_app_Some in Hround as (c2 & H2 & Hround).
      apply run_cons_Some in Hround as (c3 & H3 & H4).
      apply (IH Hrest c4); [|exact Hrun].
      rewrite (asides_keep_awaiting_callLLM _ _ _ _ Ha H4).
      cbn [step] in H1, H3. injection H1 as <-.
      apply (asides_keep_awaiting_callLLM _ _ _ _ Hm) in H2.
      unfold Transcript_arrives in H2. cbn [transcript is_final] in H2.
      apply negb_true_iff in Hb. rewrite Hb in H2. cbn [negb] in H2.
      cbv zeta in H2. cbn [awaiting_callLLM] in H2. rewrite Hw in H2.
      unfold callLLM_settles in H3. rewrite H2 in H3. cbn in H3.
      injection H3 as <-. reflexivity.
Qed.

Lemma final_transcripts_in_turn_append_exchanges_witness :
  exists after,
    run bytes_of_text listeningCall (in_turn twoRounds) = Some after
    /\ context (session_of after)
       = context (session_of listeningCall) ++ flat_map exchange_of twoRounds
    /\ awaiting_callLLM after = [].
Proof.
  eexists. split; [vm_compute; reflexivity|].
  apply (final_transcripts_in_turn_append_exchanges bytes_of_text twoRounds
           listeningCall);
    [reflexivity | reflexivity | vm_compute; reflexivity].
Defined.

(** The history of the two rounds, and the socket: the caller audio that
    came in before the first reply was synthesized does not silence it. *)
Example history_of_twoRounds :
  (context ∘ session_of <$> run bytes_of_text listeningCall (in_turn twoRounds))
  = Some [mkTurn user [mkPart "What's the weather?"];
          mkTurn model [mkPart "I can't check weather, sorry."];
          mkTurn user [mkPart "Thanks"];
          mkTurn model [mkPart fallbackReply]].
Proof. vm_compute. reflexivity. Qed.

(** X30.  Whatever the order in which events arrive and requests settle,
    the history of a call is what it was, followed by one caller turn for
    every final transcript with text, added when it arrives, and one
    agent turn for every generator call that settles, added when it
    settles, in the order in which these things happen; no other event
    adds to the history and none removes from it. *)
Theorem history_follows_arrivals_and_settlings
    (Buffer_from_base64 : string -> Buffer)
    (events : list Event) (call after : Call) :
  run Buffer_from_base64 call events = Some after ->
  context (session_of after)
    = context (session_of call) ++ omap turn_of events.
Proof. apply run_context. Qed.

Lemma history_follows_arrivals_and_settlings_witness :
  exists after,
    run bytes_of_text listeningCall
      [recognizer_Transcript (mkTranscriptData (Some "one"%string) true);
       socket_media (Some "fw=="%string);
       recognizer_Transcript (mkTranscriptData (Some "two"%string) true);
       callLLM_settled 1 (fulfilled "reply to two"%string);
       synthesizeTTS_settled 0 (Some someClip);
       callLLM_settled 0 rejected]
    = Some after
    /\ context (session_of after)
       = [mkTurn user [mkPart "one"]; mkTurn user [mkPart "two"];
          mkTurn model [mkPart "reply to two"];
          mkTurn model [mkPart fallbackReply]].
Proof.
  eexists. split; [vm_compute; reflexivity|].
  apply (history_follows_arrivals_and_settlings bytes_of_text
           [recognizer_Transcript (mkTranscriptData (Some "one"%string) true);
            socket_media (Some "fw=="%string);
            recognizer_Transcript (mkTranscriptData (Some "two"%string) true);
            callLLM_settled 1 (fulfilled "reply to two"%string);
            synthesizeTTS_settled 0 (Some someClip);
            callLLM_settled 0 rejected]
           listeningCall).
  vm_compute. reflexivity.
Defined.

(** ** Requests when listeners overlap *)

Lemma step_services (Buffer_from_base64 : string -> Buffer)
    (call next : Call) (e : Event) :
  step Buffer_from_base64 call e = Some next ->
  synthesizeTTS_calls (services next)
    = synthesizeTTS_calls (services call)
        ++ option_list (utterance_of (session_of call) e)
  /\ List.length (generateContent_requests (services next))
     = List.length (generateContent_requests (services call))
       + (if asks_generator e then 1 else 0).
Proof.
  destruct e as [d | k response | k ttsAudio | payload | name |];
    cbn [step utterance_of asks_generator option_list];
    rewrite ?app_nil_r, ?Nat.add_0_r.
  - intros [= <-]. destruct (answers d) eqn:Ha.
    + destruct (Transcript_arrives_answered call d Ha) as (t & _ & ->).
      cbn. rewrite length_app. split; reflexivity.
    + rewrite Nat.add_0_r.
      destruct (Transcript_arrives_unanswered call d Ha)
        as [-> | (t & _ & _ & _ & ->)]; split; reflexivity.
  - unfold callLLM_settles.
    destruct (awaiting_callLLM call !! k); [|discriminate].
    intros [= <-]. split; reflexivity.
  - unfold synthesizeTTS_settles.
    destruct (awaiting_synthesizeTTS call !! k); [|discriminate].
    intros [= <-]. split; reflexivity.
  - destruct (on_media Buffer_from_base64 (Some (session_of call)) payload);
      intros [= <-]; split; reflexivity.
  - destruct (on_mark (Some (session_of call)) name);
      intros [= <-]; split; reflexivity.
  - intros [= <-]. unfold greeting_timer_fires.
    destruct (greetingMessage (session_of call)); cbn;
      rewrite ?app_nil_r; split; reflexivity.
Qed.

Lemma run_services
    (Buffer_from_base64 : string -> Buffer)
    (events : list Event) (call after : Call) :
  run Buffer_from_base64 call events = Some after ->
  synthesizeTTS_calls (services after)
    = synthesizeTTS_calls (services call)
        ++ omap (utterance_of (session_of call)) events
  /\ List.length (generateContent_requests (services after))
     = List.length (generateContent_requests (services call))
       + List.length (List.filter asks_generator events).
Proof.
  revert call. induction events as [|e events IH]; intros call H.
  - injection H as <-. cbn. rewrite app_nil_r, Nat.add_0_r.
    split; reflexivity.
  - apply run_cons_Some in H as (next & Hs & Hr).
    destruct (IH next Hr) as [I1 I2].
    destruct (step_services _ _ _ _ Hs) as [S1 S2].
    destruct (step_fixed _ _ _ _ Hs) as (_ & _ & V & _ & _ & G).
    assert (U : omap (utterance_of (session_of next)) events
                = omap (utterance_of (session_of call)) events).
    { clear -V G. revert V G.
      generalize (session_of next), (session_of call). intros s s' V G.
      induction events as [|x l IHl]; [reflexivity|].
      rewrite !omap_cons_option_list, IHl. f_equal.
      destruct x; cbn; rewrite ?V, ?G; reflexivity. }
    rewrite I1, I2, S1, S2, U, omap_cons_option_list. cbn [List.filter].
    split; [rewrite app_assoc; reflexivity|].
    destruct (asks_generator e); cbn [List.length]; lia.
Qed.

(** X7.  Whatever the order in which events arrive and requests settle,
    the synthesizer is called once for every generator call that settles,
    on the reply it settled with (the apology when it failed), and once
    for every greeting timer, on the greeting, in the order in which
    these happen and always with the session's voice; the generator is
    asked once for every transcript that is final and has text. *)
Theorem one_synthesis_per_settled_reply
    (Buffer_from_base64 : string -> Buffer)
    (events : list Event) (call after : Call) :
  run Buffer_from_base64 call events = Some after ->
  synthesizeTTS_calls (services after)
    = synthesizeTTS_calls (services call)
        ++ omap (utterance_of (session_of call)) events
  /\ List.length (generateContent_requests (services after))
     = List.length (generateContent_requests (services call))
       + List.length (List.filter asks_generator events).
Proof. apply run_services. Qed.

Lemma one_synthesis_per_settled_reply_witness :
  exists after,
    run bytes_of_text listeningCall
      [recognizer_Transcript (mkTranscriptData (Some "one"%string) true);
       recognizer_Transcript (mkTranscriptData (Some "two"%string) true);
       callLLM_settled 1 (fulfilled "reply to two"%string);
       callLLM_settled 0 rejected]
    = Some after
    /\ synthesizeTTS_calls (services after)
       = [("reply to two"%string, defaultVoiceId);
          (fallbackReply, defaultVoiceId)]
    /\ List.length (generateContent_requests (services after)) = 2.
Proof.
  eexists. split; [vm_compute; reflexivity|].
  apply (one_synthesis_per_settled_reply bytes_of_text
           [recognizer_Transcript (mkTranscriptData (Some "one"%string) true);
            recognizer_Transcript (mkTranscriptData (Some "two"%string) true);
            callLLM_settled 1 (fulfilled "reply to two"%string);
            callLLM_settled 0 rejected]
           listeningCall).
  vm_compute. reflexivity.
Defined.

(** ** Utterances whose audio is awaited in quiet *)

Ltac unmoved_here :=
  unfold unmoved; cbn; repeat split;
  try reflexivity; try (eexists; reflexivity).

Lemma unmoved_refl (call : Call) : unmoved call call.
Proof. unmoved_here. Qed.

Lemma unmoved_trans (c1 c2 c3 : Call) :
  unmoved c1 c2 -> unmoved c2 c3 -> unmoved c1 c3.
Proof.
  unfold unmoved.
  intros (A1 & A2 & A3 & A4 & A5 & A6 & A7 & A8)
         (B1 & B2 & B3 & B4 & B5 & B6 & B7 & B8).
  repeat split; try congruence. etrans; eassumption.
Qed.

Lemma quiet_or_media_step (Buffer_from_base64 : string -> Buffer)
    (call : Call) (e : Event) :
  quiet_or_media Buffer_from_base64 e = true ->
  exists next,
    step Buffer_from_base64 call e = Some next
    /\ unmoved call next
    /\ (quiet Buffer_from_base64 e = true ->
        userSpeechDetected (session_of next)
        = userSpeechDetected (session_of call)).
Proof.
  unfold quiet_or_media.
  destruct e as [d | k response | k ttsAudio | payload | name |];
    cbn [quiet step orb]; try discriminate.
  - rewrite orb_false_r. intros Hq. eexists. split; [reflexivity|].
    destruct (answers d) eqn:Ha.
    + destruct (Transcript_arrives_answered call d Ha) as (t & _ & ->).
      cbv zeta. split; [|intros _].
      * destruct (silenceTimer (session_of call)); unmoved_here.
      * destruct (silenceTimer (session_of call)); reflexivity.
    + destruct (Transcript_arrives_unanswered call d Ha)
        as [-> | (t & Ht & Hb & Hf & ->)];
        [split; [apply unmoved_refl | reflexivity]|].
      rewrite Ht, Hb, Hf in Hq. cbn [orb] in Hq.
      apply Nat.leb_le in Hq.
      assert (L : (3 <? String.length t) = false) by (apply Nat.ltb_ge; lia).
      rewrite L, andb_false_r.
      split; [unmoved_here | reflexivity].
  - intros _.
    destruct (on_media_cases Buffer_from_base64 (session_of call) payload)
      as [[E _] | (stream & audio & _ & Hc & E)]; rewrite E;
      (eexists; split; [reflexivity|]);
      (split; [unmoved_here|]).
    + reflexivity.
    + rewrite Hc. discriminate.
  - rewrite orb_false_r. intros Hq.
    destruct (on_mark_cases (session_of call) name) as [[E _] | [-> E]].
    + rewrite E. eexists. split; [reflexivity|].
      split; [unmoved_here | reflexivity].
    + discriminate.
Qed.

Lemma quiet_or_media_run (Buffer_from_base64 : string -> Buffer)
    (events : list Event) (call : Call) :
  forallb (quiet_or_media Buffer_from_base64) events = true ->
  exists after,
    run Buffer_from_base64 call events = Some after
    /\ unmoved call after
    /\ (forallb (quiet Buffer_from_base64) events = true ->
        userSpeechDetected (session_of after)
        = userSpeechDetected (session_of call)).
Proof.
  revert call. induction events as [|e events IH]; intros call H.
  - exists call. split; [reflexivity|].
    split; [apply unmoved_refl | reflexivity].
  - cbn [forallb] in H. apply andb_true_iff in H as [He Hrest].
    destruct (quiet_or_media_step Buffer_from_base64 call e He)
      as (next & Hs & Hu & Hf).
    destruct (IH next Hrest) as (after & Hr & Hu' & Hf').
    exists after. cbn [run]. rewrite Hs. cbn. split; [exact Hr|].
    split; [eapply unmoved_trans; eassumption|].
    cbn [forallb]. intros Hq. apply andb_true_iff in Hq as [Hq1 Hq2].
    rewrite (Hf' Hq2). apply (Hf Hq1).
Qed.

Lemma quiet_is_quiet_or_media (Buffer_from_base64 : string -> Buffer)
    (events : list Event) :
  forallb (quiet Buffer_from_base64) events = true ->
  forallb (quiet_or_media Buffer_from_base64) events = true.
Proof.
  induction events as [|e events IH]; [reflexivity|].
  cbn [forallb]. intros H. apply andb_true_iff in H as [He Hrest].
  unfold quiet_or_media at 1. rewrite He, (IH Hrest). reflexivity.
Qed.

(** An utterance that waits for its audio with the caller-speech flag
    down, while only quiet events arrive, is delivered when the audio
    comes: in full on a ready session, into the pending queue
    otherwise. *)
Lemma awaited_audio_goes_out (Buffer_from_base64 : string -> Buffer)
    (call : Call) (during : list Event) (k : nat) (text : string)
    (audio : Buffer) :
  awaiting_synthesizeTTS call !! k = Some text ->
  userSpeechDetected (session_of call) = false ->
  forallb (quiet Buffer_from_base64) during = true ->
  exists after,
    run Buffer_from_base64 call
      (during ++ [synthesizeTTS_settled k (Some audio)]) = Some after
    /\ currentAudioChunks (session_of after)
       = currentAudioChunks (session_of call) ++ [audio]
    /\ userSpeechDetected (session_of after) = false
    /\ isAISpeaking (session_of after) = isAISpeaking (session_of call)
    /\ (if negb (isReady (session_of call))
           || negb (JS.truthy (streamSid (session_of call)))
        then ws (session_of after) = ws (session_of call)
             /\ audioQueue (session_of after)
                = audioQueue (session_of call) ++ [audio]
        else ws (session_of after)
             = ws (session_of call)
                 ++ delivery (streamSid (session_of call)) audio
             /\ audioQueue (session_of after) = audioQueue (session_of call)).
Proof.
  intros Hk Hf Hq.
  destruct (quiet_or_media_run Buffer_from_base64 during call
              (quiet_is_quiet_or_media _ _ Hq))
    as (c1 & Hr & (U1 & U2 & U3 & U4 & U5 & U6 & U7 & _) & Hfl).
  specialize (Hfl Hq). rewrite Hf in Hfl.
  rewrite run_app, Hr. cbn [mbind option_bind run step].
  unfold synthesizeTTS_settles. rewrite U7, Hk.
  eexists. split; [reflexivity|]. cbn [session_of].
  unfold speak_resume. cbv zeta.
  change (userSpeechDetected
            (set_currentAudioChunks
               (currentAudioChunks (session_of c1) ++ [audio]) (session_of c1)))
    with (userSpeechDetected (session_of c1)).
  rewrite Hfl.
  set (s1 := set_currentAudioChunks _ (session_of c1)).
  assert (R1 : isReady s1 = isReady (session_of call)) by exact U5.
  assert (S1 : streamSid s1 = streamSid (session_of call)) by exact U6.
  destruct (isReady (session_of call)) eqn:Er;
    [destruct (JS.truthy (streamSid (session_of call))) eqn:Es|]; cbn [negb orb].
  - rewrite sendAudioToTwilio_ready;
      [|exact R1 | rewrite S1; exact Es | exact Hfl].
    subst s1. cbn. rewrite U1, U2, U3, U4, U6. repeat split; assumption.
  - rewrite sendAudioToTwilio_queues by (right; rewrite S1; exact Es).
    subst s1. cbn. rewrite U1, U2, U3, U4. repeat split; assumption.
  - rewrite sendAudioToTwilio_queues by (left; exact R1).
    subst s1. cbn. rewrite U1, U2, U3, U4. repeat split; assumption.
Qed.

(** A final transcript with text whose reply is synthesized in quiet is
    spoken: whatever arrives while the generator is awaited, short of
    interrupting or resuming something, and inbound audio included. *)
Lemma final_transcript_is_spoken (Buffer_from_base64 : string -> Buffer)
    (call : Call) (t : string) (response : Settled string)
    (meanwhile during : list Event) (audio : Buffer) :
  JS.blank t = false ->
  forallb (quiet_or_media Buffer_from_base64) meanwhile = true ->
  forallb (quiet Buffer_from_base64) during = true ->
  exists after,
    run Buffer_from_base64 call
      (recognizer_Transcript (mkTranscriptData (Some t) true)
       :: meanwhile
       ++ callLLM_settled (List.length (awaiting_callLLM call)) response
       :: during
       ++ [synthesizeTTS_settled (List.length (awaiting_synthesizeTTS call))
             (Some audio)])
    = Some after
    /\ isAISpeaking (session_of after) = true
    /\ userSpeechDetected (session_of after) = false
    /\ currentAudioChunks (session_of after)
       = currentAudioChunks (session_of call) ++ [audio]
    /\ (if negb (isReady (session_of call))
           || negb (JS.truthy (streamSid (session_of call)))
        then ws (session_of after) = ws (session_of call)
             /\ audioQueue (session_of after)
                = audioQueue (session_of call) ++ [audio]
        else ws (session_of after)
             = ws (session_of call)
                 ++ delivery (streamSid (session_of call)) audio
             /\ audioQueue (session_of after) = audioQueue (session_of call)).
Proof.
  intros Hb Hm Hd.
  cbn [run step]. cbn [mbind option_bind].
  set (c1 := Transcript_arrives call (mkTranscriptData (Some t) true)).
  assert (E1 : awaiting_callLLM c1 = awaiting_callLLM call ++ [t]
               /\ unmoved call c1).
  { subst c1. unfold Transcript_arrives. cbn [transcript is_final].
    rewrite Hb. cbn [negb]. cbv zeta. split; [reflexivity|].
    destruct (silenceTimer (session_of call)); unmoved_here. }
  destruct E1 as [W1 U1].
  destruct (quiet_or_media_run Buffer_from_base64 meanwhile c1 Hm)
    as (c2 & Hr2 & U2 & _).
  rewrite run_app, Hr2. cbn [mbind option_bind run step].
  pose proof (unmoved_trans _ _ _ U1 U2)
    as (V1 & V2 & V3 & V4 & V5 & V6 & V7 & _).
  assert (L2 : awaiting_callLLM c2 !! List.length (awaiting_callLLM call)
               = Some t).
  { destruct U2 as (_ & _ & _ & _ & _ & _ & _ & [rest ->]).
    rewrite W1, <- app_assoc. apply list_lookup_middle. reflexivity. }
  unfold callLLM_settles at 1. rewrite L2.
  unfold speak_begin. cbv zeta.
  match goal with
  | |- exists after, (Some ?c ≫= _) = _ /\ _ => set (c3 := c)
  end.
  cbn [mbind option_bind].
  destruct (awaited_audio_goes_out Buffer_from_base64 c3 during
              (List.length (awaiting_synthesizeTTS call))
              (reply_of response) audio)
    as (after & Hr & A1 & A2 & A3 & A4); [| reflexivity | exact Hd |].
  { subst c3. cbn [awaiting_synthesizeTTS]. rewrite V7.
    apply list_lookup_middle. reflexivity. }
  exists after. split; [exact Hr|].
  subst c3. cbn in A1, A3, A4. rewrite V1, V3, V4, V5, V6 in *.
  repeat split; assumption.
Qed.

(** X10.  A final transcript answered with audio on a ready session,
    when nothing disturbs the utterance (inbound audio may arrive while
    the generator is awaited; while the synthesis is awaited the events
    are quiet), leaves the agent speaking, the clip buffered and the
    whole clip on the socket; the transport's ["audio_complete"] mark
    then clears the speaking flag and the buffered chunks and changes
    nothing else of the socket or the history, while a mark of any other
    name, or without a name, changes nothing at all. *)
Theorem reply_then_mark (Buffer_from_base64 : string -> Buffer)
    (call : Call) (t : string) (response : Settled string)
    (meanwhile during : list Event) (audio : Buffer) :
  isReady (session_of call) = true ->
  JS.truthy (streamSid (session_of call)) = true ->
  JS.blank t = false ->
  forallb (quiet_or_media Buffer_from_base64) meanwhile = true ->
  forallb (quiet Buffer_from_base64) during = true ->
  exists after,
    run Buffer_from_base64 call
      (recognizer_Transcript (mkTranscriptData (Some t) true)
       :: meanwhile
       ++ callLLM_settled (List.length (awaiting_callLLM call)) response
       :: during
       ++ [synthesizeTTS_settled (List.length (awaiting_synthesizeTTS call))
             (Some audio)])
    = Some after
    /\ isAISpeaking (session_of after) = true
    /\ currentAudioChunks (session_of after)
       = currentAudioChunks (session_of call) ++ [audio]
    /\ ws (session_of after)
       = ws (session_of call) ++ delivery (streamSid (session_of call)) audio
    /\ (exists acked,
          step Buffer_from_base64 after
            (socket_mark (Some "audio_complete"%string)) = Some acked
          /\ isAISpeaking (session_of acked) = false
          /\ currentAudioChunks (session_of acked) = []
          /\ ws (session_of acked) = ws (session_of after)
          /\ context (session_of acked) = context (session_of after))
    /\ (forall name, String.eqb name "audio_complete" = false ->
          step Buffer_from_base64 after (socket_mark (Some name)) = Some after)
    /\ step Buffer_from_base64 after (socket_mark None) = Some after.
Proof.
  intros Hr Hs Hb Hm Hd.
  destruct (final_transcript_is_spoken Buffer_from_base64 call t response
              meanwhile during audio Hb Hm Hd)
    as (after & Hrun & Sp & _ & Ch & W).
  rewrite Hr, Hs in W. cbn [negb orb] in W. destruct W as [W _].
  exists after. split; [exact Hrun|].
  split; [exact Sp | split; [exact Ch | split; [exact W | split; [|split]]]].
  - eexists. split; [reflexivity | repeat split].
  - intros name Hn. cbn [step]. unfold on_mark. rewrite Hn.
    destruct after; reflexivity.
  - destruct after; reflexivity.
Qed.

Lemma reply_then_mark_witness :
  exists after,
    run bytes_of_text listeningCall
      [recognizer_Transcript (mkTranscriptData (Some "Hi"%string) true);
       socket_media (Some "fw=="%string);
       callLLM_settled 0 (fulfilled "Hello."%string);
       recognizer_Transcript (mkTranscriptData (Some "um"%string) false);
       synthesizeTTS_settled 0 (Some someClip)]
    = Some after
    /\ isAISpeaking (session_of after) = true
    /\ currentAudioChunks (session_of after) = [someClip]
    /\ ws (session_of after) = delivery (Some "MZ1"%string) someClip.
Proof.
  destruct (reply_then_mark bytes_of_text listeningCall "Hi"
              (fulfilled "Hello."%string)
              [socket_media (Some "fw=="%string)]
              [recognizer_Transcript (mkTranscriptData (Some "um"%string) false)]
              someClip eq_refl eq_refl eq_refl eq_refl eq_refl)
    as (after & Hrun & Sp & Ch & W & _).
  exists after. repeat split; assumption.
Defined.

(** X11.  An interruption does not silence what comes after it: when a
    barge-in is followed by a final transcript whose reply is synthesized
    in quiet, the socket carries the clear frame and then the whole new
    clip, and the agent is speaking again with the caller-speech flag
    down. *)
Theorem barge_in_then_reply (Buffer_from_base64 : string -> Buffer)
    (call : Call) (t1 t2 : string) (response : Settled string)
    (meanwhile during : list Event) (audio : Buffer) :
  isReady (session_of call) = true ->
  JS.truthy (streamSid (session_of call)) = true ->
  isAISpeaking (session_of call) = true ->
  JS.blank t1 = false ->
  3 < String.length t1 ->
  JS.blank t2 = false ->
  forallb (quiet_or_media Buffer_from_base64) meanwhile = true ->
  forallb (quiet Buffer_from_base64) during = true ->
  exists after,
    run Buffer_from_base64 call
      (recognizer_Transcript (mkTranscriptData (Some t1) false)
       :: recognizer_Transcript (mkTranscriptData (Some t2) true)
       :: meanwhile
       ++ callLLM_settled (List.length (awaiting_callLLM call)) response
       :: during
       ++ [synthesizeTTS_settled (List.length (awaiting_synthesizeTTS call))
             (Some audio)])
    = Some after
    /\ ws (session_of after)
       = ws (session_of call) ++ [clear (streamSid (session_of call))]
           ++ delivery (streamSid (session_of call)) audio
    /\ isAISpeaking (session_of after) = true
    /\ userSpeechDetected (session_of after) = false.
Proof.
  intros Hr Hs Hsp Ht1 Hlen Ht2 Hm Hd.
  set (c0 := with_session
               (handleInterruption
                  (set_interimTranscript t1 (session_of call))) call).
  assert (E : step Buffer_from_base64 call
                (recognizer_Transcript (mkTranscriptData (Some t1) false))
              = Some c0).
  { cbn [step]. unfold Transcript_arrives. cbn [transcript is_final].
    rewrite Ht1. cbn [negb]. cbv zeta.
    change (isAISpeaking (set_interimTranscript t1 (session_of call)))
      with (isAISpeaking (session_of call)).
    rewrite Hsp. apply Nat.ltb_lt in Hlen. rewrite Hlen. reflexivity. }
  destruct (final_transcript_is_spoken Buffer_from_base64 c0 t2 response
              meanwhile during audio Ht2 Hm Hd)
    as (after & Hrun & Sp & Fl & _ & W).
  exists after. split.
  - change (run Buffer_from_base64 call (?e :: ?es))
      with (step Buffer_from_base64 call e
              ≫= fun c => run Buffer_from_base64 c es).
    rewrite E. exact Hrun.
  - subst c0. cbn in W. rewrite Hr, Hs in W. cbn [negb orb] in W.
    destruct W as [W _]. rewrite W, <- app_assoc.
    repeat split; assumption.
Qed.

Lemma barge_in_then_reply_witness :
  exists after,
    run bytes_of_text (mkCall noRequests speakingSession [] [])
      [recognizer_Transcript
         (mkTranscriptData (Some "wait a second"%string) false);
       recognizer_Transcript
         (mkTranscriptData (Some "What's the weather?"%string) true);
       callLLM_settled 0 rejected;
       synthesizeTTS_settled 0 (Some someClip)]
    = Some after
    /\ ws (session_of after)
       = clear (Some "MZ1"%string) :: delivery (Some "MZ1"%string) someClip
    /\ isAISpeaking (session_of after) = true
    /\ userSpeechDetected (session_of after) = false.
Proof.
  apply (barge_in_then_reply bytes_of_text
           (mkCall noRequests speakingSession [] [])
           "wait a second" "What's the weather?" rejected [] [] someClip);
    try reflexivity.
  simpl. lia.
Defined.

(** ** The greeting *)

Lemma quiet_events_ask_for_no_synthesis
    (Buffer_from_base64 : string -> Buffer)
    (session : Session) (events : list Event) :
  forallb (quiet Buffer_from_base64) events = true ->
  omap (utterance_of session) events = [].
Proof.
  induction events as [|e events IH]; [reflexivity|].
  cbn [forallb]. intros H. apply andb_true_iff in H as [He Hrest].
  rewrite omap_cons_option_list, (IH Hrest).
  destruct e; cbn in He; try discriminate; reflexivity.
Qed.

(** X29.  The greeting of a started session is synthesized with the
    session's own greeting and voice; when only quiet events arrive
    while the synthesis is awaited, what is synthesized goes out in full
    if the start signal carried a stream id, and otherwise waits in the
    pending queue with nothing sent. *)
Theorem greeting_after_start (Buffer_from_base64 : string -> Buffer)
    (reg : Registry) (ws0 : list Frame)
    (start : option StartData) (lookup : AgentLookup)
    (c : string) (session : Session) (reg' : Registry)
    (sv : Services) (during : list Event) (audio : Buffer) :
  on_start reg ws0 start lookup = start_done c session reg' ->
  forallb (quiet Buffer_from_base64) during = true ->
  exists greeting after,
    greetingMessage session = Some greeting
    /\ run Buffer_from_base64 (mkCall sv session [] [])
         (greeting_timeout :: during ++ [synthesizeTTS_settled 0 (Some audio)])
       = Some after
    /\ synthesizeTTS_calls (services after)
       = synthesizeTTS_calls sv ++ [(greeting, agentVoiceId session)]
    /\ (JS.truthy (start ≫= start_streamSid) = true ->
        ws (session_of after)
          = ws0 ++ delivery (start ≫= start_streamSid) audio
        /\ audioQueue (session_of after) = [])
    /\ (JS.truthy (start ≫= start_streamSid) = false ->
        ws (session_of after) = ws0
        /\ audioQueue (session_of after) = [audio]).
Proof.
  intros H Hq.
  destruct (JS.truthy (start_callId start)) eqn:Hc.
  2:{ unfold on_start in H. cbv zeta in H. rewrite Hc in H. discriminate. }
  destruct (start_callId start) as [c0|] eqn:Ec; [|discriminate].
  pose proof (on_start_done reg ws0 start lookup c0 Ec Hc) as D.
  cbv zeta in D. rewrite D in H. injection H as <- <- <-.
  match goal with
  | |- context [mkCall sv ?s [] []] => set (session := s)
  end.
  set (cfg := agentConfig ((start ≫= customParameters) ≫= cp_agentId) lookup)
    in *.
  assert (G : greetingMessage session = Some (snd cfg)) by reflexivity.
  set (c1 := greeting_timer_fires (mkCall sv session [] [])).
  assert (E1 : c1 = mkCall (synthesizeTTS sv (snd cfg) (agentVoiceId session))
                      (set_userSpeechDetected false
                         (set_isAISpeaking true session))
                      [] [snd cfg]).
  { subst c1. unfold greeting_timer_fires. cbn [session_of]. rewrite G.
    reflexivity. }
  destruct (awaited_audio_goes_out Buffer_from_base64 c1 during 0
              (snd cfg) audio)
    as (after & Hr & _ & _ & _ & W);
    [rewrite E1; reflexivity | rewrite E1; reflexivity | exact Hq |].
  exists (snd cfg), after.
  split; [exact G|]. split; [exact Hr|].
  split.
  - destruct (run_services _ _ _ _ Hr) as [S _].
    rewrite S, omap_app, (quiet_events_ask_for_no_synthesis _ _ _ Hq).
    rewrite E1. cbn. rewrite app_nil_r. reflexivity.
  - rewrite E1 in W. cbn in W.
    split; intros Hs; rewrite Hs in W; cbn in W; exact W.
Qed.

Lemma greeting_after_start_witness :
  exists after,
    run bytes_of_text
      (mkCall noRequests
         (set_sttStream (Some (mkSttStream []))
            (set_isReady true
               (set_streamSid (Some "MZ7"%string)
                  (set_greetingMessage (Some "Hi, shoe shop here."%string)
                     (newSession "CA7" "You sell shoes." None [])))))
         [] [])
      [greeting_timeout; socket_mark None;
       synthesizeTTS_settled 0 (Some someClip)]
    = Some after
    /\ synthesizeTTS_calls (services after)
       = [("Hi, shoe shop here."%string, defaultVoiceId)]
    /\ ws (session_of after) = delivery (Some "MZ7"%string) someClip.
Proof.
  destruct (greeting_after_start bytes_of_text emptyRegistry [] someStart
              someAgent "CA7" _ _ noRequests [socket_mark None] someClip
              eq_refl eq_refl)
    as (greeting & after & G & Hr & S & W & _).
  exists after. split; [exact Hr|].
  injection G as <-. split; [exact S|]. apply (W eq_refl).
Defined.

(** ** The revisions side by side *)

Lemma PlainReply_run_cons (Buffer_from_base64 : string -> Buffer)
    (call : Call) (e : Event) (events : list Event) :
  PlainReply.run Buffer_from_base64 call (e :: events)
    = PlainReply.step Buffer_from_base64 call e
        ≫= fun call => PlainReply.run Buffer_from_base64 call events.
Proof. reflexivity. Qed.

Lemma PlainReply_on_media_kept (Buffer_from_base64 : string -> Buffer)
    (session : Session) (payload : option string) :
  let after := PlainReply.on_media Buffer_from_base64 session payload in
  context after = context session
  /\ ws after = ws session
  /\ audioQueue after = audioQueue session
  /\ isReady after = isReady session
  /\ streamSid after = streamSid session
  /\ agentPrompt after = agentPrompt session
  /\ agentVoiceId after = agentVoiceId session
  /\ greetingMessage after = greetingMessage session.
Proof.
  unfold PlainReply.on_media.
  destruct (sttStream session); [|repeat split].
  destruct payload as [p|]; [|repeat split].
  destruct (JS.truthy (Some p)); [|repeat split].
  destruct (0 <? List.length (Buffer_from_base64 p)); repeat split.
Qed.

(** One calm event keeps the two revisions alike, and the caller-speech
    flag of the later one down. *)
Lemma calm_step_alike (Buffer_from_base64 : string -> Buffer)
    (later earlier next : Call) (e : Event) :
  alike later earlier ->
  userSpeechDetected (session_of later) = false ->
  calm Buffer_from_base64 e = true ->
  step Buffer_from_base64 later e = Some next ->
  exists next',
    PlainReply.step Buffer_from_base64 earlier e = Some next'
    /\ alike next next'
    /\ userSpeechDetected (session_of next) = false.
Proof.
  intros (A1 & A2 & A3 & A4 & A5 & A6 & A7 & A8 & A9 & A10 & A11) Hf Hc.
  destruct e as [d | k response | k ttsAudio | payload | name |];
    cbn [step PlainReply.step calm] in *.
  - intros [= <-]. eexists. split; [reflexivity|].
    unfold Transcript_arrives, PlainReply.Transcript_arrives.
    destruct (transcript d) as [t|];
      [|split; [unfold alike; repeat split; assumption | exact Hf]].
    destruct (JS.blank t);
      [split; [unfold alike; repeat split; assumption | exact Hf]|].
    cbn [orb] in Hc. rewrite Hc. cbn [negb]. cbv zeta.
    unfold alike, callLLM_begin. cbn.
    destruct (silenceTimer (session_of later)); cbn;
      rewrite A1, A2, A4, A9; repeat split; assumption.
  - unfold callLLM_settles, PlainReply.callLLM_settles. rewrite <- A2.
    destruct (awaiting_callLLM later !! k); [|discriminate].
    intros [= <-]. eexists. split; [reflexivity|].
    unfold alike, speak_begin. cbn.
    rewrite A1, A3, A4, A10. repeat split; assumption.
  - unfold synthesizeTTS_settles, PlainReply.synthesizeTTS_settles.
    rewrite <- A3.
    destruct (awaiting_synthesizeTTS later !! k); [|discriminate].
    intros [= <-]. eexists. split; [reflexivity|]. cbn [session_of].
    destruct ttsAudio as [audio|];
      [|split; [unfold alike; repeat split; assumption | exact Hf]].
    unfold speak_resume. cbv zeta.
    change (userSpeechDetected
              (set_currentAudioChunks
                 (currentAudioChunks (session_of later) ++ [audio])
                 (session_of later)))
      with (userSpeechDetected (session_of later)).
    rewrite Hf.
    set (resumed := set_currentAudioChunks _ (session_of later)).
    assert (Hs : isReady resumed = isReady (session_of earlier)
                 /\ streamSid resumed = streamSid (session_of earlier)
                 /\ userSpeechDetected resumed = false)
      by (subst resumed; repeat split; assumption).
    destruct Hs as (R & S & F).
    destruct (isReady (session_of earlier)) eqn:Er;
      [destruct (JS.truthy (streamSid (session_of earlier))) eqn:Es|].
    + rewrite sendAudioToTwilio_ready, QueuedStart_sendAudioToTwilio_ready;
        try assumption; [|rewrite S; exact Es].
      subst resumed. unfold alike. cbn.
      rewrite A5, A8. repeat split; congruence.
    + rewrite sendAudioToTwilio_queues,
        QueuedStart_sendAudioToTwilio_queues;
        [|right; exact Es | right; rewrite S; exact Es].
      subst resumed. unfold alike. cbn.
      rewrite A6. repeat split; congruence.
    + rewrite sendAudioToTwilio_queues,
        QueuedStart_sendAudioToTwilio_queues;
        [|left; exact Er | left; exact R].
      subst resumed. unfold alike. cbn.
      rewrite A6. repeat split; congruence.
  - apply negb_true_iff in Hc.
    destruct (on_media_cases Buffer_from_base64 (session_of later) payload)
      as [[E _] | (stream & audio & _ & Hc' & _)];
      [|rewrite Hc in Hc'; discriminate].
    rewrite E. intros [= <-]. eexists. split; [reflexivity|].
    split; [|exact Hf].
    destruct (PlainReply_on_media_kept Buffer_from_base64
                (session_of earlier) payload)
      as (K1 & K2 & K3 & K4 & K5 & K6 & K7 & K8).
    unfold alike. cbn [with_session services session_of awaiting_callLLM
                         awaiting_synthesizeTTS].
    rewrite K1, K2, K3, K4, K5, K6, K7, K8. repeat split; assumption.
  - destruct (on_mark_cases (session_of later) name) as [[E _] | [_ E]];
      rewrite E; intros [= <-]; (eexists; split; [reflexivity|]);
      (split; [unfold alike; repeat split; assumption | exact Hf]).
  - intros [= <-]. eexists. split; [reflexivity|].
    unfold greeting_timer_fires, PlainReply.greeting_timer_fires.
    rewrite <- A11.
    destruct (greetingMessage (session_of later)) eqn:G;
      [|split; [unfold alike; rewrite ?G; repeat split; assumption | exact Hf]].
    unfold alike, speak_begin. cbn.
    rewrite G, A1, A3, A10. repeat split; assumption.
Qed.

Lemma calm_run_alike (Buffer_from_base64 : string -> Buffer)
    (events : list Event) (later earlier after : Call) :
  alike later earlier ->
  userSpeechDetected (session_of later) = false ->
  forallb (calm Buffer_from_base64) events = true ->
  run Buffer_from_base64 later events = Some after ->
  exists after',
    PlainReply.run Buffer_from_base64 earlier events = Some after'
    /\ alike after after'.
Proof.
  revert later earlier.
  induction events as [|e events IH]; intros later earlier Ha Hf Hc H.
  - injection H as <-. exists earlier. split; [reflexivity | exact Ha].
  - cbn [forallb] in Hc. apply andb_true_iff in Hc as [He Hrest].
    apply run_cons_Some in H as (next & Hs & Hr).
    destruct (calm_step_alike _ _ _ _ _ Ha Hf He Hs)
      as (next' & Hs' & Ha' & Hf').
    destruct (IH next next' Ha' Hf' Hrest Hr) as (after' & Hr' & Hal).
    exists after'. rewrite PlainReply_run_cons, Hs'. split; assumption.
Qed.

(** X21.  As long as the caller is not heard (no caller audio reaches the
    handler and the recognizer reports no interim result), the barge-in
    revision and the revision before it cannot be told apart from
    outside, whatever transcripts arrive and in whatever order the
    requests of overlapping listeners settle: every run of the one is a
    run of the other, with the same requests made, the same listeners
    suspended, and the same history, socket frames and pending queue. *)
Theorem revisions_agree_while_the_caller_is_unheard
    (Buffer_from_base64 : string -> Buffer)
    (events : list Event) (call later : Call) :
  userSpeechDetected (session_of call) = false ->
  forallb (calm Buffer_from_base64) events = true ->
  run Buffer_from_base64 call events = Some later ->
  exists earlier,
    PlainReply.run Buffer_from_base64 call events = Some earlier
    /\ alike later earlier.
Proof.
  intros Hf Hc H.
  apply (calm_run_alike Buffer_from_base64 events call call later);
    try assumption.
  unfold alike. repeat split.
Qed.

Lemma revisions_agree_while_the_caller_is_unheard_witness :
  exists later,
    run bytes_of_text listeningCall
      [recognizer_Transcript (mkTranscriptData (Some "one"%string) true);
       recognizer_Transcript (mkTranscriptData (Some "two"%string) true);
       callLLM_settled 1 (fulfilled "reply to two"%string);
       synthesizeTTS_settled 0 (Some someClip);
       socket_mark (Some "audio_complete"%string);
       callLLM_settled 0 rejected;
       socket_media (Some ""%string);
       synthesizeTTS_settled 0 None]
    = Some later
    /\ exists earlier,
         PlainReply.run bytes_of_text listeningCall
           [recognizer_Transcript (mkTranscriptData (Some "one"%string) true);
            recognizer_Transcript (mkTranscriptData (Some "two"%string) true);
            callLLM_settled 1 (fulfilled "reply to two"%string);
            synthesizeTTS_settled 0 (Some someClip);
            socket_mark (Some "audio_complete"%string);
            callLLM_settled 0 rejected;
            socket_media (Some ""%string);
            synthesizeTTS_settled 0 None]
         = Some earlier
         /\ alike later earlier.
Proof.
  eexists. split; [vm_compute; reflexivity|].
  apply (revisions_agree_while_the_caller_is_unheard bytes_of_text
           [recognizer_Transcript (mkTranscriptData (Some "one"%string) true);
            recognizer_Transcript (mkTranscriptData (Some "two"%string) true);
            callLLM_settled 1 (fulfilled "reply to two"%string);
            synthesizeTTS_settled 0 (Some someClip);
            socket_mark (Some "audio_complete"%string);
            callLLM_settled 0 rejected;
            socket_media (Some ""%string);
            synthesizeTTS_settled 0 None]
           listeningCall);
    [reflexivity | reflexivity | vm_compute; reflexivity].
Defined.

(** Caller audio tells the revisions apart: one media event while the
    synthesis is awaited, and the barge-in revision sends nothing where
    the earlier one delivers the clip. *)
Example caller_audio_tells_the_revisions_apart :
  (ws ∘ session_of
     <$> run bytes_of_text listeningCall
           [recognizer_Transcript (mkTranscriptData (Some "Hi"%string) true);
            callLLM_settled 0 (fulfilled "Hello."%string);
            socket_media (Some "fw=="%string);
            synthesizeTTS_settled 0 (Some someClip)])
  = Some []
  /\ (ws ∘ session_of
        <$> PlainReply.run bytes_of_text listeningCall
              [recognizer_Transcript (mkTranscriptData (Some "Hi"%string) true);
               callLLM_settled 0 (fulfilled "Hello."%string);
               socket_media (Some "fw=="%string);
               synthesizeTTS_settled 0 (Some someClip)])
     = Some (delivery (Some "MZ1"%string) someClip).
Proof. split; vm_compute; reflexivity. Qed.
